(** * Kangal: the LoadTest controller and the ghz backend, embedded in Rocq

    The development follows three Go files:
    - [pkg/backends/ghz/resources.go]  (module [ghz]),
    - [pkg/controller/loadtest.go]     (module [controller]),
    - [cmd/controller.go]              (module [cmd]).

    Go values are modelled as the code has them: strings as [string], the
    [int32] counters of a job as [Z], a [map[string]string] as an optional
    [gmap] ([None] is Go's nil map), pointers that may be nil as [option].
    Calls that leave the process (API server, informer cache, work queue,
    logger, meters) are recorded in a trace of effects; what they answer is
    given by the interfaces the controller holds. A panic is an outcome of
    its own, and deferred calls run on it as they do on a return. The
    deadline of a reconcile and the scheduling of workers are outside the
    model: one reconcile is followed from its first statement to its
    last. *)

From Stdlib Require Import ZArith Lia Bool List Ascii.
From stdpp Require Import base strings gmap list.
Import ListNotations.

Local Open Scope string_scope.
Local Open Scope Z_scope.

(** ** Go's built-in notions *)

Module golang.

(** A [map[string]string]; [None] is the nil map. *)
Definition StringMap : Type := option (gmap string string).

(** [fmt.Sprintf] with the format [%s:%s]: with string operands, [%s] verbs
    and literal text make a concatenation. *)
Definition Sprintf_s_colon_s (a b : string) : string := a +:+ ":" +:+ b.

(** What a function call ends with: a normal return, or a run-time panic
    that unwinds the stack (deferred calls still run). *)
Inductive completion (A : Type) : Type :=
| Normal (a : A)
| Panic (msg : string).
Arguments Normal {A} a.
Arguments Panic {A} msg.

(** [maps.Clone]: a shallow copy, nil stays nil. *)
Definition maps_Clone (m : StringMap) : StringMap := m.

(** [m[k] = v] on a map: a nil map makes the statement panic. *)
Definition map_assign (m : StringMap) (k v : string) : completion StringMap :=
  match m with
  | None => Panic "assignment to entry in nil map"
  | Some g => Normal (Some (<[k := v]> g))
  end.

End golang.

(** ** Package [time] *)

Module time.

(** An instant, as a count of nanoseconds. *)
Definition Time : Type := Z.
(** A [Duration] is an [int64] count of nanoseconds. *)
Definition Duration : Type := Z.

Definition minDuration : Duration := - 2 ^ 63.
Definition maxDuration : Duration := 2 ^ 63 - 1.

(** [t.Sub(u)]: the difference, held at the ends of the [int64] range. *)
Definition Sub (t u : Time) : Duration :=
  if t - u <? minDuration then minDuration
  else if maxDuration <? t - u then maxDuration
  else t - u.

(** [time.Since(t)] is [time.Now().Sub(t)]. *)
Definition Since (now t : Time) : Duration := Sub now t.

End time.

(** ** Package [metav1] *)

Module metaV1.

Record OwnerReference : Type := {
  APIVersion : string;
  Kind : string;
  OwnerName : string;
  OwnerUID : string;
  Controller : option bool;
  BlockOwnerDeletion : option bool
}.

Record ObjectMeta : Type := {
  Name : string;
  Namespace : string;
  SelfLink : string;
  UID : string;
  ResourceVersion : string;
  CreationTimestamp : time.Time;
  Labels : golang.StringMap;
  Annotations : golang.StringMap;
  OwnerReferences : list OwnerReference
}.

(** [GetControllerOf]: the first owner reference whose [Controller]
    pointer is set and true. *)
Fixpoint GetControllerOf (refs : list OwnerReference) : option OwnerReference :=
  match refs with
  | [] => None
  | r :: rest =>
      match Controller r with
      | Some true => Some r
      | _ => GetControllerOf rest
      end
  end.

(** [NewControllerRef(owner, gvk)]. *)
Definition NewControllerRef (owner : ObjectMeta) (groupVersion kind : string)
  : OwnerReference :=
  {| APIVersion := groupVersion;
     Kind := kind;
     OwnerName := Name owner;
     OwnerUID := UID owner;
     Controller := Some true;
     BlockOwnerDeletion := Some true |}.

Definition emptyMeta : ObjectMeta :=
  {| Name := ""; Namespace := ""; SelfLink := ""; UID := "";
     ResourceVersion := ""; CreationTimestamp := 0;
     Labels := None; Annotations := None; OwnerReferences := [] |}.

End metaV1.

(** ** Package [corev1] *)

Module coreV1.

Record EnvVar : Type := { EnvName : string; EnvValue : string }.

Record VolumeMount : Type := {
  MountName : string;
  MountPath : string;
  SubPath : string
}.

(** A volume backed by a config map; [ConfigMapName] is
    [VolumeSource.ConfigMap.LocalObjectReference.Name]. *)
Record Volume : Type := { VolumeName : string; ConfigMapName : string }.

(** Resource quantities are kept as they are written. *)
Record ResourceRequirements : Type := {
  Limits : gmap string string;
  Requests : gmap string string
}.

Record Container : Type := {
  ContainerName : string;
  Image : string;
  Env : list EnvVar;
  Resources : ResourceRequirements;
  Args : list string;
  VolumeMounts : list VolumeMount
}.

Record PodSpec : Type := {
  RestartPolicy : string;
  Volumes : list Volume;
  Containers : list Container
}.

Record PodTemplateSpec : Type := {
  TemplateMeta : metaV1.ObjectMeta;
  TemplateSpec : PodSpec
}.

Record Pod : Type := { PodMeta : metaV1.ObjectMeta; PodSpecOf : PodSpec }.

Record ConfigMap : Type := {
  ConfigMapMeta : metaV1.ObjectMeta;
  Data : golang.StringMap
}.

Record Namespace : Type := { NamespaceMeta : metaV1.ObjectMeta }.

End coreV1.

(** ** Package [batchv1] *)

Module batchV1.

(** The counters are [int32]; [CompletionTime] is a pointer. *)
Record JobStatus : Type := {
  Active : Z;
  Succeeded : Z;
  Failed : Z;
  CompletionTime : option time.Time
}.

Record JobSpec : Type := {
  BackoffLimit : option Z;
  Template : coreV1.PodTemplateSpec
}.

Record Job : Type := {
  JobMeta : metaV1.ObjectMeta;
  Spec : JobSpec;
  Status : JobStatus
}.

Definition emptyStatus : JobStatus :=
  {| Active := 0; Succeeded := 0; Failed := 0; CompletionTime := None |}.

End batchV1.

(** ** Package [loadtest/v1]: the custom resource *)

Module loadTestV1.

(** Modelled from the spec: the declaration of the phase type is not among
    the sources; the data model lists its five values. *)
Inductive LoadTestPhase : Type :=
| LoadTestCreating
| LoadTestStarting
| LoadTestRunning
| LoadTestFinished
| LoadTestErrored.

Definition phase_eqb (p q : LoadTestPhase) : bool :=
  match p, q with
  | LoadTestCreating, LoadTestCreating
  | LoadTestStarting, LoadTestStarting
  | LoadTestRunning, LoadTestRunning
  | LoadTestFinished, LoadTestFinished
  | LoadTestErrored, LoadTestErrored => true
  | _, _ => false
  end.

Record ImageDetails : Type := { Image : string; Tag : string }.

(** Modelled from the spec: the fields of a LoadTest the core consumes
    (data model, section 3). *)
Record LoadTestSpec : Type := {
  Type_ : string;
  TestFile : string;
  MasterConfig : ImageDetails;
  Tags : golang.StringMap
}.

Record LoadTestStatus : Type := {
  Phase : LoadTestPhase;
  Namespace : string;
  JobStatus : batchV1.JobStatus
}.

Record LoadTest : Type := {
  ObjectMeta : metaV1.ObjectMeta;
  Spec : LoadTestSpec;
  Status : LoadTestStatus
}.

Definition GetName (lt : LoadTest) : string := metaV1.Name (ObjectMeta lt).

(** [DeepCopy]: values of the model share nothing, the copy is the value. *)
Definition DeepCopy (lt : LoadTest) : LoadTest := lt.

Definition withStatus (lt : LoadTest) (st : LoadTestStatus) : LoadTest :=
  {| ObjectMeta := ObjectMeta lt; Spec := Spec lt; Status := st |}.

Definition withNamespace (st : LoadTestStatus) (ns : string) : LoadTestStatus :=
  {| Phase := Phase st; Namespace := ns; JobStatus := JobStatus st |}.

End loadTestV1.

(** ** Values behind [interface{}] *)

(** What an informer hands to a handler, or a queue hands to a worker: a
    pointer to an API object, a tombstone around one, a string key, or a value
    of some other type. *)
Inductive object : Type :=
| OLoadTest (lt : loadTestV1.LoadTest)
| OJob (j : batchV1.Job)
| OPod (p : coreV1.Pod)
| OTombstone (key : string) (obj : object)
| OString (s : string)
| OOther.

(** The type assertion [obj.(metaV1.Object)]. *)
Definition asMetaObject (obj : object) : option metaV1.ObjectMeta :=
  match obj with
  | OLoadTest lt => Some (loadTestV1.ObjectMeta lt)
  | OJob j => Some (batchV1.JobMeta j)
  | OPod p => Some (coreV1.PodMeta p)
  | OTombstone _ _ | OString _ | OOther => None
  end.

(** ** Errors *)

Module errors.

(** The reason carried by an API status error. *)
Inductive StatusReason : Type :=
| StatusReasonNotFound
| StatusReasonConflict
| StatusReasonAlreadyExists
| StatusReasonTimeout
| StatusReasonUnknown.

(** Error values. [Errorf] keeps the format and its operands as they are
    passed; the operand of a [%w] verb is the error it wraps. *)
Inductive error : Type :=
| StatusError (reason : StatusReason) (message : string)
| ErrorString (message : string)
| Errorf (format : string) (args : list operand)
with operand : Type :=
| ArgString (s : string)
| ArgWrapped (e : error)
| ArgErrorText (e : error)
| ArgObject (obj : object).

(** The reason of the first status error on the [Unwrap] chain. *)
Fixpoint ReasonForError (e : error) : option StatusReason :=
  match e with
  | StatusError r _ => Some r
  | ErrorString _ => None
  | Errorf _ args =>
      (fix first_wrapped (l : list operand) : option StatusReason :=
         match l with
         | [] => None
         | ArgWrapped e' :: _ => ReasonForError e'
         | _ :: rest => first_wrapped rest
         end) args
  end.

Definition IsNotFound (e : error) : bool :=
  match ReasonForError e with
  | Some StatusReasonNotFound => true
  | _ => false
  end.

Definition IsConflict (e : error) : bool :=
  match ReasonForError e with
  | Some StatusReasonConflict => true
  | _ => false
  end.

(** The pair [(value, err)] a fallible Go function returns: either the
    value with a nil error, or an error. *)
Inductive result (A : Type) : Type :=
| Ok (a : A)
| Err (e : error).
Arguments Ok {A} a.
Arguments Err {A} e.

End errors.

(** ** Package [zap]: structured logging *)

Module zap.

Inductive Level : Type := DebugLevel | InfoLevel | WarnLevel | ErrorLevel.

Inductive Field : Type :=
| String (key value : string)
| Error (err : errors.error)
| Any (key : string) (value : loadTestV1.LoadTestStatus).

(** A logger is the list of fields attached to it so far. *)
Definition Logger : Type := list Field.

Definition With (l : Logger) (fields : list Field) : Logger := (l ++ fields)%list.

End zap.

(** ** Effects *)

(** Every call that leaves the reconciler is written to a trace, oldest
    first. *)
Inductive effect : Type :=
| Log (level : zap.Level) (logger : zap.Logger) (msg : string) (fields : list zap.Field)
| HandleError (err : errors.error)
| QueueAdd (key : string)
| QueueAddRateLimited (key : string)
| QueueForget (item : object)
| QueueDone (item : object)
| MeterAdd (instrument : string) (value : Z) (attributes : list (string * string))
| MeterRecord (instrument : string) (value : Z) (attributes : list (string * string))
| NamespacesList (labelSelector : string)
| NamespacesCreate (ns : coreV1.Namespace)
| LoadTestsUpdateStatus (lt : loadTestV1.LoadTest)
| LoadTestsDelete (name : string)
| BackendSync (lt : loadTestV1.LoadTest) (reportURL : string)
| BackendSyncStatus (lt : loadTestV1.LoadTest).

(** A computation with effects: its value and the trace it leaves. *)
Definition Eff (A : Type) : Type := (A * list effect)%type.

Definition ret {A : Type} (a : A) : Eff A := (a, []).

Definition bind {A B : Type} (m : Eff A) (k : A -> Eff B) : Eff B :=
  let '(a, t1) := m in
  let '(b, t2) := k a in
  (b, (t1 ++ t2)%list).

Definition emit (e : effect) : Eff unit := (tt, [e]).

Definition value {A : Type} (m : Eff A) : A := fst m.
Definition trace {A : Type} (m : Eff A) : list effect := snd m.

Declare Scope eff_scope.
Delimit Scope eff_scope with eff.
Notation "x <- m ;; k" := (bind m (fun x => k))
  (at level 100, m at next level, right associativity) : eff_scope.
Notation "m ;; k" := (bind m (fun _ => k))
  (at level 100, right associativity) : eff_scope.

(** ** Package [backends] *)

Module backends.

Record Resources : Type := {
  CPULimits : string;
  CPURequests : string;
  MemoryLimits : string;
  MemoryRequests : string
}.

(** The [Backend] interface. [Sync] answers with an error or nil;
    [SyncStatus] writes through the status pointer it is given and answers
    with an error or nil: the status it leaves behind is its first
    component. *)
Record Backend : Type := {
  Sync : loadTestV1.LoadTest -> string -> option errors.error;
  SyncStatus : loadTestV1.LoadTest ->
               loadTestV1.LoadTestStatus * option errors.error
}.

Record Registry : Type := {
  GetBackend : string -> errors.result Backend
}.

End backends.

(** ** Package [ghz]: [pkg/backends/ghz/resources.go] *)

Module ghz.
Section Resources.

(** Declared in packages that are not among the sources: the group and
    version the LoadTest kind is registered under, and the helper that
    turns configured resources into container requirements. *)
Variable SchemeGroupVersion : string.
Variable BuildResourceRequirements : backends.Resources -> coreV1.ResourceRequirements.

Definition loadTestJobName : string := "loadtest-job".
Definition loadTestFileConfigMapName : string := "loadtest-testfile".
Definition configFileName : string := "config.json".

Record Backend : Type := {
  logger : zap.Logger;
  image : loadTestV1.ImageDetails;
  podAnnotations : golang.StringMap;
  resources : backends.Resources
}.

Definition named (name : string) : metaV1.ObjectMeta :=
  {| metaV1.Name := name;
     metaV1.Namespace := metaV1.Namespace metaV1.emptyMeta;
     metaV1.SelfLink := metaV1.SelfLink metaV1.emptyMeta;
     metaV1.UID := metaV1.UID metaV1.emptyMeta;
     metaV1.ResourceVersion := metaV1.ResourceVersion metaV1.emptyMeta;
     metaV1.CreationTimestamp := metaV1.CreationTimestamp metaV1.emptyMeta;
     metaV1.Labels := None;
     metaV1.Annotations := None;
     metaV1.OwnerReferences := [] |}.

Definition NewTestFileConfigMap (b : Backend) (loadTest : loadTestV1.LoadTest)
  : coreV1.ConfigMap :=
  let testfile := loadTestV1.TestFile (loadTestV1.Spec loadTest) in
  {| coreV1.ConfigMapMeta := named loadTestFileConfigMapName;
     coreV1.Data := Some {[ configFileName := testfile ]} |}.

Definition NewJob (b : Backend) (loadTest : loadTestV1.LoadTest)
  (loadTestFileConfigMap : coreV1.ConfigMap) (reportURL : string)
  : Eff batchV1.Job :=
  (let logger := zap.With (logger b)
     [zap.String "loadtest" (loadTestV1.GetName loadTest);
      zap.String "namespace" (loadTestV1.Namespace (loadTestV1.Status loadTest))] in
   let ownerRef := metaV1.NewControllerRef (loadTestV1.ObjectMeta loadTest)
                     SchemeGroupVersion "LoadTest" in
   let masterConfig := loadTestV1.MasterConfig (loadTestV1.Spec loadTest) in
   let imageRef := golang.Sprintf_s_colon_s
                     (loadTestV1.Image masterConfig) (loadTestV1.Tag masterConfig) in
   imageRef <-
     (if String.eqb imageRef ":" then
        let imageRef := golang.Sprintf_s_colon_s
                          (loadTestV1.Image (image b)) (loadTestV1.Tag (image b)) in
        emit (Log zap.WarnLevel logger
                "Loadtest.Spec.MasterConfig is empty; using default image"
                [zap.String "imageRef" imageRef]) ;;
        ret imageRef
      else ret imageRef) ;;
   let envVars : list coreV1.EnvVar := [] in
   let envVars :=
     if negb (String.eqb "" reportURL) then
       (envVars ++ [ {| coreV1.EnvName := "REPORT_PRESIGNED_URL";
                        coreV1.EnvValue := reportURL |} ])%list
     else envVars in
   ret {| batchV1.JobMeta :=
            {| metaV1.Name := loadTestJobName;
               metaV1.Namespace := loadTestV1.Namespace (loadTestV1.Status loadTest);
               metaV1.SelfLink := "";
               metaV1.UID := "";
               metaV1.ResourceVersion := "";
               metaV1.CreationTimestamp := metaV1.CreationTimestamp metaV1.emptyMeta;
               metaV1.Labels := Some {[ "name" := loadTestJobName ]};
               metaV1.Annotations := None;
               metaV1.OwnerReferences := [ownerRef] |};
          batchV1.Spec :=
            {| batchV1.BackoffLimit := None;
               batchV1.Template :=
                 {| coreV1.TemplateMeta :=
                      {| metaV1.Name := "";
                         metaV1.Namespace := "";
                         metaV1.SelfLink := "";
                         metaV1.UID := "";
                         metaV1.ResourceVersion := "";
                         metaV1.CreationTimestamp :=
                           metaV1.CreationTimestamp metaV1.emptyMeta;
                         metaV1.Labels := Some {[ "name" := loadTestJobName ]};
                         metaV1.Annotations := podAnnotations b;
                         metaV1.OwnerReferences := [] |};
                    coreV1.TemplateSpec :=
                      {| coreV1.RestartPolicy := "Never";
                         coreV1.Volumes :=
                           [ {| coreV1.VolumeName := "testfile";
                                coreV1.ConfigMapName :=
                                  metaV1.Name (coreV1.ConfigMapMeta loadTestFileConfigMap) |} ];
                         coreV1.Containers :=
                           [ {| coreV1.ContainerName := "ghz";
                                coreV1.Image := imageRef;
                                coreV1.Env := envVars;
                                coreV1.Resources := BuildResourceRequirements (resources b);
                                coreV1.Args := [ "--config=/data/config.json";
                                                 "--output=/results";
                                                 "--format=html" ];
                                coreV1.VolumeMounts :=
                                  [ {| coreV1.MountName := "testfile";
                                       coreV1.MountPath := "/data/config.json";
                                       coreV1.SubPath := "config.json" |} ] |} ] |} |} |};
          batchV1.Status := batchV1.emptyStatus |})%eff.

(** [determineLoadTestStatusFromJobs] reads existing job statuses and
    determines what the loadtest status should be. *)
Definition determineLoadTestStatusFromJobs (job : batchV1.Job)
  : loadTestV1.LoadTestPhase :=
  if 0 <? batchV1.Failed (batchV1.Status job) then loadTestV1.LoadTestErrored
  else if 0 <? batchV1.Active (batchV1.Status job) then loadTestV1.LoadTestRunning
  else if (batchV1.Succeeded (batchV1.Status job) =? 0)
          && (batchV1.Failed (batchV1.Status job) =? 0)
       then loadTestV1.LoadTestStarting
  else loadTestV1.LoadTestFinished.

End Resources.
End ghz.

(** ** Package [cache] of client-go: keys *)

Module cache.

(** [strings.Split(s, sep)] for a one-byte separator. *)
Fixpoint Split (sep : ascii) (s : string) : list string :=
  match s with
  | EmptyString => [""]
  | String c rest =>
      if Ascii.eqb c sep then "" :: Split sep rest
      else match Split sep rest with
           | head :: tail => String c head :: tail
           | [] => [String c ""]
           end
  end.

(** [SplitMetaNamespaceKey]: one part is a name, two parts are a namespace
    and a name, anything else is an error. *)
Definition SplitMetaNamespaceKey (key : string) : errors.result (string * string) :=
  match Split "/"%char key with
  | [name] => errors.Ok ("", name)
  | [namespace; name] => errors.Ok (namespace, name)
  | _ => errors.Err (errors.Errorf "unexpected key format: %q" [errors.ArgString key])
  end.

(** [MetaNamespaceKeyFunc]: [namespace/name], or the name alone when the
    namespace is empty; an error for a value without object metadata. *)
Definition MetaNamespaceKeyFunc (obj : object) : errors.result string :=
  match asMetaObject obj with
  | None => errors.Err (errors.ErrorString "object does not implement the Object interfaces")
  | Some meta =>
      if negb (String.eqb (metaV1.Namespace meta) "") then
        errors.Ok (metaV1.Namespace meta +:+ "/" +:+ metaV1.Name meta)
      else errors.Ok (metaV1.Name meta)
  end.

End cache.

(** ** Package [controller]: [pkg/controller/loadtest.go] *)

Module controller.
Section Controller.

(** Declared in the LoadTest API package, which is not among the sources:
    the registered group and version, and the [String] method of a
    phase. *)
Variable SchemeGroupVersion : string.
Variable PhaseString : loadTestV1.LoadTestPhase -> string.

Definition controllerAgentName : string := "kangal".
Definition falseString : string := "false".
Definition trueString : string := "true".

(** Modelled from the spec: the configuration struct is declared in a file
    that is not among the sources; these are the fields of section 6 that
    the reconciler reads. *)
Record Config : Type := {
  SyncHandlerTimeout : time.Duration;
  CleanUpThreshold : time.Duration;
  KangalProxyURL : string;
  NamespaceLabels : golang.StringMap;
  NamespaceAnnotations : golang.StringMap;
  PodAnnotations : golang.StringMap
}.

(** The collaborators of the controller. Each is called at most once per
    reconcile with given arguments, so what it answers is a function of
    the arguments. *)

(** [listers.LoadTestLister]: reads the informer cache. *)
Record LoadTestLister : Type := {
  Get : string -> errors.result loadTestV1.LoadTest
}.

(** [kubeClientSet.CoreV1().Namespaces()]. *)
Record KubeClientSet : Type := {
  Namespaces_List : string -> errors.result (list coreV1.Namespace);
  Namespaces_Create : coreV1.Namespace -> errors.result coreV1.Namespace
}.

(** [kangalClientSet.KangalV1().LoadTests()]. *)
Record KangalClientSet : Type := {
  LoadTests_UpdateStatus : loadTestV1.LoadTest -> errors.result loadTestV1.LoadTest;
  LoadTests_Delete : string -> option errors.error
}.

(** The work queue as a worker sees it: what [Get] hands out and what
    [Len] reports. [Add], [AddRateLimited], [Forget] and [Done] are
    effects. *)
Record WorkQueue : Type := {
  Queue_Get : object * bool;
  Queue_Len : Z
}.

(** The wall clock: the instant [time.Since] reads during a reconcile, and
    the time elapsed since the worker took the item when the deferred
    metrics closure runs. *)
Record Clock : Type := {
  Now : time.Time;
  SinceStart : time.Duration
}.

Record Controller : Type := {
  cfg : Config;
  kubeClientSet : KubeClientSet;
  kangalClientSet : KangalClientSet;
  loadtestsLister : LoadTestLister;
  workQueue : WorkQueue;
  registry : backends.Registry;
  logger : zap.Logger;
  clock : Clock
}.

(** [deleteLoadTest] has no result: a failed delete is logged. *)
Definition deleteLoadTest (c : Controller) (key : string)
  (loadTest : loadTestV1.LoadTest) : Eff unit :=
  (emit (LoadTestsDelete (loadTestV1.GetName loadTest)) ;;
   match LoadTests_Delete (kangalClientSet c) (loadTestV1.GetName loadTest) with
   | None => ret tt
   | Some err =>
       (if errors.IsConflict err then
          emit (Log zap.ErrorLevel (logger c)
                  "There is a conflict while deleting the loadtest" [zap.Error err]) ;;
          emit (HandleError
                  (errors.Errorf
                     "there is a conflict with loadtest %q between datastore and cache. It might be because object has been removed or modified in the datastore"
                     [errors.ArgString key]))
        else ret tt) ;;
       emit (Log zap.ErrorLevel (logger c) "Failed to delete loadtest:" [zap.Error err])
   end)%eff.

(** [checkLoadTestLifeTimeExceeded] returns true if the input loadtest has
    existed for longer than certain threshold, and its status is Finished
    or Errored. [now] is the instant [time.Since] reads. *)
Definition checkLoadTestLifeTimeExceeded (now : time.Time)
  (loadTest : loadTestV1.LoadTest) (deleteThreshold : time.Duration) : bool :=
  let status := loadTestV1.Status loadTest in
  if match batchV1.CompletionTime (loadTestV1.JobStatus status) with
     | Some completionTime =>
         (deleteThreshold <? time.Since now completionTime)
         && (loadTestV1.phase_eqb (loadTestV1.Phase status) loadTestV1.LoadTestFinished
             || loadTestV1.phase_eqb (loadTestV1.Phase status) loadTestV1.LoadTestErrored)
     | None => false
     end
  then true
  else if loadTestV1.phase_eqb (loadTestV1.Phase status) loadTestV1.LoadTestErrored
          && (deleteThreshold <?
                time.Since now (metaV1.CreationTimestamp (loadTestV1.ObjectMeta loadTest)))
  then true
  else false.

(** [newNamespace] builds the namespace object of a loadtest. Its error
    result is always nil; writing the labels panics on a nil map. *)
Definition newNamespace (loadtest : loadTestV1.LoadTest)
  (namespacelabels namespaceAnnotations : golang.StringMap)
  : golang.completion (errors.result coreV1.Namespace) :=
  let labels := golang.maps_Clone namespacelabels in
  match golang.map_assign labels "controller" (loadTestV1.GetName loadtest) with
  | golang.Panic msg => golang.Panic msg
  | golang.Normal labels =>
      match golang.map_assign labels "app" "kangal" with
      | golang.Panic msg => golang.Panic msg
      | golang.Normal labels =>
          golang.Normal (errors.Ok
            {| coreV1.NamespaceMeta :=
                 {| metaV1.Name := loadTestV1.GetName loadtest;
                    metaV1.Namespace := "";
                    metaV1.SelfLink := "";
                    metaV1.UID := "";
                    metaV1.ResourceVersion := "";
                    metaV1.CreationTimestamp := metaV1.CreationTimestamp metaV1.emptyMeta;
                    metaV1.Labels := labels;
                    metaV1.Annotations := namespaceAnnotations;
                    metaV1.OwnerReferences :=
                      [ metaV1.NewControllerRef (loadTestV1.ObjectMeta loadtest)
                          SchemeGroupVersion "LoadTest" ] |} |})
      end
  end.

(** The logger of [checkOrCreateNamespace]: the loadtest's name, then one
    field per tag (a nil map has none). *)
Definition namespaceLogger (c : Controller) (loadtest : loadTestV1.LoadTest)
  : zap.Logger :=
  let logger := zap.With (logger c) [zap.String "loadtest" (loadTestV1.GetName loadtest)] in
  match loadTestV1.Tags (loadTestV1.Spec loadtest) with
  | None => logger
  | Some tags =>
      fold_left (fun lg kv => zap.With lg [zap.String (fst kv) (snd kv)])
                (map_to_list tags) logger
  end.

(** [checkOrCreateNamespace] writes [Status.Namespace] through the pointer
    it is given: the loadtest it leaves behind is the second component. *)
Definition checkOrCreateNamespace (c : Controller) (loadtest : loadTestV1.LoadTest)
  : Eff (golang.completion (option errors.error) * loadTestV1.LoadTest) :=
  (if negb (String.eqb (loadTestV1.Namespace (loadTestV1.Status loadtest)) "") then
     ret (golang.Normal None, loadtest)
   else
     let logger := namespaceLogger c loadtest in
     let selector := "controller=" +:+ loadTestV1.GetName loadtest in
     emit (NamespacesList selector) ;;
     match Namespaces_List (kubeClientSet c) selector with
     | errors.Err err => ret (golang.Normal (Some err), loadtest)
     | errors.Ok items =>
         named <-
           match items with
           | [] =>
               match newNamespace loadtest (NamespaceLabels (cfg c))
                       (NamespaceAnnotations (cfg c)) with
               | golang.Panic msg => ret (golang.Panic msg)
               | golang.Normal (errors.Err err) => ret (golang.Normal (errors.Err err))
               | golang.Normal (errors.Ok newNamespace) =>
                   emit (NamespacesCreate newNamespace) ;;
                   match Namespaces_Create (kubeClientSet c) newNamespace with
                   | errors.Err err => ret (golang.Normal (errors.Err err))
                   | errors.Ok namespaceObj =>
                       let namespaceName := metaV1.Name (coreV1.NamespaceMeta namespaceObj) in
                       emit (Log zap.InfoLevel logger "Created new namespace"
                               [zap.String "namespace" namespaceName]) ;;
                       ret (golang.Normal (errors.Ok namespaceName))
                   end
               end
           | first :: _ =>
               ret (golang.Normal (errors.Ok (metaV1.Name (coreV1.NamespaceMeta first))))
           end ;;
         match named with
         | golang.Panic msg => ret (golang.Panic msg, loadtest)
         | golang.Normal (errors.Err err) => ret (golang.Normal (Some err), loadtest)
         | golang.Normal (errors.Ok namespaceName) =>
             ret (golang.Normal None,
                  loadTestV1.withStatus loadtest
                    (loadTestV1.withNamespace (loadTestV1.Status loadtest) namespaceName))
         end
     end)%eff.

(** [updateLoadTestStatus] has no result. *)
Definition updateLoadTestStatus (c : Controller) (key : string)
  (loadTest loadTestFromCache : loadTestV1.LoadTest) : Eff unit :=
  (let logger := zap.With (logger c) [zap.String "loadtest" (loadTestV1.GetName loadTest)] in
   let phase := loadTestV1.Phase (loadTestV1.Status loadTest) in
   let cachedPhase := loadTestV1.Phase (loadTestV1.Status loadTestFromCache) in
   if negb (loadTestV1.phase_eqb phase cachedPhase) then
     emit (Log zap.DebugLevel logger "Updating loadtest status"
             [zap.String "new phase" (PhaseString phase);
              zap.String "previous phase" (PhaseString cachedPhase)]) ;;
     emit (LoadTestsUpdateStatus loadTest) ;;
     match LoadTests_UpdateStatus (kangalClientSet c) loadTest with
     | errors.Err err =>
         if errors.IsConflict err then
           emit (HandleError
                   (errors.Errorf
                      "there is a conflict with loadtest '%s' between datastore and cache. it might be because object has been removed or modified in the datastore"
                      [errors.ArgString key]))
         else
           emit (Log zap.ErrorLevel logger "Failed updating loadtest status" [zap.Error err])
     | errors.Ok _ =>
         emit (Log zap.DebugLevel logger "Status updated"
                 [zap.Any "status" (loadTestV1.Status loadTest)])
     end
   else ret tt)%eff.

(** [enqueueLoadTest] takes a LoadTest resource and converts it into a
    namespace/name string which is then put onto the work queue. *)
Definition enqueueLoadTest (c : Controller) (obj : object) : Eff unit :=
  match cache.MetaNamespaceKeyFunc obj with
  | errors.Err err => emit (HandleError err)
  | errors.Ok key => emit (QueueAdd key)
  end.

(** The part of [handleObject] that follows the decoding of the object. *)
Definition handleOwner (c : Controller) (object : metaV1.ObjectMeta) : Eff unit :=
  (match metaV1.GetControllerOf (metaV1.OwnerReferences object) with
   | Some ownerRef =>
       if negb (String.eqb (metaV1.Kind ownerRef) "LoadTest") then ret tt
       else
         emit (Log zap.DebugLevel (logger c) "Processing object"
                 [zap.String "object-name" (metaV1.Name object)]) ;;
         match Get (loadtestsLister c) (metaV1.OwnerName ownerRef) with
         | errors.Err _ =>
             emit (Log zap.DebugLevel (logger c) "ignoring orphaned object"
                     [zap.String "loadtest" (metaV1.SelfLink object);
                      zap.String "object_owner" (metaV1.OwnerName ownerRef)])
         | errors.Ok foo => enqueueLoadTest c (OLoadTest foo)
         end
   | None => ret tt
   end)%eff.

(** [handleObject] will take any resource implementing [metaV1.Object] and
    attempt to find the LoadTest resource that owns it. *)
Definition handleObject (c : Controller) (obj : object) : Eff unit :=
  (match asMetaObject obj with
   | Some object => handleOwner c object
   | None =>
       match obj with
       | OTombstone _ inner =>
           match asMetaObject inner with
           | None =>
               emit (HandleError
                       (errors.Errorf "error decoding object tombstone, invalid type" []))
           | Some object =>
               emit (Log zap.InfoLevel (logger c) "Recovered deleted object from tombstone"
                       [zap.String "loadtest" (metaV1.Name object)]) ;;
               handleOwner c object
           end
       | _ => emit (HandleError (errors.Errorf "error decoding object, invalid type" []))
       end
   end)%eff.

(** The report URL [syncHandler] computes: set only when a proxy URL is
    configured. *)
Definition reportURLFor (c : Controller) (loadTest : loadTestV1.LoadTest) : string :=
  let reportURL := "" in
  if negb (String.eqb (KangalProxyURL (cfg c)) "") then
    KangalProxyURL (cfg c) +:+ "/load-test/" +:+ loadTestV1.GetName loadTest +:+ "/report"
  else reportURL.

(** The statements of [syncHandler] that follow the [defer]: namespace,
    backend resources, backend status, clean-up. The loadtest is the copy
    they mutate, returned as they leave it. *)
Definition syncResources (c : Controller) (logger : zap.Logger)
  (backend : backends.Backend) (key : string)
  (loadTest : loadTestV1.LoadTest) (reportURL : string)
  : Eff (golang.completion (option errors.error) * loadTestV1.LoadTest) :=
  (checked <- checkOrCreateNamespace c loadTest ;;
   let '(outcome, loadTest) := checked in
   match outcome with
   | golang.Panic msg => ret (golang.Panic msg, loadTest)
   | golang.Normal (Some err) => ret (golang.Normal (Some err), loadTest)
   | golang.Normal None =>
       emit (BackendSync loadTest reportURL) ;;
       match backends.Sync backend loadTest reportURL with
       | Some err => ret (golang.Normal (Some err), loadTest)
       | None =>
           emit (BackendSyncStatus loadTest) ;;
           let '(status, err) := backends.SyncStatus backend loadTest in
           let loadTest := loadTestV1.withStatus loadTest status in
           match err with
           | Some err => ret (golang.Normal (Some err), loadTest)
           | None =>
               (if negb (CleanUpThreshold (cfg c) =? 0)
                   && checkLoadTestLifeTimeExceeded (Now (clock c)) loadTest
                        (CleanUpThreshold (cfg c))
                then
                  emit (Log zap.InfoLevel logger "Deleting loadtest due to exceeded lifetime"
                          [zap.String "phase"
                             (PhaseString (loadTestV1.Phase (loadTestV1.Status loadTest)))]) ;;
                  deleteLoadTest c key loadTest
                else ret tt) ;;
               ret (golang.Normal None, loadTest)
           end
       end
   end)%eff.

(** [syncHandler] compares the actual state with the desired, and attempts
    to converge the two. It then updates the Status block of the LoadTest
    resource with the current status of the resource. The deferred
    [updateLoadTestStatus] runs when the statements after it have
    returned or panicked. *)
Definition syncHandler (c : Controller) (key : string)
  : Eff (golang.completion (option errors.error)) :=
  (let logger := zap.With (logger c) [zap.String "loadtest" key] in
   match cache.SplitMetaNamespaceKey key with
   | errors.Err _ =>
       emit (HandleError (errors.Errorf "invalid resource key: %s" [errors.ArgString key])) ;;
       ret (golang.Normal None)
   | errors.Ok (_, name) =>
       match Get (loadtestsLister c) name with
       | errors.Err err =>
           if errors.IsNotFound err then
             emit (HandleError
                     (errors.Errorf "loadtest '%s' in work queue no longer exists"
                        [errors.ArgString key])) ;;
             ret (golang.Normal None)
           else if errors.IsConflict err then
             emit (HandleError
                     (errors.Errorf
                        "there is a conflict with loadtest '%s' between datastore and cache. it might be because object has been removed or modified in the datastore"
                        [errors.ArgString key])) ;;
             ret (golang.Normal None)
           else ret (golang.Normal (Some err))
       | errors.Ok loadTestFromCache =>
           let loadTest := loadTestV1.DeepCopy loadTestFromCache in
           let reportURL := reportURLFor c loadTest in
           match backends.GetBackend (registry c)
                   (loadTestV1.Type_ (loadTestV1.Spec loadTest)) with
           | errors.Err err =>
               ret (golang.Normal
                      (Some (errors.Errorf "failed to resolve backend: %w"
                               [errors.ArgWrapped err])))
           | errors.Ok backend =>
               synced <- syncResources c logger backend key loadTest reportURL ;;
               let '(outcome, loadTest) := synced in
               updateLoadTestStatus c key loadTest loadTestFromCache ;;
               ret outcome
           end
       end
   end)%eff.

(** The function literal of [processNextWorkItem], with its two deferred
    calls: the metrics closure runs first, [Done] last. The closure reads
    the variable declared by [var err error]; the statements of the
    function assign the result of [syncHandler] to another variable of the
    same name, declared by the [if] statement, and return their error as
    an unnamed result. *)
Definition processItem (c : Controller) (obj : object)
  : Eff (golang.completion (option errors.error)) :=
  (let key := match obj with OString s => s | _ => "" end in
   let err : option errors.error := None in
   returned <-
     match obj with
     | OString key =>
         synced <- syncHandler c key ;;
         match synced with
         | golang.Panic msg => ret (golang.Panic msg)
         | golang.Normal (Some err) =>
             emit (QueueAddRateLimited key) ;;
             emit (Log zap.ErrorLevel (logger c) "error syncing loadtest, re-queuing"
                     [zap.String "loadtest" key; zap.Error err]) ;;
             ret (golang.Normal
                    (Some (errors.Errorf "error syncing '%s': %s, requeuing"
                             [errors.ArgString key; errors.ArgErrorText err])))
         | golang.Normal None =>
             emit (QueueForget obj) ;;
             emit (Log zap.DebugLevel (logger c) "Successfully synced"
                     [zap.String "loadtest" key]) ;;
             ret (golang.Normal None)
         end
     | _ =>
         emit (QueueForget obj) ;;
         emit (HandleError
                 (errors.Errorf "expected string in workQueue but got %#v"
                    [errors.ArgObject obj])) ;;
         ret (golang.Normal None)
     end ;;
   let status := match err with Some _ => falseString | None => trueString end in
   emit (MeterAdd "kangal_reconcile_count" 1 [("key", key); ("success", status)]) ;;
   emit (MeterRecord "kangal_reconcile_latency"
           (Z.quot (SinceStart (clock c)) 1000000)
           [("key", key); ("success", status)]) ;;
   emit (QueueDone obj) ;;
   ret returned)%eff.

(** [processNextWorkItem] will read a single work item off the workQueue
    and attempt to process it, by calling the syncHandler. *)
Definition processNextWorkItem (c : Controller) : Eff (golang.completion bool) :=
  (let '(obj, shutdown) := Queue_Get (workQueue c) in
   if shutdown then ret (golang.Normal false)
   else
     emit (MeterAdd "kangal_work_queue_depth" (Queue_Len (workQueue c)) []) ;;
     processed <- processItem c obj ;;
     match processed with
     | golang.Panic msg => ret (golang.Panic msg)
     | golang.Normal (Some err) => emit (HandleError err) ;; ret (golang.Normal true)
     | golang.Normal None => ret (golang.Normal true)
     end)%eff.

(** The event handlers [NewController] registers. *)

Definition loadTestAddFunc (c : Controller) (obj : object) : Eff unit :=
  enqueueLoadTest c obj.

Definition loadTestUpdateFunc (c : Controller) (old new : object) : Eff unit :=
  enqueueLoadTest c new.

Definition jobAddFunc (c : Controller) (obj : object) : Eff unit :=
  handleObject c obj.

(** The type assertions of [new] and [old] to a Job pointer panic on a
    value of another type. *)
Definition jobUpdateFunc (c : Controller) (old new : object)
  : Eff (golang.completion unit) :=
  (match new with
   | OJob newJob =>
       match old with
       | OJob oldJob =>
           if String.eqb (metaV1.ResourceVersion (batchV1.JobMeta newJob))
                         (metaV1.ResourceVersion (batchV1.JobMeta oldJob))
           then ret (golang.Normal tt)
           else handleObject c new ;; ret (golang.Normal tt)
       | _ => ret (golang.Panic "interface conversion: interface {} is not *v1.Job")
       end
   | _ => ret (golang.Panic "interface conversion: interface {} is not *v1.Job")
   end)%eff.

Definition podAddFunc (c : Controller) (obj : object) : Eff unit :=
  handleObject c obj.

Definition podUpdateFunc (c : Controller) (old new : object)
  : Eff (golang.completion unit) :=
  (match new with
   | OPod newPod =>
       match old with
       | OPod oldPod =>
           if String.eqb (metaV1.ResourceVersion (coreV1.PodMeta newPod))
                         (metaV1.ResourceVersion (coreV1.PodMeta oldPod))
           then ret (golang.Normal tt)
           else handleObject c new ;; ret (golang.Normal tt)
       | _ => ret (golang.Panic "interface conversion: interface {} is not *v1.Pod")
       end
   | _ => ret (golang.Panic "interface conversion: interface {} is not *v1.Pod")
   end)%eff.

End Controller.
End controller.

(** ** Package [cmd]: [cmd/controller.go] *)

Module cmd.

(** The double quote, byte 34. *)
Definition doubleQuote : ascii := ascii_of_nat 34.

(** [strings.Replace(a, quote, empty, -1)]: every double quote is dropped. *)
Fixpoint stripQuotes (a : string) : string :=
  match a with
  | EmptyString => EmptyString
  | String c rest =>
      if Ascii.eqb c doubleQuote then stripQuotes rest
      else String c (stripQuotes rest)
  end.

(** [strings.SplitN(a, ":", 2)]: split at the first colon only. *)
Fixpoint SplitN2 (a : string) : list string :=
  match a with
  | EmptyString => [""]
  | String c rest =>
      if Ascii.eqb c ":"%char then [""; rest]
      else match SplitN2 rest with
           | head :: tail => String c head :: tail
           | [] => [String c ""]
           end
  end.

(** Whether the byte [c] occurs in [s]. *)
Fixpoint occurs (c : ascii) (s : string) : bool :=
  match s with
  | EmptyString => false
  | String c' rest => Ascii.eqb c' c || occurs c rest
  end.

Section Annotations.

(** [strconv.Quote], which the verb [%q] of package [fmt] prints a string
    with: the string as a double-quoted Go literal. Which bytes it escapes
    follows Go's tables of printable characters, which are not reproduced:
    the function is left open. *)
Variable Quote : string -> string.

(** [fmt.Sprintf] with the format [Annotation %q is invalid] and a string
    operand. *)
Definition Sprintf_Annotation_q_is_invalid (a : string) : string :=
  "Annotation " +:+ Quote a +:+ " is invalid".

(** The loop of [convertKeyPairStringToMap] over the entries, [m] being the
    map built so far. On an entry without a colon the text that [Sprintf]
    gives is handed to [fmt.Errorf] as its format, with no operand: the text
    is formatted a second time, and a percent sign of the entry is read as a
    verb. *)
Fixpoint convertEntries (s : list string) (m : gmap string string)
  : errors.result golang.StringMap :=
  match s with
  | [] => errors.Ok (Some m)
  | a :: rest =>
      let a := stripQuotes a in
      match SplitN2 a with
      | key :: value :: _ => convertEntries rest (<[key := value]> m)
      | _ => errors.Err (errors.Errorf (Sprintf_Annotation_q_is_invalid a) [])
      end
  end.

(** [convertKeyPairStringToMap]: the map starts out made, not nil. *)
Definition convertKeyPairStringToMap (s : list string) : errors.result golang.StringMap :=
  convertEntries s ∅.

End Annotations.
End cmd.

(** ** The worker loop of [pkg/controller/loadtest.go] *)

Module worker.
Section Worker.

Variable SchemeGroupVersion : string.
Variable PhaseString : loadTestV1.LoadTestPhase -> string.

(** How a worker stands after the answers it was given: it saw the queue
    shut down and returned, a reconcile panicked, or it waits in [Get]. *)
Inductive standing : Type :=
| Returned
| Panicked (msg : string)
| Waiting.

(** [runWorker] is a long-running function that will continually call the
    [processNextWorkItem] function in order to read and process a message on
    the workQueue. Each element of [worlds] is the controller with its
    collaborators as they answer during one turn of the loop, the answer of
    [Get] included; when the answers run out the worker is blocked in
    [Get]. *)
Fixpoint runWorker (worlds : list controller.Controller) : Eff standing :=
  match worlds with
  | [] => ret Waiting
  | c :: rest =>
      (continue <- controller.processNextWorkItem SchemeGroupVersion PhaseString c ;;
       match continue with
       | golang.Normal true => runWorker rest
       | golang.Normal false => ret Returned
       | golang.Panic msg => ret (Panicked msg)
       end)%eff
  end.

End Worker.
End worker.

(** ** Reading a job and a trace *)

Module observe.

(** The image of each container of a job, in order. *)
Definition jobImages (job : batchV1.Job) : list string :=
  map coreV1.Image
    (coreV1.Containers (coreV1.TemplateSpec (batchV1.Template (batchV1.Spec job)))).

(** The environment of each container of a job, in order. *)
Definition jobEnvs (job : batchV1.Job) : list (list coreV1.EnvVar) :=
  map coreV1.Env
    (coreV1.Containers (coreV1.TemplateSpec (batchV1.Template (batchV1.Spec job)))).

(** The keys given to [workQueue.Add]. *)
Definition enqueued (t : list effect) : list string :=
  omap (fun e => match e with QueueAdd key => Some key | _ => None end) t.

(** The keys given to [workQueue.AddRateLimited]. *)
Definition rateLimited (t : list effect) : list string :=
  omap (fun e => match e with QueueAddRateLimited key => Some key | _ => None end) t.

(** The items given to [workQueue.Forget]. *)
Definition forgotten (t : list effect) : list object :=
  omap (fun e => match e with QueueForget item => Some item | _ => None end) t.

(** The loadtests given to [UpdateStatus]. *)
Definition statusWrites (t : list effect) : list loadTestV1.LoadTest :=
  omap (fun e => match e with LoadTestsUpdateStatus lt => Some lt | _ => None end) t.

(** The names given to [LoadTests().Delete]. *)
Definition deletes (t : list effect) : list string :=
  omap (fun e => match e with LoadTestsDelete name => Some name | _ => None end) t.

(** The namespaces given to [Namespaces().Create]. *)
Definition namespacesCreated (t : list effect) : list coreV1.Namespace :=
  omap (fun e => match e with NamespacesCreate ns => Some ns | _ => None end) t.

(** The report URLs given to [backend.Sync]. *)
Definition reportURLs (t : list effect) : list string :=
  omap (fun e => match e with BackendSync _ url => Some url | _ => None end) t.

(** The messages logged at a level. *)
Definition logged (level : zap.Level) (t : list effect) : list string :=
  omap (fun e =>
          match e with
          | Log l _ msg _ =>
              match l, level with
              | zap.DebugLevel, zap.DebugLevel
              | zap.InfoLevel, zap.InfoLevel
              | zap.WarnLevel, zap.WarnLevel
              | zap.ErrorLevel, zap.ErrorLevel => Some msg
              | _, _ => None
              end
          | _ => None
          end) t.

(** An effect that only reports: a log line or an error handed to
    [HandleError]. *)
Definition isReport (e : effect) : bool :=
  match e with
  | Log _ _ _ _ | HandleError _ => true
  | _ => false
  end.

(** An effect of the reconciler proper: anything but a queue operation or a
    meter reading, which belong to the worker and the event handlers. *)
Definition isReconcileEffect (e : effect) : bool :=
  match e with
  | QueueAdd _ | QueueAddRateLimited _ | QueueForget _ | QueueDone _
  | MeterAdd _ _ _ | MeterRecord _ _ _ => false
  | _ => true
  end.

(** The meter readings of a trace: instrument, value and attributes. *)
Definition metered (t : list effect) : list (string * Z * list (string * string)) :=
  omap (fun e =>
          match e with
          | MeterAdd instrument v attributes
          | MeterRecord instrument v attributes => Some (instrument, v, attributes)
          | _ => None
          end) t.

(** The controller [c] with another answer of [UpdateStatus]. *)
Definition withUpdateStatus (c : controller.Controller)
  (answer : loadTestV1.LoadTest -> errors.result loadTestV1.LoadTest)
  : controller.Controller :=
  {| controller.cfg := controller.cfg c;
     controller.kubeClientSet := controller.kubeClientSet c;
     controller.kangalClientSet :=
       {| controller.LoadTests_UpdateStatus := answer;
          controller.LoadTests_Delete :=
            controller.LoadTests_Delete (controller.kangalClientSet c) |};
     controller.loadtestsLister := controller.loadtestsLister c;
     controller.workQueue := controller.workQueue c;
     controller.registry := controller.registry c;
     controller.logger := controller.logger c;
     controller.clock := controller.clock c |}.

(** The controller [c] with another answer of [Delete]. *)
Definition withDelete (c : controller.Controller)
  (answer : string -> option errors.error) : controller.Controller :=
  {| controller.cfg := controller.cfg c;
     controller.kubeClientSet := controller.kubeClientSet c;
     controller.kangalClientSet :=
       {| controller.LoadTests_UpdateStatus :=
            controller.LoadTests_UpdateStatus (controller.kangalClientSet c);
          controller.LoadTests_Delete := answer |};
     controller.loadtestsLister := controller.loadtestsLister c;
     controller.workQueue := controller.workQueue c;
     controller.registry := controller.registry c;
     controller.logger := controller.logger c;
     controller.clock := controller.clock c |}.

(** The items given to [workQueue.Done]. *)
Definition done (t : list effect) : list object :=
  omap (fun e => match e with QueueDone item => Some item | _ => None end) t.

(** The loadtests given to [backend.Sync]. *)
Definition syncs (t : list effect) : list loadTestV1.LoadTest :=
  omap (fun e => match e with BackendSync lt _ => Some lt | _ => None end) t.

(** The loadtests given to [backend.SyncStatus]. *)
Definition statusSyncs (t : list effect) : list loadTestV1.LoadTest :=
  omap (fun e => match e with BackendSyncStatus lt => Some lt | _ => None end) t.

(** An effect an event handler may have: a log line, an error report, or a
    key added to the queue. *)
Definition isHandlerEffect (e : effect) : bool :=
  match e with
  | Log _ _ _ _ | HandleError _ | QueueAdd _ => true
  | _ => false
  end.

(** [strings.Count(s, sep)] for a one-byte separator. *)
Fixpoint Count (sep : ascii) (s : string) : nat :=
  match s with
  | EmptyString => O
  | String c rest => if Ascii.eqb c sep then S (Count sep rest) else Count sep rest
  end.

End observe.

(** ** Sample values *)

Module sample.

Definition groupVersion : string := "kangal.hellofresh.com/v1".

Definition noRequirements (r : backends.Resources) : coreV1.ResourceRequirements :=
  {| coreV1.Limits := ∅; coreV1.Requests := ∅ |}.

Definition backend : ghz.Backend :=
  {| ghz.logger := [];
     ghz.image := {| loadTestV1.Image := "hellofresh/kangal-ghz";
                     loadTestV1.Tag := "latest" |};
     ghz.podAnnotations := None;
     ghz.resources := {| backends.CPULimits := ""; backends.CPURequests := "";
                         backends.MemoryLimits := ""; backends.MemoryRequests := "" |} |}.

Definition meta (name : string) : metaV1.ObjectMeta :=
  {| metaV1.Name := name; metaV1.Namespace := ""; metaV1.SelfLink := "";
     metaV1.UID := ""; metaV1.ResourceVersion := "1";
     metaV1.CreationTimestamp := 0;
     metaV1.Labels := None; metaV1.Annotations := None;
     metaV1.OwnerReferences := [] |}.

(** A loadtest of type ghz with the given master image and tag, phase and
    namespace, completion time and creation time. *)
Definition loadTest (name image tag : string) (phase : loadTestV1.LoadTestPhase)
  (namespace : string) (completion : option time.Time) (created : time.Time)
  : loadTestV1.LoadTest :=
  {| loadTestV1.ObjectMeta :=
       {| metaV1.Name := name; metaV1.Namespace := ""; metaV1.SelfLink := "";
          metaV1.UID := "uid-1"; metaV1.ResourceVersion := "1";
          metaV1.CreationTimestamp := created;
          metaV1.Labels := None; metaV1.Annotations := None;
          metaV1.OwnerReferences := [] |};
     loadTestV1.Spec :=
       {| loadTestV1.Type_ := "ghz";
          loadTestV1.TestFile := "{}";
          loadTestV1.MasterConfig := {| loadTestV1.Image := image; loadTestV1.Tag := tag |};
          loadTestV1.Tags := None |};
     loadTestV1.Status :=
       {| loadTestV1.Phase := phase;
          loadTestV1.Namespace := namespace;
          loadTestV1.JobStatus :=
            {| batchV1.Active := 0; batchV1.Succeeded := 0; batchV1.Failed := 0;
               batchV1.CompletionTime := completion |} |} |}.

Definition job (active succeeded failed : Z) : batchV1.Job :=
  {| batchV1.JobMeta := meta "loadtest-job";
     batchV1.Spec :=
       {| batchV1.BackoffLimit := None;
          batchV1.Template :=
            {| coreV1.TemplateMeta := meta "";
               coreV1.TemplateSpec :=
                 {| coreV1.RestartPolicy := "Never"; coreV1.Volumes := [];
                    coreV1.Containers := [] |} |} |};
     batchV1.Status :=
       {| batchV1.Active := active; batchV1.Succeeded := succeeded;
          batchV1.Failed := failed; batchV1.CompletionTime := None |} |}.

(** A pod owned, through a controller reference, by an object of the given
    kind and name. *)
Definition ownedPod (kind owner : string) : coreV1.Pod :=
  {| coreV1.PodMeta :=
       {| metaV1.Name := "loadtest-job-abcde"; metaV1.Namespace := "t1";
          metaV1.SelfLink := ""; metaV1.UID := "uid-pod";
          metaV1.ResourceVersion := "7"; metaV1.CreationTimestamp := 0;
          metaV1.Labels := None; metaV1.Annotations := None;
          metaV1.OwnerReferences :=
            [ {| metaV1.APIVersion := groupVersion; metaV1.Kind := kind;
                 metaV1.OwnerName := owner; metaV1.OwnerUID := "uid-1";
                 metaV1.Controller := Some true;
                 metaV1.BlockOwnerDeletion := Some true |} ] |};
     coreV1.PodSpecOf :=
       {| coreV1.RestartPolicy := "Never"; coreV1.Volumes := [];
          coreV1.Containers := [] |} |}.

Definition config (proxy : string) (threshold : time.Duration)
  (labels : golang.StringMap) : controller.Config :=
  {| controller.SyncHandlerTimeout := 60000000000;
     controller.CleanUpThreshold := threshold;
     controller.KangalProxyURL := proxy;
     controller.NamespaceLabels := labels;
     controller.NamespaceAnnotations := None;
     controller.PodAnnotations := None |}.

Definition phaseString (p : loadTestV1.LoadTestPhase) : string :=
  match p with
  | loadTestV1.LoadTestCreating => "creating"
  | loadTestV1.LoadTestStarting => "starting"
  | loadTestV1.LoadTestRunning => "running"
  | loadTestV1.LoadTestFinished => "finished"
  | loadTestV1.LoadTestErrored => "errored"
  end.

Definition withPhase (lt : loadTestV1.LoadTest) (p : loadTestV1.LoadTestPhase)
  : loadTestV1.LoadTestStatus :=
  {| loadTestV1.Phase := p;
     loadTestV1.Namespace := loadTestV1.Namespace (loadTestV1.Status lt);
     loadTestV1.JobStatus := loadTestV1.JobStatus (loadTestV1.Status lt) |}.

(** A backend whose [Sync] succeeds and whose [SyncStatus] reports [p]. *)
Definition reporting (p : loadTestV1.LoadTestPhase) : backends.Backend :=
  {| backends.Sync := fun _ _ => None;
     backends.SyncStatus := fun lt => (withPhase lt p, None) |}.

Definition notFound : errors.error :=
  errors.StatusError errors.StatusReasonNotFound "loadtest not found".
Definition conflict : errors.error :=
  errors.StatusError errors.StatusReasonConflict "the object has been modified".
Definition timeout : errors.error :=
  errors.StatusError errors.StatusReasonTimeout "request timed out".

(** A controller: the configuration, what the cache holds under every name,
    the namespaces the API server lists, the backend every type resolves to,
    the answers of [UpdateStatus] and [Delete], the item the queue hands
    out, and the instant of the reconcile. A created namespace comes back
    as it was sent. *)
Definition controllerOf (cfg : controller.Config)
  (cached : errors.result loadTestV1.LoadTest)
  (namespaces : list coreV1.Namespace)
  (backend : backends.Backend)
  (update : option errors.error) (delete : option errors.error)
  (item : object) (now : time.Time) : controller.Controller :=
  {| controller.cfg := cfg;
     controller.kubeClientSet :=
       {| controller.Namespaces_List := fun _ => errors.Ok namespaces;
          controller.Namespaces_Create := fun ns => errors.Ok ns |};
     controller.kangalClientSet :=
       {| controller.LoadTests_UpdateStatus :=
            fun lt => match update with
                      | Some err => errors.Err err
                      | None => errors.Ok lt
                      end;
          controller.LoadTests_Delete := fun _ => delete |};
     controller.loadtestsLister := {| controller.Get := fun _ => cached |};
     controller.workQueue :=
       {| controller.Queue_Get := (item, false); controller.Queue_Len := 0 |};
     controller.registry := {| backends.GetBackend := fun _ => errors.Ok backend |};
     controller.logger := [];
     controller.clock := {| controller.Now := now; controller.SinceStart := 0 |} |}.

(** A backend whose [Sync] fails with a timeout. *)
Definition failingSync : backends.Backend :=
  {| backends.Sync := fun _ _ => Some timeout;
     backends.SyncStatus := fun lt => (withPhase lt loadTestV1.LoadTestRunning, None) |}.

(** The loadtest [t3], finished two hours before the instant 10000 seconds,
    under a clean-up threshold of one hour; [Delete] answers with a
    conflict. *)
Definition staleT3 : controller.Controller :=
  controllerOf (config "" 3600000000000 (Some ∅))
    (errors.Ok (loadTest "t3" "" "" loadTestV1.LoadTestFinished "t3"
                  (Some (10000000000000 - 2 * 3600000000000)) 0))
    [] (reporting loadTestV1.LoadTestFinished) None (Some conflict)
    (OString "t3") 10000000000000.

(** The loadtest [t1] in phase Starting, placed in the namespace [t1], with
    a backend that reports Running. *)
Definition startingT1 : controller.Controller :=
  controllerOf (config "" 0 (Some ∅))
    (errors.Ok (loadTest "t1" "" "" loadTestV1.LoadTestStarting "t1" None 0)) []
    (reporting loadTestV1.LoadTestRunning) None None (OString "t1") 0.

(** The loadtest [t1] as it is created: no namespace yet. *)
Definition unplaced : loadTestV1.LoadTest :=
  loadTest "t1" "" "" loadTestV1.LoadTestCreating "" None 0.

(** A controller configured with a nil map of namespace labels. *)
Definition nilLabels : controller.Controller :=
  controllerOf (config "" 0 None) (errors.Ok unplaced) []
    (reporting loadTestV1.LoadTestStarting) None None (OString "t1") 0.

(** A controller whose cache holds the loadtest [t1] without namespace and
    whose backend fails to sync. *)
Definition syncFails : controller.Controller :=
  controllerOf (config "" 0 (Some ∅)) (errors.Ok unplaced) []
    failingSync None None (OString "t1") 0.

(** A controller whose queue reports its shut-down. *)
Definition shutDown : controller.Controller :=
  {| controller.cfg := config "" 0 (Some ∅);
     controller.kubeClientSet :=
       {| controller.Namespaces_List := fun _ => errors.Ok [];
          controller.Namespaces_Create := fun ns => errors.Ok ns |};
     controller.kangalClientSet :=
       {| controller.LoadTests_UpdateStatus := fun lt => errors.Ok lt;
          controller.LoadTests_Delete := fun _ => None |};
     controller.loadtestsLister := {| controller.Get := fun _ => errors.Err notFound |};
     controller.workQueue :=
       {| controller.Queue_Get := (OOther, true); controller.Queue_Len := 0 |};
     controller.registry :=
       {| backends.GetBackend :=
            fun _ => errors.Ok (reporting loadTestV1.LoadTestRunning) |};
     controller.logger := [];
     controller.clock := {| controller.Now := 0; controller.SinceStart := 0 |} |}.

(** A controller whose cache holds no loadtest. *)
Definition emptyCache : controller.Controller :=
  controllerOf (config "" 0 (Some ∅)) (errors.Err notFound) []
    (reporting loadTestV1.LoadTestRunning) None None OOther 0.

(** A controller whose cache holds the running loadtest [t1]. *)
Definition holdingT1 : controller.Controller :=
  controllerOf (config "" 0 (Some ∅))
    (errors.Ok (loadTest "t1" "" "" loadTestV1.LoadTestRunning "t1" None 0)) []
    (reporting loadTestV1.LoadTestRunning) None None OOther 0.

(** What [strconv.Quote] gives for a string of printable ASCII characters
    that holds neither a double quote nor a backslash: the string between
    two double quotes. *)
Definition quote (s : string) : string :=
  String cmd.doubleQuote (s +:+ String cmd.doubleQuote "").

End sample.

(** * Properties *)

(** ** Traces and values of composed computations *)

Lemma value_bind {A B : Type} (m : Eff A) (k : A -> Eff B) :
  value (bind m k) = value (k (value m)).
Proof.
  unfold value, bind. destruct m as [a t1]. simpl.
  destruct (k a) as [b t2]. reflexivity.
Qed.

Lemma trace_bind {A B : Type} (m : Eff A) (k : A -> Eff B) :
  trace (bind m k) = (trace m ++ trace (k (value m)))%list.
Proof.
  unfold trace, value, bind. destruct m as [a t1]. simpl.
  destruct (k a) as [b t2]. reflexivity.
Qed.

Lemma value_ret {A : Type} (a : A) : value (ret a) = a.
Proof. reflexivity. Qed.

Lemma trace_ret {A : Type} (a : A) : trace (ret a) = [].
Proof. reflexivity. Qed.

Lemma trace_emit (e : effect) : trace (emit e) = [e].
Proof. reflexivity. Qed.

(** ** Strings *)

(** The reference [image:tag] is the lone colon exactly when both parts are
    empty. *)
Lemma Sprintf_colon_alone (a b : string) :
  String.eqb (golang.Sprintf_s_colon_s a b) ":" = String.eqb a "" && String.eqb b "".
Proof.
  unfold golang.Sprintf_s_colon_s.
  destruct a as [|c a].
  - simpl. destruct b; reflexivity.
  - change (String c a +:+ ":" +:+ b) with (String c (a +:+ ":" +:+ b)).
    simpl. destruct (Ascii.eqb c ":"); [|reflexivity].
    destruct a; reflexivity.
Qed.

(** ** The ghz backend *)

Section GhzProperties.

Variable SchemeGroupVersion : string.
Variable BuildResourceRequirements : backends.Resources -> coreV1.ResourceRequirements.

Local Abbreviation NewJob := (ghz.NewJob SchemeGroupVersion BuildResourceRequirements).

(** C1, as amended. The job built by [NewJob] has one container; its image
    is [image:tag] of the loadtest's master configuration, unless both
    fields are empty, in which case it is the backend's default image
    reference and exactly one warning is logged. With an image or a tag
    given, nothing is logged. *)
Theorem NewJob_image_reference (b : ghz.Backend) (loadTest : loadTestV1.LoadTest)
  (configMap : coreV1.ConfigMap) (reportURL : string) :
  let masterConfig := loadTestV1.MasterConfig (loadTestV1.Spec loadTest) in
  let bothEmpty := String.eqb (loadTestV1.Image masterConfig) ""
                   && String.eqb (loadTestV1.Tag masterConfig) "" in
  observe.jobImages (value (NewJob b loadTest configMap reportURL)) =
    [ if bothEmpty
      then loadTestV1.Image (ghz.image b) +:+ ":" +:+ loadTestV1.Tag (ghz.image b)
      else loadTestV1.Image masterConfig +:+ ":" +:+ loadTestV1.Tag masterConfig ]
  /\ observe.logged zap.WarnLevel (trace (NewJob b loadTest configMap reportURL)) =
       (if bothEmpty
        then ["Loadtest.Spec.MasterConfig is empty; using default image"]
        else [])
  /\ length (trace (NewJob b loadTest configMap reportURL)) = (if bothEmpty then 1 else 0)%nat.
Proof.
  intros masterConfig bothEmpty.
  unfold ghz.NewJob. fold masterConfig.
  rewrite !value_bind, !trace_bind, Sprintf_colon_alone. fold bothEmpty.
  destruct bothEmpty; simpl; auto.
Qed.

(** C4. The phase read off a job's counters: Errored when some pod failed;
    otherwise Running when some pod is active; otherwise Starting when
    nothing succeeded or failed yet; otherwise Finished. *)
Theorem determineLoadTestStatusFromJobs_cases (job : batchV1.Job) :
  let status := batchV1.Status job in
  (batchV1.Failed status > 0 ->
     ghz.determineLoadTestStatusFromJobs job = loadTestV1.LoadTestErrored)
  /\ (~ batchV1.Failed status > 0 -> batchV1.Active status > 0 ->
     ghz.determineLoadTestStatusFromJobs job = loadTestV1.LoadTestRunning)
  /\ (~ batchV1.Failed status > 0 -> ~ batchV1.Active status > 0 ->
      batchV1.Succeeded status = 0 /\ batchV1.Failed status = 0 ->
     ghz.determineLoadTestStatusFromJobs job = loadTestV1.LoadTestStarting)
  /\ (~ batchV1.Failed status > 0 -> ~ batchV1.Active status > 0 ->
      ~ (batchV1.Succeeded status = 0 /\ batchV1.Failed status = 0) ->
     ghz.determineLoadTestStatusFromJobs job = loadTestV1.LoadTestFinished).
Proof.
  intros status. unfold ghz.determineLoadTestStatusFromJobs. fold status.
  destruct (Z.ltb_spec 0 (batchV1.Failed status)) as [Hf|Hf];
  destruct (Z.ltb_spec 0 (batchV1.Active status)) as [Ha|Ha];
  destruct (Z.eqb_spec (batchV1.Succeeded status) 0) as [Hs|Hs];
  destruct (Z.eqb_spec (batchV1.Failed status) 0) as [Hz|Hz];
  simpl; repeat split; intros; try reflexivity; try lia; tauto.
Qed.

End GhzProperties.

(** ** Elapsed time *)

(** [time.Since] stays within the range of a [Duration]. *)
Lemma Since_range (now t : time.Time) :
  time.minDuration <= time.Since now t <= time.maxDuration.
Proof.
  unfold time.Since, time.Sub, time.minDuration, time.maxDuration.
  destruct (Z.ltb_spec (now - t) (- 2 ^ 63)); [lia|].
  destruct (Z.ltb_spec (2 ^ 63 - 1) (now - t)); lia.
Qed.

(** Against a threshold below the largest duration, comparing [time.Since]
    is comparing the exact difference of the two instants. *)
Lemma Since_exceeds (now t : time.Time) (threshold : time.Duration) :
  time.minDuration <= threshold < time.maxDuration ->
  (threshold < time.Since now t <-> threshold < now - t).
Proof.
  unfold time.Since, time.Sub, time.minDuration, time.maxDuration.
  intros Hthr.
  destruct (Z.ltb_spec (now - t) (- 2 ^ 63)); [lia|].
  destruct (Z.ltb_spec (2 ^ 63 - 1) (now - t)); lia.
Qed.

(** ** The reconciler *)

Lemma phase_eqb_eq (p q : loadTestV1.LoadTestPhase) :
  loadTestV1.phase_eqb p q = true <-> p = q.
Proof. destruct p, q; simpl; split; intros H; try reflexivity; discriminate. Qed.

Lemma if_true_else_true (a b : bool) :
  (if a then true else if b then true else false) = true <-> a = true \/ b = true.
Proof. destruct a, b; simpl; intuition discriminate. Qed.

(** C2. [checkLoadTestLifeTimeExceeded] holds exactly when (a) a completion
    time is set, more than the threshold has elapsed since it and the phase
    is Finished or Errored, or (b) the phase is Errored and more than the
    threshold has elapsed since the creation of the loadtest. Elapsed time
    is [time.Since]. At the boundary, where the time elapsed since completion
    equals the threshold, (a) fails and the predicate holds exactly when (b)
    does: it is false unless (b) holds, and so for every loadtest that is
    not Errored. Where the time elapsed since creation equals the threshold,
    (b) fails. *)
Theorem checkLoadTestLifeTimeExceeded_exact (now : time.Time)
  (loadTest : loadTestV1.LoadTest) (threshold : time.Duration) :
  let status := loadTestV1.Status loadTest in
  let completion := batchV1.CompletionTime (loadTestV1.JobStatus status) in
  let created := metaV1.CreationTimestamp (loadTestV1.ObjectMeta loadTest) in
  let finishedLongAgo :=
    exists completionTime,
      completion = Some completionTime
      /\ time.Since now completionTime > threshold
      /\ (loadTestV1.Phase status = loadTestV1.LoadTestFinished
          \/ loadTestV1.Phase status = loadTestV1.LoadTestErrored) in
  let erroredLongAgo :=
    loadTestV1.Phase status = loadTestV1.LoadTestErrored
    /\ time.Since now created > threshold in
  (controller.checkLoadTestLifeTimeExceeded now loadTest threshold = true
     <-> finishedLongAgo \/ erroredLongAgo)
  /\ (forall completionTime,
        completion = Some completionTime ->
        time.Since now completionTime = threshold ->
        ~ finishedLongAgo
        /\ (controller.checkLoadTestLifeTimeExceeded now loadTest threshold = true
            <-> erroredLongAgo)
        /\ (~ erroredLongAgo ->
            controller.checkLoadTestLifeTimeExceeded now loadTest threshold = false)
        /\ (loadTestV1.Phase status <> loadTestV1.LoadTestErrored ->
            controller.checkLoadTestLifeTimeExceeded now loadTest threshold = false))
  /\ (time.Since now created = threshold -> ~ erroredLongAgo).
Proof.
  intros status completion created finishedLongAgo erroredLongAgo.
  assert (Hiff : controller.checkLoadTestLifeTimeExceeded now loadTest threshold = true
                 <-> finishedLongAgo \/ erroredLongAgo).
  { unfold controller.checkLoadTestLifeTimeExceeded, finishedLongAgo, erroredLongAgo.
    fold status. fold completion. fold created.
    rewrite if_true_else_true.
    rewrite !andb_true_iff, !Z.ltb_lt, !phase_eqb_eq.
    destruct completion as [completionTime|].
    - rewrite !andb_true_iff, orb_true_iff, !Z.ltb_lt, !phase_eqb_eq.
      split.
      + intros [[Hgt Hp] | [Hp Hgt]].
        * left. exists completionTime. repeat split; [lia | exact Hp].
        * right. split; [exact Hp | lia].
      + intros [[ct [Hct [Hgt Hp]]] | [Hp Hgt]].
        * inversion Hct; subst ct. left. split; [lia | exact Hp].
        * right. split; [exact Hp | lia].
    - split.
      + intros [Hfalse | [Hp Hgt]]; [discriminate|].
        right. split; [exact Hp | lia].
      + intros [[ct [Hct _]] | [Hp Hgt]]; [discriminate|].
        right. split; [exact Hp | lia]. }
  split; [exact Hiff|]. split.
  - intros completionTime Hset Heq.
    assert (Hna : ~ finishedLongAgo).
    { intros [ct [Hct [Hgt _]]]. rewrite Hset in Hct. inversion Hct; subst. lia. }
    assert (Hfalse : ~ erroredLongAgo ->
              controller.checkLoadTestLifeTimeExceeded now loadTest threshold = false).
    { intros Hnb. apply not_true_is_false. intros E. apply Hiff in E. tauto. }
    split; [exact Hna|]. split; [|split].
    + rewrite Hiff. tauto.
    + exact Hfalse.
    + intros Hphase. apply Hfalse. intros [Herrored _]. exact (Hphase Herrored).
  - intros Heq [_ Hgt]. lia.
Qed.

(** Simplification of the value and the trace of a composed computation. *)
Ltac eff_simpl :=
  repeat (rewrite ?value_bind, ?trace_bind, ?value_ret, ?trace_ret, ?trace_emit;
          cbn [value trace fst snd ret emit]).

Lemma statusWrites_app (t1 t2 : list effect) :
  observe.statusWrites (t1 ++ t2) = (observe.statusWrites t1 ++ observe.statusWrites t2)%list.
Proof. apply omap_app. Qed.

Lemma enqueued_app (t1 t2 : list effect) :
  observe.enqueued (t1 ++ t2) = (observe.enqueued t1 ++ observe.enqueued t2)%list.
Proof. apply omap_app. Qed.

Lemma rateLimited_app (t1 t2 : list effect) :
  observe.rateLimited (t1 ++ t2) = (observe.rateLimited t1 ++ observe.rateLimited t2)%list.
Proof. apply omap_app. Qed.

Lemma forgotten_app (t1 t2 : list effect) :
  observe.forgotten (t1 ++ t2) = (observe.forgotten t1 ++ observe.forgotten t2)%list.
Proof. apply omap_app. Qed.

Lemma deletes_app (t1 t2 : list effect) :
  observe.deletes (t1 ++ t2) = (observe.deletes t1 ++ observe.deletes t2)%list.
Proof. apply omap_app. Qed.

Lemma reportURLs_app (t1 t2 : list effect) :
  observe.reportURLs (t1 ++ t2) = (observe.reportURLs t1 ++ observe.reportURLs t2)%list.
Proof. apply omap_app. Qed.

Section ControllerProperties.

Variable SchemeGroupVersion : string.
Variable PhaseString : loadTestV1.LoadTestPhase -> string.

Local Abbreviation syncHandler := (controller.syncHandler SchemeGroupVersion PhaseString).
Local Abbreviation syncResources := (controller.syncResources SchemeGroupVersion PhaseString).
Local Abbreviation checkOrCreateNamespace := (controller.checkOrCreateNamespace SchemeGroupVersion).
Local Abbreviation newNamespace := (controller.newNamespace SchemeGroupVersion).
Local Abbreviation updateLoadTestStatus := (controller.updateLoadTestStatus PhaseString).
Local Abbreviation processItem := (controller.processItem SchemeGroupVersion PhaseString).
Local Abbreviation processNextWorkItem :=
  (controller.processNextWorkItem SchemeGroupVersion PhaseString).

#[local] Arguments bind : simpl never.
#[local] Arguments controller.deleteLoadTest : simpl never.
#[local] Arguments controller.checkOrCreateNamespace : simpl never.
#[local] Arguments controller.newNamespace : simpl never.
#[local] Arguments controller.updateLoadTestStatus : simpl never.
#[local] Arguments controller.syncResources : simpl never.
#[local] Arguments controller.syncHandler : simpl never.
#[local] Arguments controller.processItem : simpl never.
#[local] Arguments controller.handleOwner : simpl never.
#[local] Arguments controller.enqueueLoadTest : simpl never.
#[local] Arguments controller.checkLoadTestLifeTimeExceeded : simpl never.

(** Distribution of the readings of a trace over its parts. *)
Ltac obs_simpl :=
  rewrite ?statusWrites_app, ?enqueued_app, ?rateLimited_app, ?forgotten_app,
    ?deletes_app, ?reportURLs_app;
  simpl.

(** *** What each step writes *)

Lemma deleteLoadTest_writes (c : controller.Controller) (key : string)
  (loadTest : loadTestV1.LoadTest) :
  observe.statusWrites (trace (controller.deleteLoadTest c key loadTest)) = [].
Proof.
  unfold controller.deleteLoadTest. eff_simpl.
  destruct (controller.LoadTests_Delete _ _) as [err|]; eff_simpl; [|reflexivity].
  destruct (errors.IsConflict err); eff_simpl; reflexivity.
Qed.

Lemma checkOrCreateNamespace_writes (c : controller.Controller)
  (loadTest : loadTestV1.LoadTest) :
  observe.statusWrites (trace (checkOrCreateNamespace c loadTest)) = [].
Proof.
  unfold controller.checkOrCreateNamespace.
  destruct (negb _); [reflexivity|]. eff_simpl.
  destruct (controller.Namespaces_List _ _) as [items|err]; eff_simpl; [|reflexivity].
  destruct items as [|first rest]; eff_simpl.
  - destruct (controller.newNamespace _ _ _ _) as [[ns|err]|msg]; eff_simpl.
    + destruct (controller.Namespaces_Create _ _) as [obj|err]; eff_simpl; reflexivity.
    + reflexivity.
    + reflexivity.
  - reflexivity.
Qed.

Lemma syncResources_writes (c : controller.Controller) (logger : zap.Logger)
  (backend : backends.Backend) (key : string) (loadTest : loadTestV1.LoadTest)
  (reportURL : string) :
  observe.statusWrites (trace (syncResources c logger backend key loadTest reportURL)) = [].
Proof.
  unfold controller.syncResources. eff_simpl.
  rewrite statusWrites_app, checkOrCreateNamespace_writes.
  destruct (value (checkOrCreateNamespace c loadTest)) as [[[err|]|msg] copy];
    eff_simpl; try reflexivity.
  destruct (backends.Sync _ _ _) as [err|]; eff_simpl; [reflexivity|].
  destruct (backends.SyncStatus _ _) as [status [err|]]; eff_simpl; [reflexivity|].
  destruct (_ && _); eff_simpl; [|reflexivity].
  obs_simpl. rewrite deleteLoadTest_writes. reflexivity.
Qed.

Lemma updateLoadTestStatus_writes (c : controller.Controller) (key : string)
  (loadTest loadTestFromCache : loadTestV1.LoadTest) :
  observe.statusWrites (trace (updateLoadTestStatus c key loadTest loadTestFromCache)) =
    if loadTestV1.phase_eqb (loadTestV1.Phase (loadTestV1.Status loadTest))
                            (loadTestV1.Phase (loadTestV1.Status loadTestFromCache))
    then [] else [loadTest].
Proof.
  unfold controller.updateLoadTestStatus.
  destruct (loadTestV1.phase_eqb _ _); cbn [negb]; [reflexivity|]. eff_simpl.
  destruct (controller.LoadTests_UpdateStatus _ _) as [updated|err]; eff_simpl;
    [reflexivity|].
  destruct (errors.IsConflict err); reflexivity.
Qed.

(** *** The deferred status update *)

(** The value of [syncHandler] once the deferred call is in place: the
    outcome of the statements that follow it. *)
Lemma syncHandler_deferred (c : controller.Controller) (key namespace name : string)
  (cached : loadTestV1.LoadTest) (backend : backends.Backend) :
  cache.SplitMetaNamespaceKey key = errors.Ok (namespace, name) ->
  controller.Get (controller.loadtestsLister c) name = errors.Ok cached ->
  backends.GetBackend (controller.registry c)
    (loadTestV1.Type_ (loadTestV1.Spec cached)) = errors.Ok backend ->
  let logger := zap.With (controller.logger c) [zap.String "loadtest" key] in
  let copy := loadTestV1.DeepCopy cached in
  let synced := syncResources c logger backend key copy (controller.reportURLFor c copy) in
  value (syncHandler c key) = fst (value synced)
  /\ trace (syncHandler c key) =
       (trace synced ++ trace (updateLoadTestStatus c key (snd (value synced)) cached))%list.
Proof.
  intros Hkey Hget Hbackend logger copy synced.
  unfold controller.syncHandler. rewrite Hkey, Hget.
  unfold loadTestV1.DeepCopy in *. rewrite Hbackend.
  fold logger. fold copy. unfold loadTestV1.DeepCopy in copy. fold synced.
  eff_simpl. destruct (value synced) as [outcome left]. eff_simpl.
  rewrite app_nil_r. split; reflexivity.
Qed.

(** C3. Once [syncHandler] has a copy of the cached loadtest and a backend,
    whatever the statements after the [defer] do (return nil, return an
    error, panic), [UpdateStatus] is called exactly when the phase of the
    copy, as they leave it, differs from the phase of the cached object, and
    it is given that copy; what [syncHandler] returns is their outcome, so no
    answer of [UpdateStatus], a conflict included, changes it. On the paths
    that end before the [defer] (bad key, failed fetch, unknown backend)
    nothing is written, and where a copy exists there it still has the
    cached phase. *)
Theorem syncHandler_status_guard (c : controller.Controller) (key : string) :
  (forall namespace name cached backend,
     cache.SplitMetaNamespaceKey key = errors.Ok (namespace, name) ->
     controller.Get (controller.loadtestsLister c) name = errors.Ok cached ->
     backends.GetBackend (controller.registry c)
       (loadTestV1.Type_ (loadTestV1.Spec cached)) = errors.Ok backend ->
     let logger := zap.With (controller.logger c) [zap.String "loadtest" key] in
     let copy := loadTestV1.DeepCopy cached in
     let left := value (syncResources c logger backend key copy
                          (controller.reportURLFor c copy)) in
     observe.statusWrites (trace (syncHandler c key)) =
       (if loadTestV1.phase_eqb (loadTestV1.Phase (loadTestV1.Status (snd left)))
                                (loadTestV1.Phase (loadTestV1.Status cached))
        then [] else [snd left])
     /\ value (syncHandler c key) = fst left)
  /\ (forall err,
        cache.SplitMetaNamespaceKey key = errors.Err err ->
        observe.statusWrites (trace (syncHandler c key)) = [])
  /\ (forall namespace name err,
        cache.SplitMetaNamespaceKey key = errors.Ok (namespace, name) ->
        controller.Get (controller.loadtestsLister c) name = errors.Err err ->
        observe.statusWrites (trace (syncHandler c key)) = [])
  /\ (forall namespace name cached err,
        cache.SplitMetaNamespaceKey key = errors.Ok (namespace, name) ->
        controller.Get (controller.loadtestsLister c) name = errors.Ok cached ->
        backends.GetBackend (controller.registry c)
          (loadTestV1.Type_ (loadTestV1.Spec cached)) = errors.Err err ->
        observe.statusWrites (trace (syncHandler c key)) = []
        /\ loadTestV1.Phase (loadTestV1.Status (loadTestV1.DeepCopy cached)) =
             loadTestV1.Phase (loadTestV1.Status cached))
  /\ (forall answer,
        value (syncHandler (observe.withUpdateStatus c answer) key) =
        value (syncHandler c key)).
Proof.
  split; [|split; [|split; [|split]]].
  - intros namespace name cached backend Hkey Hget Hbackend logger copy left.
    destruct (syncHandler_deferred c key namespace name cached backend Hkey Hget Hbackend)
      as [Hvalue Htrace].
    fold logger copy in Hvalue, Htrace. fold left in Hvalue, Htrace.
    rewrite Htrace, Hvalue, statusWrites_app, syncResources_writes,
      updateLoadTestStatus_writes.
    split; reflexivity.
  - intros err Hkey. unfold controller.syncHandler. rewrite Hkey. reflexivity.
  - intros namespace name err Hkey Hget. unfold controller.syncHandler.
    rewrite Hkey, Hget.
    destruct (errors.IsNotFound err); [reflexivity|].
    destruct (errors.IsConflict err); reflexivity.
  - intros namespace name cached err Hkey Hget Hbackend. unfold controller.syncHandler.
    rewrite Hkey, Hget. unfold loadTestV1.DeepCopy. rewrite Hbackend.
    split; reflexivity.
  - intros answer. unfold controller.syncHandler.
    destruct (cache.SplitMetaNamespaceKey key) as [[namespace name]|err]; [|reflexivity].
    cbn [observe.withUpdateStatus controller.loadtestsLister controller.registry
         controller.logger].
    destruct (controller.Get _ name) as [cached|err]; [|reflexivity].
    destruct (backends.GetBackend _ _) as [backend|err]; [|reflexivity].
    eff_simpl.
    change (syncResources (observe.withUpdateStatus c answer))
      with (syncResources c).
    change (controller.reportURLFor (observe.withUpdateStatus c answer))
      with (controller.reportURLFor c).
    destruct (value (syncResources c _ backend key _ _)) as [outcome left].
    eff_simpl. reflexivity.
Qed.

(** *** The primary fetch *)

(** What [syncHandler] does when the cache answers the fetch with an
    error. *)
Lemma syncHandler_fetch_failed (c : controller.Controller) (key namespace name : string)
  (err : errors.error) :
  cache.SplitMetaNamespaceKey key = errors.Ok (namespace, name) ->
  controller.Get (controller.loadtestsLister c) name = errors.Err err ->
  value (syncHandler c key) =
    (if errors.IsNotFound err || errors.IsConflict err
     then golang.Normal None else golang.Normal (Some err))
  /\ forallb observe.isReport (trace (syncHandler c key)) = true.
Proof.
  intros Hkey Hget. unfold controller.syncHandler. rewrite Hkey, Hget.
  destruct (errors.IsNotFound err); [split; reflexivity|].
  destruct (errors.IsConflict err); split; reflexivity.
Qed.

(** A trace of reports holds no queue operation. *)
Lemma reports_no_queue (t : list effect) :
  forallb observe.isReport t = true ->
  observe.forgotten t = [] /\ observe.rateLimited t = [] /\ observe.enqueued t = [].
Proof.
  induction t as [|e t IH]; [intros _; repeat split|].
  cbn [forallb]. rewrite andb_true_iff. intros [He Ht].
  destruct (IH Ht) as [Hf [Hr Hq]].
  destruct e; try discriminate He; cbn; auto.
Qed.

(** What the worker does with the queue, by the outcome of [syncHandler]. *)
Lemma processNextWorkItem_queue (c : controller.Controller) (key : string) :
  controller.Queue_Get (controller.workQueue c) = (OString key, false) ->
  observe.forgotten (trace (syncHandler c key)) = [] ->
  observe.rateLimited (trace (syncHandler c key)) = [] ->
  match value (syncHandler c key) with
  | golang.Normal None =>
      observe.forgotten (trace (processNextWorkItem c)) = [OString key]
      /\ observe.rateLimited (trace (processNextWorkItem c)) = []
      /\ value (processNextWorkItem c) = golang.Normal true
  | golang.Normal (Some _) =>
      observe.forgotten (trace (processNextWorkItem c)) = []
      /\ observe.rateLimited (trace (processNextWorkItem c)) = [key]
      /\ value (processNextWorkItem c) = golang.Normal true
  | golang.Panic msg =>
      observe.forgotten (trace (processNextWorkItem c)) = []
      /\ observe.rateLimited (trace (processNextWorkItem c)) = []
      /\ value (processNextWorkItem c) = golang.Panic msg
  end.
Proof.
  intros Hqueue Hforgot Hlimited.
  unfold controller.processNextWorkItem. rewrite Hqueue. cbn [negb].
  unfold controller.processItem. eff_simpl.
  destruct (value (syncHandler c key)) as [[err|]|msg]; eff_simpl; obs_simpl;
    rewrite Hforgot, Hlimited; repeat split; reflexivity.
Qed.

(** C5. The worker takes [key] off the queue and the cache answers the fetch
    of its loadtest with an error. If the error is a not-found or a conflict,
    [syncHandler] returns nil and the worker calls [Forget] on the key and
    not [AddRateLimited]; for any other error [syncHandler] returns that
    error and the worker calls [AddRateLimited] on the key and not
    [Forget]. *)
Theorem fetch_error_classification (c : controller.Controller)
  (key namespace name : string) (err : errors.error) :
  controller.Queue_Get (controller.workQueue c) = (OString key, false) ->
  cache.SplitMetaNamespaceKey key = errors.Ok (namespace, name) ->
  controller.Get (controller.loadtestsLister c) name = errors.Err err ->
  (errors.IsNotFound err = true \/ errors.IsConflict err = true ->
     value (syncHandler c key) = golang.Normal None
     /\ observe.forgotten (trace (processNextWorkItem c)) = [OString key]
     /\ observe.rateLimited (trace (processNextWorkItem c)) = [])
  /\ (errors.IsNotFound err = false -> errors.IsConflict err = false ->
     value (syncHandler c key) = golang.Normal (Some err)
     /\ observe.rateLimited (trace (processNextWorkItem c)) = [key]
     /\ observe.forgotten (trace (processNextWorkItem c)) = []).
Proof.
  intros Hqueue Hkey Hget.
  destruct (syncHandler_fetch_failed c key namespace name err Hkey Hget)
    as [Hvalue Hreports].
  destruct (reports_no_queue _ Hreports) as [Hforgot [Hlimited _]].
  pose proof (processNextWorkItem_queue c key Hqueue Hforgot Hlimited) as Hworker.
  rewrite Hvalue in Hworker |- *.
  split.
  - intros Hswallowed.
    assert (Hflag : errors.IsNotFound err || errors.IsConflict err = true)
      by (apply orb_true_iff; exact Hswallowed).
    rewrite Hflag in Hworker |- *. destruct Hworker as [Hf [Hr _]]. auto.
  - intros Hnf Hcf. rewrite Hnf, Hcf in Hworker |- *. cbn [orb] in *.
    destruct Hworker as [Hf [Hr _]]. auto.
Qed.

(** *** Events of owned objects *)

(** The key of a loadtest is always defined. *)
Lemma MetaNamespaceKeyFunc_LoadTest (lt : loadTestV1.LoadTest) :
  cache.MetaNamespaceKeyFunc (OLoadTest lt) =
    errors.Ok
      (if String.eqb (metaV1.Namespace (loadTestV1.ObjectMeta lt)) ""
       then metaV1.Name (loadTestV1.ObjectMeta lt)
       else metaV1.Namespace (loadTestV1.ObjectMeta lt) +:+ "/"
            +:+ metaV1.Name (loadTestV1.ObjectMeta lt)).
Proof.
  unfold cache.MetaNamespaceKeyFunc. cbn [asMetaObject].
  destruct (String.eqb _ ""); reflexivity.
Qed.

(** What [handleOwner] adds to the queue and logs, by the controlling owner
    reference of the object. *)
Lemma handleOwner_enqueues (c : controller.Controller) (object : metaV1.ObjectMeta) :
  match metaV1.GetControllerOf (metaV1.OwnerReferences object) with
  | None => trace (controller.handleOwner c object) = []
  | Some ownerRef =>
      if String.eqb (metaV1.Kind ownerRef) "LoadTest" then
        match controller.Get (controller.loadtestsLister c) (metaV1.OwnerName ownerRef) with
        | errors.Err _ =>
            observe.enqueued (trace (controller.handleOwner c object)) = []
            /\ observe.logged zap.DebugLevel (trace (controller.handleOwner c object)) =
                 ["Processing object"; "ignoring orphaned object"]
        | errors.Ok lt =>
            exists key,
              cache.MetaNamespaceKeyFunc (OLoadTest lt) = errors.Ok key
              /\ observe.enqueued (trace (controller.handleOwner c object)) = [key]
        end
      else trace (controller.handleOwner c object) = []
  end.
Proof.
  unfold controller.handleOwner.
  destruct (metaV1.GetControllerOf _) as [ownerRef|]; [|reflexivity].
  destruct (String.eqb _ "LoadTest"); cbn [negb]; [|reflexivity].
  eff_simpl.
  destruct (controller.Get _ _) as [lt|err]; [|split; reflexivity].
  unfold controller.enqueueLoadTest. rewrite MetaNamespaceKeyFunc_LoadTest.
  eexists. split; reflexivity.
Qed.

(** [handleObject] adds to the queue what [handleOwner] adds for the object
    it decodes, directly or out of a tombstone. *)
Lemma handleObject_decoded (c : controller.Controller) (obj : object)
  (object : metaV1.ObjectMeta) :
  asMetaObject obj = Some object
  \/ (exists key inner, obj = OTombstone key inner /\ asMetaObject inner = Some object) ->
  observe.enqueued (trace (controller.handleObject c obj)) =
    observe.enqueued (trace (controller.handleOwner c object))
  /\ forall msg, In msg (observe.logged zap.DebugLevel (trace (controller.handleOwner c object))) ->
                 In msg (observe.logged zap.DebugLevel (trace (controller.handleObject c obj))).
Proof.
  intros [Hdirect | [key [inner [-> Hinner]]]]; unfold controller.handleObject.
  - rewrite Hdirect. split; auto.
  - cbn [asMetaObject]. rewrite Hinner. eff_simpl. obs_simpl. split; auto.
Qed.

(** C6. For an event whose object decodes (a Job, a Pod, or a tombstone
    around one): with no controlling owner reference, or one whose kind is
    not LoadTest, nothing is added to the queue; with one that names a
    loadtest the cache does not hold, the orphan is logged and nothing is
    added; with one that names a loadtest the cache holds, the key of that
    loadtest is added, and nothing else. *)
Theorem handleObject_owner_filter (c : controller.Controller) (obj : object)
  (object : metaV1.ObjectMeta) :
  asMetaObject obj = Some object
  \/ (exists key inner, obj = OTombstone key inner /\ asMetaObject inner = Some object) ->
  let owner := metaV1.GetControllerOf (metaV1.OwnerReferences object) in
  let added := observe.enqueued (trace (controller.handleObject c obj)) in
  (owner = None -> added = [])
  /\ (forall ownerRef,
        owner = Some ownerRef -> metaV1.Kind ownerRef <> "LoadTest" -> added = [])
  /\ (forall ownerRef err,
        owner = Some ownerRef -> metaV1.Kind ownerRef = "LoadTest" ->
        controller.Get (controller.loadtestsLister c) (metaV1.OwnerName ownerRef)
          = errors.Err err ->
        added = []
        /\ In "ignoring orphaned object"
             (observe.logged zap.DebugLevel (trace (controller.handleObject c obj))))
  /\ (forall ownerRef lt,
        owner = Some ownerRef -> metaV1.Kind ownerRef = "LoadTest" ->
        controller.Get (controller.loadtestsLister c) (metaV1.OwnerName ownerRef)
          = errors.Ok lt ->
        exists key,
          cache.MetaNamespaceKeyFunc (OLoadTest lt) = errors.Ok key /\ added = [key]).
Proof.
  intros Hdecoded owner added.
  destruct (handleObject_decoded c obj object Hdecoded) as [Hadded Hlogged].
  fold added in Hadded.
  pose proof (handleOwner_enqueues c object) as Howner. fold owner in Howner.
  split; [|split; [|split]].
  - intros Hnone. rewrite Hnone in Howner. rewrite Hadded, Howner. reflexivity.
  - intros ownerRef Hsome Hkind. rewrite Hsome in Howner.
    destruct (String.eqb_spec (metaV1.Kind ownerRef) "LoadTest") as [Heq|_];
      [contradiction|].
    rewrite Hadded, Howner. reflexivity.
  - intros ownerRef err Hsome Hkind Hget. rewrite Hsome, Hkind, Hget in Howner.
    cbn [String.eqb Ascii.eqb Bool.eqb] in Howner.
    destruct Howner as [Hnone Hlog]. split; [rewrite Hadded; exact Hnone|].
    apply Hlogged. rewrite Hlog. right. left. reflexivity.
  - intros ownerRef lt Hsome Hkind Hget. rewrite Hsome, Hkind, Hget in Howner.
    cbn [String.eqb Ascii.eqb Bool.eqb] in Howner.
    destruct Howner as [key [Hkey Hone]]. exists key. split; [exact Hkey|].
    rewrite Hadded. exact Hone.
Qed.

(** C7. An update of a Job, or of a Pod, whose new and old resource versions
    are equal returns at once: the handler has no effect at all, so nothing
    is added to the queue. *)
Theorem update_resync_suppressed (c : controller.Controller) :
  (forall old new : batchV1.Job,
     metaV1.ResourceVersion (batchV1.JobMeta new)
       = metaV1.ResourceVersion (batchV1.JobMeta old) ->
     controller.jobUpdateFunc c (OJob old) (OJob new) = (golang.Normal tt, [])
     /\ observe.enqueued (trace (controller.jobUpdateFunc c (OJob old) (OJob new))) = [])
  /\ (forall old new : coreV1.Pod,
        metaV1.ResourceVersion (coreV1.PodMeta new)
          = metaV1.ResourceVersion (coreV1.PodMeta old) ->
        controller.podUpdateFunc c (OPod old) (OPod new) = (golang.Normal tt, [])
        /\ observe.enqueued (trace (controller.podUpdateFunc c (OPod old) (OPod new))) = []).
Proof.
  split; intros old new Hversion.
  - unfold controller.jobUpdateFunc. rewrite Hversion, String.eqb_refl. split; reflexivity.
  - unfold controller.podUpdateFunc. rewrite Hversion, String.eqb_refl. split; reflexivity.
Qed.

(** *** What a reconcile leaves in its trace *)

(** Walks the branches of a computation, reading its trace as it goes. *)
Ltac walk :=
  repeat first
    [ progress eff_simpl
    | progress obs_simpl
    | case_match ];
  try reflexivity.

Lemma deleteLoadTest_reads (c : controller.Controller) (key : string)
  (loadTest : loadTestV1.LoadTest) :
  observe.deletes (trace (controller.deleteLoadTest c key loadTest))
    = [loadTestV1.GetName loadTest]
  /\ observe.reportURLs (trace (controller.deleteLoadTest c key loadTest)) = []
  /\ observe.forgotten (trace (controller.deleteLoadTest c key loadTest)) = []
  /\ observe.rateLimited (trace (controller.deleteLoadTest c key loadTest)) = [].
Proof. unfold controller.deleteLoadTest. repeat split; walk. Qed.

Lemma checkOrCreateNamespace_reads (c : controller.Controller)
  (loadTest : loadTestV1.LoadTest) :
  observe.deletes (trace (checkOrCreateNamespace c loadTest)) = []
  /\ observe.reportURLs (trace (checkOrCreateNamespace c loadTest)) = []
  /\ observe.forgotten (trace (checkOrCreateNamespace c loadTest)) = []
  /\ observe.rateLimited (trace (checkOrCreateNamespace c loadTest)) = [].
Proof. unfold controller.checkOrCreateNamespace. repeat split; walk. Qed.

Lemma updateLoadTestStatus_reads (c : controller.Controller) (key : string)
  (loadTest loadTestFromCache : loadTestV1.LoadTest) :
  observe.deletes (trace (updateLoadTestStatus c key loadTest loadTestFromCache)) = []
  /\ observe.reportURLs (trace (updateLoadTestStatus c key loadTest loadTestFromCache)) = []
  /\ observe.forgotten (trace (updateLoadTestStatus c key loadTest loadTestFromCache)) = []
  /\ observe.rateLimited (trace (updateLoadTestStatus c key loadTest loadTestFromCache)) = [].
Proof. unfold controller.updateLoadTestStatus. repeat split; walk. Qed.

(** Closes the four readings of a trace that has been computed. *)
Ltac reads_done :=
  split; [reflexivity|];
  split; [reflexivity|];
  split; [intros ? Hin; simpl in Hin; intuition congruence|];
  intros Hdel; first [reflexivity | exfalso; apply Hdel; reflexivity].

(** The statements after the [defer] never touch the queue; they hand
    [backend.Sync] the report URL they were given; and when they call
    [Delete] they return nil. *)
Lemma syncResources_reads (c : controller.Controller) (logger : zap.Logger)
  (backend : backends.Backend) (key : string) (loadTest : loadTestV1.LoadTest)
  (reportURL : string) :
  let run := syncResources c logger backend key loadTest reportURL in
  observe.forgotten (trace run) = []
  /\ observe.rateLimited (trace run) = []
  /\ (forall url, In url (observe.reportURLs (trace run)) -> url = reportURL)
  /\ (observe.deletes (trace run) <> [] -> fst (value run) = golang.Normal None).
Proof.
  intros run. subst run. unfold controller.syncResources.
  destruct (checkOrCreateNamespace_reads c loadTest) as [Hd [Hu [Hf Hr]]].
  eff_simpl. obs_simpl. rewrite Hd, Hu, Hf, Hr.
  destruct (value (checkOrCreateNamespace c loadTest)) as [[[err|]|msg] copy];
    eff_simpl; obs_simpl; try reads_done.
  destruct (backends.Sync _ _ _) as [err|]; eff_simpl; obs_simpl; [reads_done|].
  destruct (backends.SyncStatus _ _) as [status [err|]]; eff_simpl; obs_simpl;
    [reads_done|].
  destruct (_ && _); eff_simpl; obs_simpl; [|reads_done].
  destruct (deleteLoadTest_reads c key (loadTestV1.withStatus copy status))
    as [Hd' [Hu' [Hf' Hr']]].
  rewrite Hu', Hf', Hr'. reads_done.
Qed.

(** [syncHandler] never touches the queue; the report URL it hands to the
    backend is the one computed from the fetched loadtest; and when it calls
    [Delete] it returns nil. *)
Lemma syncHandler_reads (c : controller.Controller) (key : string) :
  observe.forgotten (trace (syncHandler c key)) = []
  /\ observe.rateLimited (trace (syncHandler c key)) = []
  /\ (forall url, In url (observe.reportURLs (trace (syncHandler c key))) ->
      exists namespace name cached,
        cache.SplitMetaNamespaceKey key = errors.Ok (namespace, name)
        /\ controller.Get (controller.loadtestsLister c) name = errors.Ok cached
        /\ url = controller.reportURLFor c cached)
  /\ (observe.deletes (trace (syncHandler c key)) <> [] ->
      value (syncHandler c key) = golang.Normal None).
Proof.
  destruct (cache.SplitMetaNamespaceKey key) as [[namespace name]|err] eqn:Hkey.
  2: { unfold controller.syncHandler. rewrite Hkey. reads_done. }
  destruct (controller.Get (controller.loadtestsLister c) name) as [cached|err] eqn:Hget.
  2: { unfold controller.syncHandler. rewrite Hkey, Hget.
       destruct (errors.IsNotFound err); [|destruct (errors.IsConflict err)];
         reads_done. }
  destruct (backends.GetBackend (controller.registry c)
              (loadTestV1.Type_ (loadTestV1.Spec cached))) as [backend|err] eqn:Hbackend.
  2: { unfold controller.syncHandler. rewrite Hkey, Hget.
       unfold loadTestV1.DeepCopy. rewrite Hbackend. reads_done. }
  destruct (syncHandler_deferred c key namespace name cached backend Hkey Hget Hbackend)
    as [Hvalue Htrace].
  cbv zeta in Hvalue, Htrace. rewrite Hvalue, Htrace. obs_simpl.
  match goal with
  | |- context [trace (syncResources c ?lg backend key ?copy ?url)] =>
      destruct (syncResources_reads c lg backend key copy url) as [Hf [Hr [Hu Hd]]];
      destruct (updateLoadTestStatus_reads c key
                  (snd (value (syncResources c lg backend key copy url))) cached)
        as [Hd' [Hu' [Hf' Hr']]]
  end.
  cbv zeta in Hf, Hr, Hu, Hd.
  rewrite Hf, Hr, Hf', Hr', Hu', Hd', !app_nil_r.
  split; [reflexivity|]. split; [reflexivity|]. split; [|exact Hd].
  intros url Hin. exists namespace, name, cached.
  split; [reflexivity|]. split; [exact Hget|]. apply Hu in Hin. exact Hin.
Qed.

(** *** The report URL *)

Lemma eqb_empty_l (s : string) : String.eqb "" s = true <-> s = "".
Proof. destruct s; simpl; split; intros H; try reflexivity; discriminate. Qed.

Lemma append_nonempty_l (a b : string) : a <> "" -> a +:+ b <> "".
Proof. destruct a; [intros H; contradiction | discriminate]. Qed.

(** C8. With a proxy base URL [p] configured, the report URL of the loadtest
    named [n] is [p/load-test/n/report], and the job [NewJob] builds with it
    has the variable REPORT_PRESIGNED_URL, set to that URL, as the
    environment of its container. With no proxy URL the report URL is empty
    and the environment of the container is empty. The URL [syncHandler]
    hands to the backend is the one computed, in this way, from the loadtest
    it fetched. *)
Theorem report_url_injection (c : controller.Controller) (loadTest : loadTestV1.LoadTest)
  (BuildResourceRequirements : backends.Resources -> coreV1.ResourceRequirements)
  (b : ghz.Backend) (configMap : coreV1.ConfigMap) :
  let proxy := controller.KangalProxyURL (controller.cfg c) in
  let name := loadTestV1.GetName loadTest in
  let reportURL := controller.reportURLFor c loadTest in
  let job := value (ghz.NewJob SchemeGroupVersion BuildResourceRequirements
                      b loadTest configMap reportURL) in
  (proxy <> "" ->
     reportURL = proxy +:+ "/load-test/" +:+ name +:+ "/report"
     /\ observe.jobEnvs job =
          [[ {| coreV1.EnvName := "REPORT_PRESIGNED_URL";
                coreV1.EnvValue := proxy +:+ "/load-test/" +:+ name +:+ "/report" |} ]])
  /\ (proxy = "" -> reportURL = "" /\ observe.jobEnvs job = [[]])
  /\ (forall key url,
        In url (observe.reportURLs (trace (syncHandler c key))) ->
        exists namespace fetched cached,
          cache.SplitMetaNamespaceKey key = errors.Ok (namespace, fetched)
          /\ controller.Get (controller.loadtestsLister c) fetched = errors.Ok cached
          /\ url = controller.reportURLFor c cached).
Proof.
  intros proxy name reportURL job.
  assert (Henv : observe.jobEnvs job =
                 [if negb (String.eqb "" reportURL)
                  then [ {| coreV1.EnvName := "REPORT_PRESIGNED_URL";
                            coreV1.EnvValue := reportURL |} ]
                  else []]).
  { subst job. unfold ghz.NewJob. rewrite !value_bind.
    destruct (negb (String.eqb "" reportURL)); reflexivity. }
  split; [|split].
  - intros Hproxy.
    assert (Hurl : reportURL = proxy +:+ "/load-test/" +:+ name +:+ "/report").
    { subst reportURL. unfold controller.reportURLFor. fold proxy. fold name.
      destruct (String.eqb_spec proxy ""); [contradiction | reflexivity]. }
    split; [exact Hurl|].
    rewrite Henv, Hurl.
    destruct (String.eqb "" (proxy +:+ "/load-test/" +:+ name +:+ "/report")) eqn:Hempty;
      [|reflexivity].
    apply eqb_empty_l in Hempty. apply append_nonempty_l in Hempty; [contradiction|exact Hproxy].
  - intros Hproxy.
    assert (Hurl : reportURL = "").
    { subst reportURL. unfold controller.reportURLFor. fold proxy.
      rewrite Hproxy. reflexivity. }
    split; [exact Hurl|]. rewrite Henv, Hurl. reflexivity.
  - intros key url Hin.
    destruct (syncHandler_reads c key) as [_ [_ [Hurls _]]]. exact (Hurls url Hin).
Qed.

(** *** The namespace of a loadtest *)

(** The labels of the namespace of a loadtest named [name], over the
    configured labels. *)
Lemma namespace_labels_lookup (labels : gmap string string) (name key : string) :
  (<["app" := "kangal"]> (<["controller" := name]> labels)) !! key =
    if decide (key = "app") then Some "kangal"
    else if decide (key = "controller") then Some name
    else labels !! key.
Proof.
  destruct (decide (key = "app")) as [->|Happ].
  - apply lookup_insert_eq.
  - rewrite lookup_insert_ne by congruence.
    destruct (decide (key = "controller")) as [->|Hctl].
    + apply lookup_insert_eq.
    + apply lookup_insert_ne. congruence.
Qed.

(** [newNamespace] over a label map that is not nil. *)
Lemma newNamespace_made (loadtest : loadTestV1.LoadTest) (labels : gmap string string)
  (annotations : golang.StringMap) :
  exists ns,
    newNamespace loadtest (Some labels) annotations = golang.Normal (errors.Ok ns)
    /\ metaV1.Name (coreV1.NamespaceMeta ns) = loadTestV1.GetName loadtest
    /\ metaV1.Labels (coreV1.NamespaceMeta ns) =
         Some (<["app" := "kangal"]>
                 (<["controller" := loadTestV1.GetName loadtest]> labels))
    /\ metaV1.Annotations (coreV1.NamespaceMeta ns) = annotations
    /\ metaV1.OwnerReferences (coreV1.NamespaceMeta ns) =
         [ metaV1.NewControllerRef (loadTestV1.ObjectMeta loadtest)
             SchemeGroupVersion "LoadTest" ].
Proof. eexists. unfold controller.newNamespace. cbn. repeat split. Qed.

(** Writing a label into a nil map panics. *)
Lemma newNamespace_nil_labels (loadtest : loadTestV1.LoadTest)
  (annotations : golang.StringMap) :
  newNamespace loadtest None annotations = golang.Panic "assignment to entry in nil map".
Proof. reflexivity. Qed.

(** C9. [checkOrCreateNamespace] on a loadtest whose [Status.Namespace] is
    set returns at once: no call is made and the loadtest is as it was. On a
    loadtest without a namespace, when the API server lists no namespace
    under the selector [controller=<name>], one [Create] call is made, for a
    namespace named after the loadtest, labelled with the configured labels
    plus [controller=<name>] and [app=kangal], annotated with the configured
    annotations and owned by the loadtest through a controller reference;
    when the call succeeds [Status.Namespace] becomes the name of the
    namespace the server returned. When the server lists namespaces, none is
    created and [Status.Namespace] becomes the name of the first one
    listed. *)
Theorem checkOrCreateNamespace_ensures (c : controller.Controller)
  (loadtest : loadTestV1.LoadTest) :
  let name := loadTestV1.GetName loadtest in
  let selector := "controller=" +:+ name in
  let status := loadTestV1.Status loadtest in
  let run := checkOrCreateNamespace c loadtest in
  (loadTestV1.Namespace status <> "" ->
     value run = (golang.Normal None, loadtest) /\ trace run = [])
  /\ (loadTestV1.Namespace status = "" ->
      forall labels,
        controller.NamespaceLabels (controller.cfg c) = Some labels ->
        controller.Namespaces_List (controller.kubeClientSet c) selector = errors.Ok [] ->
        exists ns,
          observe.namespacesCreated (trace run) = [ns]
          /\ metaV1.Name (coreV1.NamespaceMeta ns) = name
          /\ metaV1.Labels (coreV1.NamespaceMeta ns) =
               Some (<["app" := "kangal"]> (<["controller" := name]> labels))
          /\ metaV1.Annotations (coreV1.NamespaceMeta ns) =
               controller.NamespaceAnnotations (controller.cfg c)
          /\ metaV1.OwnerReferences (coreV1.NamespaceMeta ns) =
               [ metaV1.NewControllerRef (loadTestV1.ObjectMeta loadtest)
                   SchemeGroupVersion "LoadTest" ]
          /\ (forall created,
                controller.Namespaces_Create (controller.kubeClientSet c) ns
                  = errors.Ok created ->
                value run =
                  (golang.Normal None,
                   loadTestV1.withStatus loadtest
                     (loadTestV1.withNamespace status
                        (metaV1.Name (coreV1.NamespaceMeta created))))))
  /\ (loadTestV1.Namespace status = "" ->
      forall first rest,
        controller.Namespaces_List (controller.kubeClientSet c) selector
          = errors.Ok (first :: rest) ->
        observe.namespacesCreated (trace run) = []
        /\ value run =
             (golang.Normal None,
              loadTestV1.withStatus loadtest
                (loadTestV1.withNamespace status
                   (metaV1.Name (coreV1.NamespaceMeta first))))).
Proof.
  intros name selector status run.
  split; [|split].
  - intros Hset. subst run. unfold controller.checkOrCreateNamespace. fold status.
    destruct (String.eqb_spec (loadTestV1.Namespace status) ""); [contradiction|].
    split; reflexivity.
  - intros Hunset labels Hlabels Hlist.
    destruct (newNamespace_made loadtest labels
                (controller.NamespaceAnnotations (controller.cfg c)))
      as [ns [Hmade [Hname [Hlab [Hann Hown]]]]].
    exists ns. subst run. unfold controller.checkOrCreateNamespace. fold status.
    rewrite Hunset. cbn [String.eqb negb]. fold name. fold selector.
    rewrite Hlist, Hlabels, Hmade. eff_simpl.
    split; [destruct (controller.Namespaces_Create _ ns); reflexivity|].
    split; [exact Hname|]. split; [exact Hlab|]. split; [exact Hann|].
    split; [exact Hown|].
    intros created Hcreated. rewrite Hcreated. reflexivity.
  - intros Hunset first rest Hlist. subst run.
    unfold controller.checkOrCreateNamespace. fold status.
    rewrite Hunset. cbn [String.eqb negb]. fold name. fold selector.
    rewrite Hlist. split; reflexivity.
Qed.

(** *** Clean-up *)

(** [deleteLoadTest] after a failed [Delete]: the call, then reports only. *)
Lemma deleteLoadTest_failed (c : controller.Controller) (key : string)
  (loadTest : loadTestV1.LoadTest) (err : errors.error) :
  controller.LoadTests_Delete (controller.kangalClientSet c) (loadTestV1.GetName loadTest)
    = Some err ->
  exists reports,
    trace (controller.deleteLoadTest c key loadTest)
      = LoadTestsDelete (loadTestV1.GetName loadTest) :: reports
    /\ reports <> []
    /\ forallb observe.isReport reports = true.
Proof.
  intros Hfailed. unfold controller.deleteLoadTest. rewrite Hfailed. eff_simpl.
  destruct (errors.IsConflict err); eff_simpl; eexists;
    (split; [reflexivity|]); split; try discriminate; reflexivity.
Qed.

(** C10. Whenever a reconcile calls [Delete] on the loadtest, [syncHandler]
    returns nil, whatever [Delete] answers: the worker that took the key
    calls [Forget] on it and not [AddRateLimited]. When [Delete] answers with
    an error, conflict or not, [deleteLoadTest] follows the call with log
    lines and error reports only. *)
Theorem failed_delete_not_retried (c : controller.Controller) (key name : string) :
  In name (observe.deletes (trace (syncHandler c key))) ->
  value (syncHandler c key) = golang.Normal None
  /\ (controller.Queue_Get (controller.workQueue c) = (OString key, false) ->
      observe.forgotten (trace (processNextWorkItem c)) = [OString key]
      /\ observe.rateLimited (trace (processNextWorkItem c)) = []
      /\ value (processNextWorkItem c) = golang.Normal true)
  /\ (forall loadTest err,
        controller.LoadTests_Delete (controller.kangalClientSet c)
          (loadTestV1.GetName loadTest) = Some err ->
        exists reports,
          trace (controller.deleteLoadTest c key loadTest)
            = LoadTestsDelete (loadTestV1.GetName loadTest) :: reports
          /\ reports <> []
          /\ forallb observe.isReport reports = true).
Proof.
  intros Hdeleted.
  destruct (syncHandler_reads c key) as [Hforgot [Hlimited [_ Hnil]]].
  assert (Hvalue : value (syncHandler c key) = golang.Normal None).
  { apply Hnil. intros Hnone. rewrite Hnone in Hdeleted. destruct Hdeleted. }
  split; [exact Hvalue|]. split.
  - intros Hqueue.
    pose proof (processNextWorkItem_queue c key Hqueue Hforgot Hlimited) as Hworker.
    rewrite Hvalue in Hworker. exact Hworker.
  - intros loadTest err. apply deleteLoadTest_failed.
Qed.

End ControllerProperties.

(** ** Concrete runs *)

(** The claim that an empty image or an empty tag alone selects the default
    image fails: with an empty image and the tag [v1] the job runs the image
    [:v1], with the image [ghz] and an empty tag it runs [ghz:], and no
    warning is logged, although the backend's default is
    [hellofresh/kangal-ghz:latest]. *)
Lemma NewJob_default_image_counterexample :
  let tagOnly := sample.loadTest "t1" "" "v1" loadTestV1.LoadTestCreating "t1" None 0 in
  let imageOnly := sample.loadTest "t1" "ghz" "" loadTestV1.LoadTestCreating "t1" None 0 in
  let configMap := ghz.NewTestFileConfigMap sample.backend tagOnly in
  let build := ghz.NewJob sample.groupVersion sample.noRequirements sample.backend in
  loadTestV1.Image (loadTestV1.MasterConfig (loadTestV1.Spec tagOnly)) = ""
  /\ loadTestV1.Tag (loadTestV1.MasterConfig (loadTestV1.Spec imageOnly)) = ""
  /\ observe.jobImages (value (build tagOnly configMap "")) = [":v1"]
  /\ observe.jobImages (value (build imageOnly configMap "")) = ["ghz:"]
  /\ observe.jobImages (value (build tagOnly configMap "")) <> ["hellofresh/kangal-ghz:latest"]
  /\ observe.jobImages (value (build imageOnly configMap "")) <> ["hellofresh/kangal-ghz:latest"]
  /\ trace (build tagOnly configMap "") = []
  /\ trace (build imageOnly configMap "") = [].
Proof.
  cbv zeta. repeat split; try reflexivity; vm_compute; discriminate.
Qed.

(** With neither image nor tag the default image is used and the warning is
    logged. *)
Example NewJob_default_image_run :
  let empty := sample.loadTest "t1" "" "" loadTestV1.LoadTestCreating "t1" None 0 in
  let configMap := ghz.NewTestFileConfigMap sample.backend empty in
  let run := ghz.NewJob sample.groupVersion sample.noRequirements sample.backend
               empty configMap "" in
  observe.jobImages (value run) = ["hellofresh/kangal-ghz:latest"]
  /\ observe.logged zap.WarnLevel (trace run)
     = ["Loadtest.Spec.MasterConfig is empty; using default image"].
Proof. cbv zeta. split; reflexivity. Qed.

(** The four phases a job's counters map to. *)
Example determineLoadTestStatusFromJobs_runs :
  ghz.determineLoadTestStatusFromJobs (sample.job 1 1 1) = loadTestV1.LoadTestErrored
  /\ ghz.determineLoadTestStatusFromJobs (sample.job 1 0 0) = loadTestV1.LoadTestRunning
  /\ ghz.determineLoadTestStatusFromJobs (sample.job 0 0 0) = loadTestV1.LoadTestStarting
  /\ ghz.determineLoadTestStatusFromJobs (sample.job 0 1 0) = loadTestV1.LoadTestFinished.
Proof. repeat split. Qed.

(** The lifetime predicate around its boundary, with a threshold of 3600
    seconds at the instant 10000 seconds: a loadtest finished 2 hours ago is
    stale, one finished exactly 3600 seconds ago is not, one finished 3600
    seconds and a nanosecond ago is; an errored loadtest without completion
    time is stale by its age. *)
Example checkLoadTestLifeTimeExceeded_runs :
  let hour := 3600000000000 in
  let now := 10000000000000 in
  let finished completion :=
    sample.loadTest "t3" "" "" loadTestV1.LoadTestFinished "t3" (Some completion) 0 in
  controller.checkLoadTestLifeTimeExceeded now (finished (now - 2 * hour)) hour = true
  /\ controller.checkLoadTestLifeTimeExceeded now (finished (now - hour)) hour = false
  /\ controller.checkLoadTestLifeTimeExceeded now (finished (now - hour - 1)) hour = true
  /\ controller.checkLoadTestLifeTimeExceeded now
       (sample.loadTest "t3" "" "" loadTestV1.LoadTestRunning "t3" (Some 0) 0) hour = false
  /\ controller.checkLoadTestLifeTimeExceeded now
       (sample.loadTest "t3" "" "" loadTestV1.LoadTestErrored "t3" None 0) hour = true
  /\ controller.checkLoadTestLifeTimeExceeded now
       (sample.loadTest "t3" "" "" loadTestV1.LoadTestErrored "t3" None (now - hour)) hour
     = false.
Proof. cbv zeta. repeat split. Qed.

(** The claim that the predicate is false whenever the time elapsed since
    completion equals the threshold fails: an errored loadtest created at
    the instant 0, whose completion lies exactly one hour before the instant
    10000 seconds, is stale under a threshold of one hour. The first
    condition fails at the boundary, the second holds by the age of the
    loadtest. *)
Lemma checkLoadTestLifeTimeExceeded_boundary_counterexample :
  let hour := 3600000000000 in
  let now := 10000000000000 in
  let loadTest :=
    sample.loadTest "t3" "" "" loadTestV1.LoadTestErrored "t3" (Some (now - hour)) 0 in
  0 < hour
  /\ batchV1.CompletionTime (loadTestV1.JobStatus (loadTestV1.Status loadTest))
     = Some (now - hour)
  /\ now - (now - hour) = hour
  /\ time.Since now (now - hour) = hour
  /\ loadTestV1.Phase (loadTestV1.Status loadTest) = loadTestV1.LoadTestErrored
  /\ time.Since now (metaV1.CreationTimestamp (loadTestV1.ObjectMeta loadTest)) > hour
  /\ controller.checkLoadTestLifeTimeExceeded now loadTest hour = true
  /\ controller.checkLoadTestLifeTimeExceeded now loadTest hour <> false.
Proof.
  cbv zeta. repeat split; try reflexivity. vm_compute. discriminate.
Qed.

(** A witness of C5: the cache answers not-found for the key [t1], and a
    timeout for it. *)
Lemma fetch_error_classification_witness :
  let run := controller.processNextWorkItem sample.groupVersion sample.phaseString in
  let gone := sample.controllerOf (sample.config "" 0 (Some ∅))
                (errors.Err sample.notFound) [] (sample.reporting loadTestV1.LoadTestRunning)
                None None (OString "t1") 0 in
  let late := sample.controllerOf (sample.config "" 0 (Some ∅))
                (errors.Err sample.timeout) [] (sample.reporting loadTestV1.LoadTestRunning)
                None None (OString "t1") 0 in
  (value (controller.syncHandler sample.groupVersion sample.phaseString gone "t1")
     = golang.Normal None
   /\ observe.forgotten (trace (run gone)) = [OString "t1"]
   /\ observe.rateLimited (trace (run gone)) = [])
  /\ (value (controller.syncHandler sample.groupVersion sample.phaseString late "t1")
        = golang.Normal (Some sample.timeout)
      /\ observe.rateLimited (trace (run late)) = ["t1"]
      /\ observe.forgotten (trace (run late)) = []).
Proof.
  cbv zeta. split.
  - apply (fetch_error_classification sample.groupVersion sample.phaseString
             _ "t1" "" "t1" sample.notFound); try reflexivity.
    left. reflexivity.
  - apply (fetch_error_classification sample.groupVersion sample.phaseString
             _ "t1" "" "t1" sample.timeout); reflexivity.
Defined.

(** A witness of C6: a pod owned by the loadtest [missing], which the cache
    does not hold, adds nothing to the queue and is logged; the same pod
    owned by [t1], which the cache holds, adds the key [t1]. *)
Lemma handleObject_owner_filter_witness :
  (observe.enqueued
     (trace (controller.handleObject sample.emptyCache
               (OPod (sample.ownedPod "LoadTest" "missing"))))
     = []
   /\ In "ignoring orphaned object"
        (observe.logged zap.DebugLevel
           (trace (controller.handleObject sample.emptyCache
                     (OPod (sample.ownedPod "LoadTest" "missing"))))))
  /\ (exists key,
        cache.MetaNamespaceKeyFunc
          (OLoadTest (sample.loadTest "t1" "" "" loadTestV1.LoadTestRunning "t1" None 0))
          = errors.Ok key
        /\ observe.enqueued
             (trace (controller.handleObject sample.holdingT1
                       (OTombstone "t1/loadtest-job-abcde"
                          (OPod (sample.ownedPod "LoadTest" "t1")))))
           = [key]).
Proof.
  split.
  - refine (proj1 (proj2 (proj2
      (handleObject_owner_filter sample.emptyCache
         (OPod (sample.ownedPod "LoadTest" "missing"))
         (coreV1.PodMeta (sample.ownedPod "LoadTest" "missing"))
         (or_introl eq_refl)))) _ sample.notFound eq_refl eq_refl eq_refl).
  - refine (proj2 (proj2 (proj2
      (handleObject_owner_filter sample.holdingT1
         (OTombstone "t1/loadtest-job-abcde" (OPod (sample.ownedPod "LoadTest" "t1")))
         (coreV1.PodMeta (sample.ownedPod "LoadTest" "t1"))
         (or_intror (ex_intro _ _ (ex_intro _ _ (conj eq_refl eq_refl))))))) _ _
      eq_refl eq_refl eq_refl).
Defined.

(** A pod owned by something that is not a loadtest adds nothing and logs
    nothing. *)
Example handleObject_foreign_owner_run :
  let c := sample.controllerOf (sample.config "" 0 (Some ∅))
             (errors.Ok (sample.loadTest "t1" "" "" loadTestV1.LoadTestRunning "t1" None 0))
             [] (sample.reporting loadTestV1.LoadTestRunning) None None OOther 0 in
  trace (controller.handleObject c (OPod (sample.ownedPod "ReplicaSet" "t1"))) = [].
Proof. reflexivity. Qed.

(** A witness of C10: the loadtest [t3] finished two hours ago, the
    threshold is one hour, and [Delete] answers with a conflict. *)
Lemma failed_delete_not_retried_witness :
  let hour := 3600000000000 in
  let now := 10000000000000 in
  let c := sample.controllerOf (sample.config "" hour (Some ∅))
             (errors.Ok (sample.loadTest "t3" "" "" loadTestV1.LoadTestFinished "t3"
                           (Some (now - 2 * hour)) 0))
             [] (sample.reporting loadTestV1.LoadTestFinished) None (Some sample.conflict)
             (OString "t3") now in
  observe.deletes (trace (controller.syncHandler sample.groupVersion sample.phaseString c "t3"))
    = ["t3"]
  /\ value (controller.syncHandler sample.groupVersion sample.phaseString c "t3")
     = golang.Normal None
  /\ observe.forgotten
       (trace (controller.processNextWorkItem sample.groupVersion sample.phaseString c))
     = [OString "t3"]
  /\ observe.rateLimited
       (trace (controller.processNextWorkItem sample.groupVersion sample.phaseString c))
     = [].
Proof.
  cbv zeta. split; [vm_compute; reflexivity|].
  match goal with
  | |- value (controller.syncHandler _ _ ?c _) = _ /\ _ =>
      pose proof (failed_delete_not_retried sample.groupVersion sample.phaseString
                    c "t3" "t3") as Hclaim
  end.
  destruct Hclaim as [Hnil [Hworker _]].
  - vm_compute. left. reflexivity.
  - split; [exact Hnil|].
    destruct (Hworker eq_refl) as [Hforgot [Hlimited _]].
    split; assumption.
Defined.

(** Scenario: the proxy URL [https://p.example] and the loadtest [t2]. *)
Example report_url_run :
  let lt := sample.loadTest "t2" "" "" loadTestV1.LoadTestCreating "t2" None 0 in
  let c := sample.controllerOf (sample.config "https://p.example" 0 (Some ∅))
             (errors.Ok lt) [] (sample.reporting loadTestV1.LoadTestRunning)
             None None (OString "t2") 0 in
  controller.reportURLFor c lt = "https://p.example/load-test/t2/report"
  /\ observe.reportURLs
       (trace (controller.syncHandler sample.groupVersion sample.phaseString c "t2"))
     = ["https://p.example/load-test/t2/report"]
  /\ observe.jobEnvs
       (value (ghz.NewJob sample.groupVersion sample.noRequirements sample.backend lt
                 (ghz.NewTestFileConfigMap sample.backend lt)
                 (controller.reportURLFor c lt)))
     = [[ {| coreV1.EnvName := "REPORT_PRESIGNED_URL";
             coreV1.EnvValue := "https://p.example/load-test/t2/report" |} ]].
Proof. cbv zeta. repeat split; vm_compute; reflexivity. Qed.

(** Scenario: the phase moves from Starting to Running and [UpdateStatus]
    answers with a conflict. The write is attempted once, the reconcile
    returns nil and the worker forgets the key. *)
Example status_conflict_run :
  let lt := sample.loadTest "t1" "" "" loadTestV1.LoadTestStarting "t1" None 0 in
  let c := sample.controllerOf (sample.config "" 0 (Some ∅))
             (errors.Ok lt) [] (sample.reporting loadTestV1.LoadTestRunning)
             (Some sample.conflict) None (OString "t1") 0 in
  let run := controller.syncHandler sample.groupVersion sample.phaseString c "t1" in
  value run = golang.Normal None
  /\ map (fun written => loadTestV1.Phase (loadTestV1.Status written))
         (observe.statusWrites (trace run)) = [loadTestV1.LoadTestRunning]
  /\ observe.forgotten
       (trace (controller.processNextWorkItem sample.groupVersion sample.phaseString c))
     = [OString "t1"].
Proof. cbv zeta. repeat split; vm_compute; reflexivity. Qed.

(** Scenario: a loadtest without a namespace and no namespace listed. The
    namespace [t1] is created with the labels [controller=t1] and
    [app=kangal], and the status is written with the namespace [t1]. *)
Example namespace_created_run :
  let lt := sample.loadTest "t1" "" "" loadTestV1.LoadTestCreating "" None 0 in
  let c := sample.controllerOf (sample.config "" 0 (Some ∅))
             (errors.Ok lt) [] (sample.reporting loadTestV1.LoadTestStarting)
             None None (OString "t1") 0 in
  let run := controller.syncHandler sample.groupVersion sample.phaseString c "t1" in
  value run = golang.Normal None
  /\ map (fun ns => metaV1.Name (coreV1.NamespaceMeta ns))
         (observe.namespacesCreated (trace run)) = ["t1"]
  /\ map (fun ns => match metaV1.Labels (coreV1.NamespaceMeta ns) with
                    | Some labels => (labels !! "controller", labels !! "app")
                    | None => (None, None)
                    end)
         (observe.namespacesCreated (trace run)) = [(Some "t1", Some "kangal")]
  /\ map (fun written => loadTestV1.Namespace (loadTestV1.Status written))
         (observe.statusWrites (trace run)) = ["t1"].
Proof. cbv zeta. repeat split; vm_compute; reflexivity. Qed.

(** With a nil label map the reconcile that has to create a namespace
    panics; the deferred status update has nothing to write. *)
Example namespace_nil_labels_run :
  let lt := sample.loadTest "t1" "" "" loadTestV1.LoadTestCreating "" None 0 in
  let c := sample.controllerOf (sample.config "" 0 None)
             (errors.Ok lt) [] (sample.reporting loadTestV1.LoadTestStarting)
             None None (OString "t1") 0 in
  let run := controller.syncHandler sample.groupVersion sample.phaseString c "t1" in
  value run = golang.Panic "assignment to entry in nil map"
  /\ observe.statusWrites (trace run) = [].
Proof. cbv zeta. split; vm_compute; reflexivity. Qed.

(** ** The command line *)

(** A map converted from command-line entries is never the nil map. *)
Lemma convertEntries_made (Quote : string -> string) (s : list string)
  (m : gmap string string) (converted : golang.StringMap) :
  cmd.convertEntries Quote s m = errors.Ok converted -> exists made, converted = Some made.
Proof.
  revert m. induction s as [|a rest IH]; intros m; cbn [cmd.convertEntries].
  - intros Hok. inversion Hok. eauto.
  - destruct (cmd.SplitN2 (cmd.stripQuotes a)) as [|key [|value tail]];
      try discriminate.
    apply IH.
Qed.

(** X5. A map converted without error is a made map, not the nil map. *)
Lemma convertKeyPairStringToMap_made (Quote : string -> string) (s : list string)
  (converted : golang.StringMap) :
  cmd.convertKeyPairStringToMap Quote s = errors.Ok converted ->
  exists made, converted = Some made.
Proof. apply convertEntries_made. Qed.

(** ** Metrics of the worker *)

Lemma metered_app (t1 t2 : list effect) :
  observe.metered (t1 ++ t2) = (observe.metered t1 ++ observe.metered t2)%list.
Proof. apply omap_app. Qed.

Lemma reconcile_effects_unmetered (t : list effect) :
  forallb observe.isReconcileEffect t = true -> observe.metered t = [].
Proof.
  induction t as [|e t IH]; [reflexivity|].
  cbn [forallb]. rewrite andb_true_iff. intros [He Ht].
  destruct e; try discriminate He; cbn; auto.
Qed.

Section WorkerMetrics.

Variable SchemeGroupVersion : string.
Variable PhaseString : loadTestV1.LoadTestPhase -> string.

(** Walks the branches of a computation whose trace is to hold effects of
    the reconciler only. *)
Ltac effects_walk :=
  repeat first
    [ progress eff_simpl
    | progress (rewrite ?forallb_app; cbn [forallb observe.isReconcileEffect andb])
    | case_match ];
  try reflexivity.

Lemma deleteLoadTest_effects (c : controller.Controller) (key : string)
  (loadTest : loadTestV1.LoadTest) :
  forallb observe.isReconcileEffect (trace (controller.deleteLoadTest c key loadTest)) = true.
Proof. unfold controller.deleteLoadTest. effects_walk. Qed.

Lemma checkOrCreateNamespace_effects (c : controller.Controller)
  (loadTest : loadTestV1.LoadTest) :
  forallb observe.isReconcileEffect
    (trace (controller.checkOrCreateNamespace SchemeGroupVersion c loadTest)) = true.
Proof. unfold controller.checkOrCreateNamespace. effects_walk. Qed.

Lemma updateLoadTestStatus_effects (c : controller.Controller) (key : string)
  (loadTest loadTestFromCache : loadTestV1.LoadTest) :
  forallb observe.isReconcileEffect
    (trace (controller.updateLoadTestStatus PhaseString c key loadTest loadTestFromCache))
  = true.
Proof. unfold controller.updateLoadTestStatus. effects_walk. Qed.

Lemma syncResources_effects (c : controller.Controller) (logger : zap.Logger)
  (backend : backends.Backend) (key : string) (loadTest : loadTestV1.LoadTest)
  (reportURL : string) :
  forallb observe.isReconcileEffect
    (trace (controller.syncResources SchemeGroupVersion PhaseString
              c logger backend key loadTest reportURL)) = true.
Proof.
  unfold controller.syncResources. eff_simpl.
  rewrite forallb_app, checkOrCreateNamespace_effects. cbn [andb].
  destruct (value (controller.checkOrCreateNamespace SchemeGroupVersion c loadTest))
    as [[[err|]|msg] copy]; eff_simpl; try reflexivity.
  destruct (backends.Sync _ _ _) as [err|]; eff_simpl; [reflexivity|].
  destruct (backends.SyncStatus _ _) as [status [err|]]; eff_simpl; [reflexivity|].
  destruct (_ && _); eff_simpl; [|reflexivity].
  cbn [app forallb observe.isReconcileEffect andb].
  rewrite !forallb_app, deleteLoadTest_effects. reflexivity.
Qed.

Lemma syncHandler_effects (c : controller.Controller) (key : string) :
  forallb observe.isReconcileEffect
    (trace (controller.syncHandler SchemeGroupVersion PhaseString c key)) = true.
Proof.
  unfold controller.syncHandler.
  destruct (cache.SplitMetaNamespaceKey key) as [[namespace name]|err]; [|reflexivity].
  destruct (controller.Get _ name) as [cached|err].
  2: { destruct (errors.IsNotFound err); [|destruct (errors.IsConflict err)];
         reflexivity. }
  destruct (backends.GetBackend _ _) as [backend|err]; [|reflexivity].
  eff_simpl. rewrite forallb_app, syncResources_effects. cbn [andb].
  destruct (value (controller.syncResources _ _ c _ backend key _ _)) as [outcome left].
  eff_simpl. rewrite forallb_app, updateLoadTestStatus_effects. reflexivity.
Qed.

(** X1. The two readings the worker records for an item carry the key and
    the attribute [success = "true"], whatever [syncHandler] returned: the
    deferred closure reads a variable that no statement assigns. *)
Theorem processItem_metrics_success_label (c : controller.Controller) (obj : object) :
  let key := match obj with OString s => s | _ => "" end in
  observe.metered
    (trace (controller.processItem SchemeGroupVersion PhaseString c obj)) =
    [ ("kangal_reconcile_count", 1, [("key", key); ("success", "true")]);
      ("kangal_reconcile_latency",
       Z.quot (controller.SinceStart (controller.clock c)) 1000000,
       [("key", key); ("success", "true")]) ].
Proof.
  intros key. unfold controller.processItem. eff_simpl.
  rewrite !metered_app.
  assert (Hfirst : forall s,
            observe.metered
              (trace (controller.syncHandler SchemeGroupVersion PhaseString c s)) = []).
  { intros s. apply reconcile_effects_unmetered, syncHandler_effects. }
  destruct obj as [lt|j|p|k inner|s|]; eff_simpl; try reflexivity.
  rewrite !metered_app, Hfirst.
  destruct (value (controller.syncHandler _ _ c s)) as [[err|]|msg]; eff_simpl;
    reflexivity.
Qed.

End WorkerMetrics.

(** A reconcile that fails on an unknown backend is retried with back-off,
    and is still counted with [success = "true"]. *)
Example failed_reconcile_metrics_run :
  let lt := sample.loadTest "t1" "" "" loadTestV1.LoadTestCreating "t1" None 0 in
  let c :=
    {| controller.cfg := sample.config "" 0 (Some ∅);
       controller.kubeClientSet := controller.kubeClientSet sample.holdingT1;
       controller.kangalClientSet := controller.kangalClientSet sample.holdingT1;
       controller.loadtestsLister := controller.loadtestsLister sample.holdingT1;
       controller.workQueue :=
         {| controller.Queue_Get := (OString "t1", false); controller.Queue_Len := 1 |};
       controller.registry :=
         {| backends.GetBackend :=
              fun _ => errors.Err (errors.ErrorString "backend not registered") |};
       controller.logger := [];
       controller.clock := {| controller.Now := 0; controller.SinceStart := 2500000 |} |} in
  let run := controller.processNextWorkItem sample.groupVersion sample.phaseString c in
  observe.rateLimited (trace run) = ["t1"]
  /\ observe.metered (trace run) =
       [ ("kangal_work_queue_depth", 1, []);
         ("kangal_reconcile_count", 1, [("key", "t1"); ("success", "true")]);
         ("kangal_reconcile_latency", 2, [("key", "t1"); ("success", "true")]) ].
Proof. cbv zeta. split; vm_compute; reflexivity. Qed.

(** ** Entries of the form [key:value] *)

Lemma stripQuotes_clean (s : string) :
  cmd.occurs cmd.doubleQuote s = false -> cmd.stripQuotes s = s.
Proof.
  induction s as [|c s IH]; [reflexivity|].
  cbn [cmd.occurs cmd.stripQuotes]. rewrite orb_false_iff. intros [Hc Hs].
  rewrite Hc, (IH Hs). reflexivity.
Qed.

Lemma occurs_append (c : ascii) (a b : string) :
  cmd.occurs c (a +:+ b) = cmd.occurs c a || cmd.occurs c b.
Proof.
  induction a as [|c' a IH]; [reflexivity|].
  change (String c' a +:+ b) with (String c' (a +:+ b)).
  cbn [cmd.occurs]. rewrite IH, orb_assoc. reflexivity.
Qed.

(** The split is made at the first colon, once. *)
Lemma SplitN2_first_colon (key value : string) :
  cmd.occurs ":" key = false -> cmd.SplitN2 (key +:+ ":" +:+ value) = [key; value].
Proof.
  induction key as [|c key IH]; [reflexivity|].
  change (String c key +:+ ":" +:+ value) with (String c (key +:+ ":" +:+ value)).
  cbn [cmd.occurs cmd.SplitN2]. rewrite orb_false_iff. intros [Hc Hkey].
  rewrite Hc, (IH Hkey). reflexivity.
Qed.

(** Without a colon there is one part only. *)
Lemma SplitN2_no_colon (a : string) :
  cmd.occurs ":" a = false -> cmd.SplitN2 a = [a].
Proof.
  induction a as [|c a IH]; [reflexivity|].
  cbn [cmd.occurs cmd.SplitN2]. rewrite orb_false_iff. intros [Hc Ha].
  rewrite Hc, (IH Ha). reflexivity.
Qed.

(** X2. An entry [key:value] without double quotes, whose key holds no
    colon, is converted to the map with that one key; the value may hold
    colons. An entry without a colon is refused: the error has no operand,
    and its format is the text [Annotation ... is invalid] around the entry
    as [%q] quotes it, so that the text is formatted a second time. *)
Theorem convertKeyPairStringToMap_entry (Quote : string -> string) (key value : string) :
  cmd.occurs ":" key = false ->
  cmd.occurs cmd.doubleQuote key = false ->
  cmd.occurs cmd.doubleQuote value = false ->
  cmd.convertKeyPairStringToMap Quote [key +:+ ":" +:+ value]
    = errors.Ok (Some {[ key := value ]})
  /\ cmd.convertKeyPairStringToMap Quote [key]
     = errors.Err (errors.Errorf ("Annotation " +:+ Quote key +:+ " is invalid") []).
Proof.
  intros Hcolon Hkey Hvalue.
  unfold cmd.convertKeyPairStringToMap. cbn [cmd.convertEntries]. split.
  - rewrite stripQuotes_clean.
    + rewrite SplitN2_first_colon by exact Hcolon. reflexivity.
    + rewrite !occurs_append, Hkey, Hvalue. reflexivity.
  - rewrite (stripQuotes_clean key Hkey), (SplitN2_no_colon key Hcolon). reflexivity.
Qed.

(** A witness: an annotation whose value holds colons. *)
Lemma convertKeyPairStringToMap_entry_witness :
  cmd.convertKeyPairStringToMap sample.quote
    ["iam.amazonaws.com/role" +:+ ":" +:+ "arn:aws:iam::id:role/some-role"]
  = errors.Ok (Some {[ "iam.amazonaws.com/role" := "arn:aws:iam::id:role/some-role" ]}).
Proof.
  exact (proj1 (convertKeyPairStringToMap_entry sample.quote "iam.amazonaws.com/role"
                  "arn:aws:iam::id:role/some-role" eq_refl eq_refl eq_refl)).
Defined.

(** The entry of the comment in the source, quotes and blank included: the
    quotes go, the blank after the first colon stays in the value. *)
Example convertKeyPairStringToMap_quoted_run :
  cmd.convertKeyPairStringToMap sample.quote
    ["iam.amazonaws.com/role: "
       +:+ String cmd.doubleQuote "arn:aws:iam::id:role/some-role"
       +:+ String cmd.doubleQuote ""]
  = errors.Ok (Some {[ "iam.amazonaws.com/role" := " arn:aws:iam::id:role/some-role" ]}).
Proof. vm_compute. reflexivity. Qed.

(** An entry without a colon that holds a percent sign, after a good one:
    the error has no operand, and the percent sign stands in its format,
    where [fmt.Errorf] reads it as a verb. *)
Example convertKeyPairStringToMap_percent_run :
  cmd.convertKeyPairStringToMap sample.quote ["team:a"; "50%off"]
  = errors.Err (errors.Errorf
                  ("Annotation " +:+ sample.quote "50%off" +:+ " is invalid") []).
Proof. vm_compute. reflexivity. Qed.

(** ** Events of loadtests *)

(** X3. An added or updated loadtest has its key added to the queue: its
    name, or [namespace/name] when it carries a namespace. The old object of
    an update is not looked at. *)
Theorem loadTest_events_enqueue (c : controller.Controller)
  (old : object) (lt : loadTestV1.LoadTest) :
  let meta := loadTestV1.ObjectMeta lt in
  let key := if String.eqb (metaV1.Namespace meta) "" then metaV1.Name meta
             else metaV1.Namespace meta +:+ "/" +:+ metaV1.Name meta in
  controller.loadTestAddFunc c (OLoadTest lt) = (tt, [QueueAdd key])
  /\ controller.loadTestUpdateFunc c old (OLoadTest lt) = (tt, [QueueAdd key]).
Proof.
  intros meta key.
  unfold controller.loadTestAddFunc, controller.loadTestUpdateFunc,
    controller.enqueueLoadTest, cache.MetaNamespaceKeyFunc.
  cbn [asMetaObject]. fold meta. subst key.
  destruct (String.eqb (metaV1.Namespace meta) ""); split; reflexivity.
Qed.

(** ** A nil label map *)

(** X4. With a nil map of namespace labels, [checkOrCreateNamespace] on a
    loadtest without a namespace, when no namespace is listed, panics before
    any [Create] call, and leaves the loadtest as it was. *)
Theorem checkOrCreateNamespace_nil_labels (SchemeGroupVersion : string)
  (c : controller.Controller) (loadtest : loadTestV1.LoadTest) :
  loadTestV1.Namespace (loadTestV1.Status loadtest) = "" ->
  controller.NamespaceLabels (controller.cfg c) = None ->
  controller.Namespaces_List (controller.kubeClientSet c)
    ("controller=" +:+ loadTestV1.GetName loadtest) = errors.Ok [] ->
  let run := controller.checkOrCreateNamespace SchemeGroupVersion c loadtest in
  value run = (golang.Panic "assignment to entry in nil map", loadtest)
  /\ observe.namespacesCreated (trace run) = [].
Proof.
  intros Hunset Hnil Hlist run. subst run.
  unfold controller.checkOrCreateNamespace.
  rewrite Hunset. cbn [String.eqb negb]. rewrite Hlist, Hnil.
  split; reflexivity.
Qed.

(** A witness: the loadtest [t1] without a namespace, nothing listed, a nil
    label map. *)
Lemma checkOrCreateNamespace_nil_labels_witness :
  value (controller.checkOrCreateNamespace sample.groupVersion
           sample.nilLabels sample.unplaced)
    = (golang.Panic "assignment to entry in nil map", sample.unplaced)
  /\ observe.namespacesCreated
       (trace (controller.checkOrCreateNamespace sample.groupVersion
                 sample.nilLabels sample.unplaced)) = [].
Proof.
  exact (checkOrCreateNamespace_nil_labels sample.groupVersion
           sample.nilLabels sample.unplaced eq_refl eq_refl eq_refl).
Defined.

(** A witness: no entry at all gives the empty map, not the nil map. *)
Lemma convertKeyPairStringToMap_made_witness :
  cmd.convertKeyPairStringToMap sample.quote [] = errors.Ok (Some ∅)
  /\ exists made : gmap string string, Some (∅ : gmap string string) = Some made.
Proof.
  split; [reflexivity|].
  exact (convertKeyPairStringToMap_made sample.quote [] (Some ∅) eq_refl).
Defined.

(** ** The worker and its item *)

Lemma done_app (t1 t2 : list effect) :
  observe.done (t1 ++ t2) = (observe.done t1 ++ observe.done t2)%list.
Proof. apply omap_app. Qed.

Lemma reconcile_effects_not_done (t : list effect) :
  forallb observe.isReconcileEffect t = true -> observe.done t = [].
Proof.
  induction t as [|e t IH]; [reflexivity|].
  cbn [forallb]. rewrite andb_true_iff. intros [He Ht].
  destruct e; try discriminate He; cbn; auto.
Qed.

Section WorkerProperties.

Variable SchemeGroupVersion : string.
Variable PhaseString : loadTestV1.LoadTestPhase -> string.

Local Abbreviation syncHandler := (controller.syncHandler SchemeGroupVersion PhaseString).
Local Abbreviation processItem := (controller.processItem SchemeGroupVersion PhaseString).
Local Abbreviation processNextWorkItem :=
  (controller.processNextWorkItem SchemeGroupVersion PhaseString).

(** The trace of the function literal ends with the two meter readings and
    the call of [Done]. *)
Lemma processItem_ends_done (c : controller.Controller) (obj : object) :
  exists before,
    trace (processItem c obj) = (before ++ [QueueDone obj])%list
    /\ observe.done before = observe.done
         (match obj with
          | OString key => trace (syncHandler c key)
          | _ => []
          end).
Proof.
  unfold controller.processItem. eff_simpl.
  match goal with
  | |- exists before, (?part ++ [?a] ++ [?b] ++ [?d] ++ [])%list = _ /\ _ =>
      exists (part ++ [a; b])%list
  end.
  split; [rewrite <- app_assoc; reflexivity|].
  rewrite done_app. cbn [observe.done omap list_omap app]. rewrite app_nil_r.
  destruct obj as [lt|j|p|k inner|s|]; eff_simpl; try reflexivity.
  rewrite done_app.
  destruct (value (syncHandler c s)) as [[err|]|msg]; eff_simpl;
    cbn; rewrite app_nil_r; reflexivity.
Qed.

(** X6. When the queue is shut down the worker does nothing and stops. For
    an item it takes, whatever the item is and however the reconcile ends
    (nil, an error, a panic), [Done] is called on the item exactly once, as
    the last effect of processing it; the worker goes on (returns true)
    unless the reconcile panicked, in which case the panic goes up after
    [Done]. *)
Theorem worker_marks_done (c : controller.Controller) (obj : object) (shutdown : bool) :
  controller.Queue_Get (controller.workQueue c) = (obj, shutdown) ->
  (shutdown = true -> processNextWorkItem c = (golang.Normal false, []))
  /\ (shutdown = false ->
      observe.done (trace (processNextWorkItem c)) = [obj]
      /\ (exists before, trace (processItem c obj) = (before ++ [QueueDone obj])%list)
      /\ match obj with
         | OString key =>
             match value (syncHandler c key) with
             | golang.Panic msg => value (processNextWorkItem c) = golang.Panic msg
             | golang.Normal _ => value (processNextWorkItem c) = golang.Normal true
             end
         | _ => value (processNextWorkItem c) = golang.Normal true
         end).
Proof.
  intros Hqueue. unfold controller.processNextWorkItem. rewrite Hqueue.
  split; intros ->; [reflexivity|].
  destruct (processItem_ends_done c obj) as [before [Htrace Hdone]].
  eff_simpl. split; [|split].
  - rewrite !done_app, Htrace, done_app, Hdone.
    assert (Hnone : observe.done
                      (match obj with
                       | OString key => trace (syncHandler c key)
                       | _ => []
                       end) = []).
    { destruct obj; try reflexivity.
      apply reconcile_effects_not_done, syncHandler_effects. }
    rewrite Hnone.
    destruct (value (processItem c obj)) as [[err|]|msg]; reflexivity.
  - exists before. exact Htrace.
  - unfold controller.processItem. eff_simpl.
    destruct obj as [lt|j|p|k inner|s|]; eff_simpl; try reflexivity.
    destruct (value (syncHandler c s)) as [[err|]|msg]; eff_simpl; reflexivity.
Qed.

(** X7. An item that is not a string is never reconciled: the worker calls
    [Forget] on it, reports the error, records its two readings under the
    empty key, calls [Done] and goes on. It is not put back on the queue. *)
Theorem non_string_item_forgotten (c : controller.Controller) (obj : object) :
  controller.Queue_Get (controller.workQueue c) = (obj, false) ->
  (forall key, obj <> OString key) ->
  value (processNextWorkItem c) = golang.Normal true
  /\ trace (processNextWorkItem c) =
       [ MeterAdd "kangal_work_queue_depth"
           (controller.Queue_Len (controller.workQueue c)) [];
         QueueForget obj;
         HandleError (errors.Errorf "expected string in workQueue but got %#v"
                        [errors.ArgObject obj]);
         MeterAdd "kangal_reconcile_count" 1 [("key", ""); ("success", "true")];
         MeterRecord "kangal_reconcile_latency"
           (Z.quot (controller.SinceStart (controller.clock c)) 1000000)
           [("key", ""); ("success", "true")];
         QueueDone obj ].
Proof.
  intros Hqueue Hother. unfold controller.processNextWorkItem. rewrite Hqueue.
  unfold controller.processItem.
  destruct obj as [lt|j|p|k inner|s|]; try (split; reflexivity).
  exfalso. exact (Hother s eq_refl).
Qed.

End WorkerProperties.

(** A witness of X6: the reconcile of [t1] panics on the nil label map, and
    [Done] is called all the same. *)
Lemma worker_marks_done_witness :
  value (controller.syncHandler sample.groupVersion sample.phaseString
           sample.nilLabels "t1") = golang.Panic "assignment to entry in nil map"
  /\ observe.done
       (trace (controller.processNextWorkItem sample.groupVersion sample.phaseString
                 sample.nilLabels)) = [OString "t1"].
Proof.
  split; [vm_compute; reflexivity|].
  exact (proj1 (proj2 (worker_marks_done sample.groupVersion sample.phaseString
                         sample.nilLabels (OString "t1") false eq_refl) eq_refl)).
Defined.

(** A witness of X7: a value on the queue that is not a string. *)
Lemma non_string_item_forgotten_witness :
  observe.forgotten
    (trace (controller.processNextWorkItem sample.groupVersion sample.phaseString
              sample.emptyCache)) = [OOther]
  /\ observe.rateLimited
       (trace (controller.processNextWorkItem sample.groupVersion sample.phaseString
                 sample.emptyCache)) = [].
Proof.
  pose proof (non_string_item_forgotten sample.groupVersion sample.phaseString
                sample.emptyCache OOther eq_refl
                (fun key (H : OOther = OString key) =>
                   eq_ind OOther (fun o => match o with OOther => True | _ => False end)
                     I _ H)) as [_ Htrace].
  rewrite Htrace. split; reflexivity.
Defined.

(** ** Keys *)

(** [Split] gives one more part than there are separators. *)
Lemma Split_length (sep : ascii) (s : string) :
  length (cache.Split sep s) = S (observe.Count sep s).
Proof.
  induction s as [|c s IH]; [reflexivity|].
  cbn [cache.Split observe.Count].
  destruct (Ascii.eqb c sep).
  - cbn [length]. rewrite IH. reflexivity.
  - destruct (cache.Split sep s) as [|head tail]; [discriminate IH|exact IH].
Qed.

Lemma Split_clean (sep : ascii) (s : string) :
  cmd.occurs sep s = false -> cache.Split sep s = [s].
Proof.
  induction s as [|c s IH]; [reflexivity|].
  cbn [cmd.occurs cache.Split]. rewrite orb_false_iff. intros [Hc Hs].
  rewrite Hc, (IH Hs). reflexivity.
Qed.

Lemma Split_joined (sep : ascii) (a b : string) :
  cmd.occurs sep a = false ->
  cache.Split sep (a +:+ String sep b) = a :: cache.Split sep b.
Proof.
  induction a as [|c a IH].
  - intros _. change ("" +:+ String sep b) with (String sep b).
    cbn [cache.Split]. rewrite Ascii.eqb_refl. reflexivity.
  - change (String c a +:+ String sep b) with (String c (a +:+ String sep b)).
    cbn [cmd.occurs cache.Split]. rewrite orb_false_iff. intros [Hc Ha].
    rewrite Hc, (IH Ha). reflexivity.
Qed.

(** A key is refused exactly when it holds two slashes or more. *)
Lemma SplitMetaNamespaceKey_refused (key : string) :
  (2 <= observe.Count "/" key)%nat <->
  cache.SplitMetaNamespaceKey key =
    errors.Err (errors.Errorf "unexpected key format: %q" [errors.ArgString key]).
Proof.
  unfold cache.SplitMetaNamespaceKey.
  pose proof (Split_length "/" key) as Hlen.
  destruct (cache.Split "/" key) as [|a [|b [|d rest]]]; cbn [length] in Hlen;
    split; intros H; try discriminate H; try reflexivity; lia.
Qed.

Section KeyProperties.

Variable SchemeGroupVersion : string.
Variable PhaseString : loadTestV1.LoadTestPhase -> string.

Local Abbreviation syncHandler := (controller.syncHandler SchemeGroupVersion PhaseString).
Local Abbreviation processNextWorkItem :=
  (controller.processNextWorkItem SchemeGroupVersion PhaseString).

(** X8. A key with two slashes or more is not a key of a loadtest:
    [syncHandler] reports it, touches neither the cache nor the API server,
    and returns nil, so the worker that took it calls [Forget] and does not
    retry it. *)
Theorem invalid_key_dropped (c : controller.Controller) (key : string) :
  (2 <= observe.Count "/" key)%nat ->
  syncHandler c key =
    (golang.Normal None,
     [HandleError (errors.Errorf "invalid resource key: %s" [errors.ArgString key])])
  /\ (controller.Queue_Get (controller.workQueue c) = (OString key, false) ->
      observe.forgotten (trace (processNextWorkItem c)) = [OString key]
      /\ observe.rateLimited (trace (processNextWorkItem c)) = []).
Proof.
  intros Hslashes. apply SplitMetaNamespaceKey_refused in Hslashes.
  assert (Hrun : syncHandler c key =
                 (golang.Normal None,
                  [HandleError (errors.Errorf "invalid resource key: %s"
                                  [errors.ArgString key])])).
  { unfold controller.syncHandler. rewrite Hslashes. reflexivity. }
  split; [exact Hrun|].
  intros Hqueue.
  pose proof (processNextWorkItem_queue SchemeGroupVersion PhaseString c key Hqueue)
    as Hworker.
  rewrite Hrun in Hworker. cbn in Hworker.
  destruct (Hworker eq_refl eq_refl) as [Hforgot [Hlimited _]]. auto.
Qed.

(** X9. The key [enqueueLoadTest] puts on the queue for a loadtest leads
    [syncHandler] back to that loadtest: when neither its name nor its
    namespace holds a slash, the key splits into that namespace and that
    name, and the reconcile of the key is decided by what the cache holds
    under the name (the namespace part plays no role). *)
Theorem enqueued_key_round_trip (c : controller.Controller) (lt : loadTestV1.LoadTest) :
  let meta := loadTestV1.ObjectMeta lt in
  cmd.occurs "/" (metaV1.Name meta) = false ->
  cmd.occurs "/" (metaV1.Namespace meta) = false ->
  exists key,
    trace (controller.enqueueLoadTest c (OLoadTest lt)) = [QueueAdd key]
    /\ cache.SplitMetaNamespaceKey key
       = errors.Ok (metaV1.Namespace meta, metaV1.Name meta)
    /\ (forall err,
          controller.Get (controller.loadtestsLister c) (metaV1.Name meta) = errors.Err err ->
          value (syncHandler c key) =
            (if errors.IsNotFound err || errors.IsConflict err
             then golang.Normal None else golang.Normal (Some err)))
    /\ (forall cached err,
          controller.Get (controller.loadtestsLister c) (metaV1.Name meta)
            = errors.Ok cached ->
          backends.GetBackend (controller.registry c)
            (loadTestV1.Type_ (loadTestV1.Spec cached)) = errors.Err err ->
          value (syncHandler c key) =
            golang.Normal (Some (errors.Errorf "failed to resolve backend: %w"
                                   [errors.ArgWrapped err]))).
Proof.
  intros meta Hname Hnamespace.
  unfold controller.enqueueLoadTest. rewrite MetaNamespaceKeyFunc_LoadTest. fold meta.
  eexists. split; [reflexivity|].
  assert (Hsplit : cache.SplitMetaNamespaceKey
                     (if String.eqb (metaV1.Namespace meta) ""
                      then metaV1.Name meta
                      else metaV1.Namespace meta +:+ "/" +:+ metaV1.Name meta)
                   = errors.Ok (metaV1.Namespace meta, metaV1.Name meta)).
  { unfold cache.SplitMetaNamespaceKey.
    destruct (String.eqb_spec (metaV1.Namespace meta) "") as [Hempty|Hfull].
    - rewrite (Split_clean "/" _ Hname), Hempty. reflexivity.
    - change (metaV1.Namespace meta +:+ "/" +:+ metaV1.Name meta)
        with (metaV1.Namespace meta +:+ String "/" (metaV1.Name meta)).
      rewrite (Split_joined "/" _ _ Hnamespace), (Split_clean "/" _ Hname).
      reflexivity. }
  split; [exact Hsplit|]. split.
  - intros err Hget.
    exact (proj1 (syncHandler_fetch_failed SchemeGroupVersion PhaseString c _ _ _ err
                    Hsplit Hget)).
  - intros cached err Hget Hbackend. unfold controller.syncHandler.
    rewrite Hsplit, Hget. unfold loadTestV1.DeepCopy. rewrite Hbackend. reflexivity.
Qed.

End KeyProperties.

(** A witness of X8: the key [a/b/c]. *)
Lemma invalid_key_dropped_witness :
  controller.syncHandler sample.groupVersion sample.phaseString sample.holdingT1 "a/b/c" =
    (golang.Normal None,
     [HandleError (errors.Errorf "invalid resource key: %s" [errors.ArgString "a/b/c"])]).
Proof.
  refine (proj1 (invalid_key_dropped sample.groupVersion sample.phaseString
                   sample.holdingT1 "a/b/c" _)).
  vm_compute. lia.
Defined.

(** A witness of X9: the loadtest [t1], without namespace, in a cache that
    does not hold it. *)
Lemma enqueued_key_round_trip_witness :
  exists key,
    trace (controller.enqueueLoadTest sample.emptyCache (OLoadTest sample.unplaced))
      = [QueueAdd key]
    /\ cache.SplitMetaNamespaceKey key = errors.Ok ("", "t1").
Proof.
  destruct (enqueued_key_round_trip sample.groupVersion sample.phaseString
              sample.emptyCache sample.unplaced eq_refl eq_refl)
    as [key [Htrace [Hsplit _]]].
  exists key. split; assumption.
Defined.

(** ** The steps of a reconcile *)

Lemma syncs_app (t1 t2 : list effect) :
  observe.syncs (t1 ++ t2) = (observe.syncs t1 ++ observe.syncs t2)%list.
Proof. apply omap_app. Qed.

Lemma statusSyncs_app (t1 t2 : list effect) :
  observe.statusSyncs (t1 ++ t2)
  = (observe.statusSyncs t1 ++ observe.statusSyncs t2)%list.
Proof. apply omap_app. Qed.

Lemma namespacesCreated_app (t1 t2 : list effect) :
  observe.namespacesCreated (t1 ++ t2)
  = (observe.namespacesCreated t1 ++ observe.namespacesCreated t2)%list.
Proof. apply omap_app. Qed.

(** A stale loadtest is a finished or an errored one. *)
Lemma lifetime_exceeded_terminal (now : time.Time) (loadTest : loadTestV1.LoadTest)
  (threshold : time.Duration) :
  controller.checkLoadTestLifeTimeExceeded now loadTest threshold = true ->
  loadTestV1.Phase (loadTestV1.Status loadTest) = loadTestV1.LoadTestFinished
  \/ loadTestV1.Phase (loadTestV1.Status loadTest) = loadTestV1.LoadTestErrored.
Proof.
  unfold controller.checkLoadTestLifeTimeExceeded.
  destruct (loadTestV1.Phase (loadTestV1.Status loadTest)); cbn; auto;
    destruct (batchV1.CompletionTime _); cbn; rewrite ?andb_false_r; discriminate.
Qed.

Lemma phase_eqb_same (p : loadTestV1.LoadTestPhase) : loadTestV1.phase_eqb p p = true.
Proof. destruct p; reflexivity. Qed.

Section ReconcileProperties.

Variable SchemeGroupVersion : string.
Variable PhaseString : loadTestV1.LoadTestPhase -> string.

Local Abbreviation syncHandler := (controller.syncHandler SchemeGroupVersion PhaseString).
Local Abbreviation syncResources := (controller.syncResources SchemeGroupVersion PhaseString).
Local Abbreviation checkOrCreateNamespace := (controller.checkOrCreateNamespace SchemeGroupVersion).
Local Abbreviation updateLoadTestStatus := (controller.updateLoadTestStatus PhaseString).

#[local] Arguments bind : simpl never.
#[local] Arguments controller.deleteLoadTest : simpl never.
#[local] Arguments controller.checkOrCreateNamespace : simpl never.
#[local] Arguments controller.newNamespace : simpl never.
#[local] Arguments controller.updateLoadTestStatus : simpl never.
#[local] Arguments controller.syncResources : simpl never.
#[local] Arguments controller.syncHandler : simpl never.
#[local] Arguments controller.checkLoadTestLifeTimeExceeded : simpl never.

(** Distribution of the readings of the backend calls over a trace. *)
Ltac calls_simpl :=
  rewrite ?syncs_app, ?statusSyncs_app, ?namespacesCreated_app, ?deletes_app,
    ?statusWrites_app;
  simpl.

Ltac calls_walk :=
  repeat first [ progress eff_simpl | progress calls_simpl | case_match ];
  try reflexivity.

Lemma deleteLoadTest_calls (c : controller.Controller) (key : string)
  (loadTest : loadTestV1.LoadTest) :
  observe.syncs (trace (controller.deleteLoadTest c key loadTest)) = []
  /\ observe.statusSyncs (trace (controller.deleteLoadTest c key loadTest)) = []
  /\ observe.namespacesCreated (trace (controller.deleteLoadTest c key loadTest)) = [].
Proof. unfold controller.deleteLoadTest. repeat split; calls_walk. Qed.

Lemma updateLoadTestStatus_calls (c : controller.Controller) (key : string)
  (loadTest cached : loadTestV1.LoadTest) :
  observe.syncs (trace (updateLoadTestStatus c key loadTest cached)) = []
  /\ observe.statusSyncs (trace (updateLoadTestStatus c key loadTest cached)) = []
  /\ observe.namespacesCreated (trace (updateLoadTestStatus c key loadTest cached)) = [].
Proof. unfold controller.updateLoadTestStatus. repeat split; calls_walk. Qed.

Lemma checkOrCreateNamespace_calls (c : controller.Controller)
  (loadtest : loadTestV1.LoadTest) :
  observe.syncs (trace (checkOrCreateNamespace c loadtest)) = []
  /\ observe.statusSyncs (trace (checkOrCreateNamespace c loadtest)) = [].
Proof. unfold controller.checkOrCreateNamespace. repeat split; calls_walk. Qed.

(** Closes the five parts of the frame of [checkOrCreateNamespace] on a
    branch whose value and trace have been computed. *)
Ltac frame_goals :=
  split; [repeat split|];
  split; [intros Hnot; first [reflexivity | exfalso; apply Hnot; reflexivity]|];
  split; [intros ? Hns Hlist;
          first [contradiction | discriminate Hlist | inversion Hlist; reflexivity]|];
  split; [intros ? ? Hin Hfail; simpl in Hin;
          first [contradiction | destruct Hin as [<-|[]]; congruence]|];
  simpl; lia.

(** X10. [checkOrCreateNamespace] changes nothing of the loadtest but
    [Status.Namespace], and that only when it returns nil. When the listing
    fails it returns that error after the one call; when the creation fails
    it returns that error; it creates at most one namespace. *)
Theorem checkOrCreateNamespace_frame (c : controller.Controller)
  (loadtest : loadTestV1.LoadTest) :
  let run := checkOrCreateNamespace c loadtest in
  let selector := "controller=" +:+ loadTestV1.GetName loadtest in
  let left := snd (value run) in
  (loadTestV1.ObjectMeta left = loadTestV1.ObjectMeta loadtest
   /\ loadTestV1.Spec left = loadTestV1.Spec loadtest
   /\ loadTestV1.Phase (loadTestV1.Status left)
      = loadTestV1.Phase (loadTestV1.Status loadtest)
   /\ loadTestV1.JobStatus (loadTestV1.Status left)
      = loadTestV1.JobStatus (loadTestV1.Status loadtest))
  /\ (fst (value run) <> golang.Normal None -> left = loadtest)
  /\ (forall err,
        loadTestV1.Namespace (loadTestV1.Status loadtest) = "" ->
        controller.Namespaces_List (controller.kubeClientSet c) selector = errors.Err err ->
        run = ((golang.Normal (Some err), loadtest), [NamespacesList selector]))
  /\ (forall ns err,
        In ns (observe.namespacesCreated (trace run)) ->
        controller.Namespaces_Create (controller.kubeClientSet c) ns = errors.Err err ->
        fst (value run) = golang.Normal (Some err))
  /\ (length (observe.namespacesCreated (trace run)) <= 1)%nat.
Proof.
  intros run selector left. subst run left selector.
  unfold controller.checkOrCreateNamespace.
  destruct (String.eqb_spec (loadTestV1.Namespace (loadTestV1.Status loadtest)) "")
    as [Hunset|Hset]; cbn [negb].
  2: { frame_goals. }
  eff_simpl.
  destruct (controller.Namespaces_List _ _) as [items|listErr]; eff_simpl;
    [|frame_goals].
  destruct items as [|first rest]; eff_simpl; [|frame_goals].
  destruct (controller.newNamespace _ _ _ _) as [[ns|nsErr]|msg]; eff_simpl;
    [|frame_goals|frame_goals].
  destruct (controller.Namespaces_Create _ ns) as [created|createErr] eqn:Hcreate;
    eff_simpl; frame_goals.
Qed.

(** Closes the five parts of [syncResources_steps] on a branch whose value
    and trace have been computed. *)
Ltac steps_goals Hmeta :=
  split; [split; assumption|];
  split; [intros Hnot;
          first [exfalso; apply Hnot; reflexivity | repeat split]|];
  split; [intros Hnil;
          first [discriminate Hnil
                | split; [reflexivity|];
                  intros ? Hfail;
                  first [discriminate Hfail
                        | inversion Hfail; subst; repeat split]]|];
  split; [intros ? Hin; simpl in Hin;
          first [contradiction
                | destruct Hin as [<-|[]];
                  split; [assumption|];
                  split; [reflexivity|];
                  split; [unfold loadTestV1.GetName; rewrite <- Hmeta; reflexivity|];
                  eexists; split; [reflexivity|];
                  split; [reflexivity|assumption]]|];
  first [left; reflexivity | right; eexists; eexists; split; reflexivity].

(** What [checkOrCreateNamespace] keeps of the loadtest. *)
Lemma checkOrCreateNamespace_keeps (c : controller.Controller)
  (loadtest : loadTestV1.LoadTest) :
  let ensured := value (checkOrCreateNamespace c loadtest) in
  loadTestV1.ObjectMeta (snd ensured) = loadTestV1.ObjectMeta loadtest
  /\ loadTestV1.Spec (snd ensured) = loadTestV1.Spec loadtest
  /\ loadTestV1.Phase (loadTestV1.Status (snd ensured))
     = loadTestV1.Phase (loadTestV1.Status loadtest)
  /\ (loadTestV1.Namespace (loadTestV1.Status loadtest) <> "" ->
      ensured = (golang.Normal None, loadtest)
      /\ trace (checkOrCreateNamespace c loadtest) = []).
Proof.
  cbv zeta. unfold controller.checkOrCreateNamespace.
  destruct (String.eqb_spec (loadTestV1.Namespace (loadTestV1.Status loadtest)) "")
    as [Hunset|Hset]; cbn [negb]; [|repeat split].
  assert (Hno : loadTestV1.Namespace (loadTestV1.Status loadtest) <> "" ->
                forall P : Prop, P) by (intros Hne; contradiction).
  eff_simpl.
  destruct (controller.Namespaces_List _ _) as [[|first rest]|listErr]; eff_simpl;
    try (split; [reflexivity|]; split; [reflexivity|]; split; [reflexivity|];
         intros Hne; apply (Hno Hne)).
  destruct (controller.newNamespace _ _ _ _) as [[ns|nsErr]|msg]; eff_simpl;
    try (split; [reflexivity|]; split; [reflexivity|]; split; [reflexivity|];
         intros Hne; apply (Hno Hne)).
  destruct (controller.Namespaces_Create _ ns) as [created|createErr]; eff_simpl;
    split; [reflexivity| | reflexivity |]; (split; [reflexivity|]); (split; [reflexivity|]);
    intros Hne; apply (Hno Hne).
Qed.

(** The statements after the [defer], by the outcome of the namespace step
    and of [backend.Sync]. *)
Lemma syncResources_steps (c : controller.Controller) (logger : zap.Logger)
  (backend : backends.Backend) (key : string) (loadTest : loadTestV1.LoadTest)
  (reportURL : string) :
  let run := syncResources c logger backend key loadTest reportURL in
  let ensured := value (checkOrCreateNamespace c loadTest) in
  let threshold := controller.CleanUpThreshold (controller.cfg c) in
  (loadTestV1.ObjectMeta (snd (value run)) = loadTestV1.ObjectMeta loadTest
   /\ loadTestV1.Spec (snd (value run)) = loadTestV1.Spec loadTest)
  /\ (fst ensured <> golang.Normal None ->
      value run = ensured
      /\ observe.syncs (trace run) = []
      /\ observe.statusSyncs (trace run) = []
      /\ observe.deletes (trace run) = [])
  /\ (fst ensured = golang.Normal None ->
      observe.syncs (trace run) = [snd ensured]
      /\ forall err,
           backends.Sync backend (snd ensured) reportURL = Some err ->
           value run = (golang.Normal (Some err), snd ensured)
           /\ observe.statusSyncs (trace run) = []
           /\ observe.deletes (trace run) = [])
  /\ (forall name,
        In name (observe.deletes (trace run)) ->
        threshold <> 0
        /\ observe.deletes (trace run) = [name]
        /\ name = loadTestV1.GetName loadTest
        /\ exists status,
             backends.SyncStatus backend (snd ensured) = (status, None)
             /\ observe.statusSyncs (trace run) = [snd ensured]
             /\ controller.checkLoadTestLifeTimeExceeded
                  (controller.Now (controller.clock c))
                  (loadTestV1.withStatus (snd ensured) status) threshold = true)
  /\ (snd (value run) = snd ensured
      \/ exists status err,
           backends.SyncStatus backend (snd ensured) = (status, err)
           /\ snd (value run) = loadTestV1.withStatus (snd ensured) status).
Proof.
  intros run ensured threshold. subst run.
  destruct (checkOrCreateNamespace_keeps c loadTest) as [Hmeta [Hspec _]].
  destruct (checkOrCreateNamespace_calls c loadTest) as [Hsyncs Hstatus].
  destruct (checkOrCreateNamespace_reads SchemeGroupVersion c loadTest) as [Hdel _].
  fold ensured in Hmeta, Hspec.
  unfold controller.syncResources. eff_simpl. fold ensured.
  calls_simpl. rewrite Hsyncs, Hstatus, Hdel. cbn [app].
  destruct ensured as [[[err|]|msg] copy] eqn:Hensured; cbn [fst snd] in *; eff_simpl.
  - steps_goals Hmeta.
  - calls_simpl.
    destruct (backends.Sync backend copy reportURL) as [err|] eqn:Hsync; eff_simpl.
    { steps_goals Hmeta. }
    destruct (backends.SyncStatus backend copy) as [status [err|]] eqn:Hstat;
      eff_simpl; calls_simpl.
    { steps_goals Hmeta. }
    destruct (Z.eqb_spec threshold 0) as [Hzero|Hnonzero]; cbn [negb andb].
    { fold threshold. rewrite Hzero. cbn [Z.eqb negb andb]. eff_simpl. steps_goals Hmeta. }
    fold threshold.
    destruct (Z.eqb_spec threshold 0) as [Hzero|_]; [contradiction|]. cbn [negb andb].
    destruct (controller.checkLoadTestLifeTimeExceeded _ _ threshold) eqn:Hstale;
      eff_simpl; calls_simpl.
    + destruct (deleteLoadTest_calls c key (loadTestV1.withStatus copy status))
        as [Hs [Hss _]].
      destruct (deleteLoadTest_reads c key (loadTestV1.withStatus copy status))
        as [Hd _].
      rewrite Hs, Hss, Hd. cbn [app].
      steps_goals Hmeta.
    + steps_goals Hmeta.
  - steps_goals Hmeta.
Qed.

(** The backend calls and the deletions of a reconcile are those of the
    statements after the [defer]; before the [defer] there is none. *)
Lemma syncHandler_calls (c : controller.Controller) (key : string) :
  match cache.SplitMetaNamespaceKey key with
  | errors.Err _ => True
  | errors.Ok (_, name) =>
      match controller.Get (controller.loadtestsLister c) name with
      | errors.Err _ => True
      | errors.Ok cached =>
          match backends.GetBackend (controller.registry c)
                  (loadTestV1.Type_ (loadTestV1.Spec cached)) with
          | errors.Err _ => True
          | errors.Ok backend =>
              let synced :=
                syncResources c (zap.With (controller.logger c) [zap.String "loadtest" key])
                  backend key cached (controller.reportURLFor c cached) in
              value (syncHandler c key) = fst (value synced)
              /\ observe.syncs (trace (syncHandler c key)) = observe.syncs (trace synced)
              /\ observe.statusSyncs (trace (syncHandler c key))
                 = observe.statusSyncs (trace synced)
              /\ observe.deletes (trace (syncHandler c key))
                 = observe.deletes (trace synced)
              /\ observe.statusWrites (trace (syncHandler c key)) =
                   (if loadTestV1.phase_eqb
                         (loadTestV1.Phase (loadTestV1.Status (snd (value synced))))
                         (loadTestV1.Phase (loadTestV1.Status cached))
                    then [] else [snd (value synced)])
          end
      end
  end
  /\ ((forall namespace name cached backend,
         cache.SplitMetaNamespaceKey key = errors.Ok (namespace, name) ->
         controller.Get (controller.loadtestsLister c) name = errors.Ok cached ->
         backends.GetBackend (controller.registry c)
           (loadTestV1.Type_ (loadTestV1.Spec cached)) <> errors.Ok backend) ->
      observe.syncs (trace (syncHandler c key)) = []
      /\ observe.statusSyncs (trace (syncHandler c key)) = []
      /\ observe.deletes (trace (syncHandler c key)) = []
      /\ observe.statusWrites (trace (syncHandler c key)) = []).
Proof.
  destruct (cache.SplitMetaNamespaceKey key) as [[namespace name]|err] eqn:Hkey.
  2: { split; [exact I|]. intros _. unfold controller.syncHandler. rewrite Hkey.
       repeat split. }
  destruct (controller.Get (controller.loadtestsLister c) name) as [cached|err] eqn:Hget.
  2: { split; [exact I|]. intros _. unfold controller.syncHandler. rewrite Hkey, Hget.
       destruct (errors.IsNotFound err); [|destruct (errors.IsConflict err)];
         repeat split. }
  destruct (backends.GetBackend (controller.registry c)
              (loadTestV1.Type_ (loadTestV1.Spec cached))) as [backend|err] eqn:Hbackend.
  2: { split; [exact I|]. intros _. unfold controller.syncHandler. rewrite Hkey, Hget.
       unfold loadTestV1.DeepCopy. rewrite Hbackend. repeat split. }
  split.
  - destruct (syncHandler_deferred SchemeGroupVersion PhaseString
                c key namespace name cached backend Hkey Hget Hbackend)
      as [Hvalue Htrace].
    cbv zeta in Hvalue, Htrace. unfold loadTestV1.DeepCopy in Hvalue, Htrace.
    cbv zeta. rewrite Hvalue, Htrace.
    rewrite syncs_app, statusSyncs_app, deletes_app, statusWrites_app.
    match goal with
    | |- context [trace (updateLoadTestStatus c key ?left cached)] =>
        destruct (updateLoadTestStatus_calls c key left cached) as [Hs [Hss _]];
        destruct (updateLoadTestStatus_reads PhaseString c key left cached) as [Hd _];
        rewrite Hs, Hss, Hd, (updateLoadTestStatus_writes PhaseString c key left cached)
    end.
    rewrite (syncResources_writes SchemeGroupVersion PhaseString), !app_nil_r.
    repeat split.
  - intros Hnone. exfalso. exact (Hnone namespace name cached backend eq_refl Hget Hbackend).
Qed.

(** Closes a goal from a membership in a reading that is empty. *)
Ltac rewrite_empty Hin :=
  match type of Hin with
  | In _ (observe.deletes _) =>
      match goal with H : observe.deletes _ = [] |- _ => rewrite H in Hin end
  | In _ (observe.statusWrites _) =>
      match goal with H : observe.statusWrites _ = [] |- _ => rewrite H in Hin end
  | In _ (observe.syncs _) =>
      match goal with H : observe.syncs _ = [] |- _ => rewrite H in Hin end
  | In _ (observe.statusSyncs _) =>
      match goal with H : observe.statusSyncs _ = [] |- _ => rewrite H in Hin end
  end;
  destruct Hin.

(** Brings a reconcile to the statements after its [defer], or closes the
    goal when the trace read in [Hin] is empty before it. *)
Ltac to_deferred c key Hin :=
  let Hcalls := fresh "Hcalls" in
  let Hnone := fresh "Hnone" in
  destruct (syncHandler_calls c key) as [Hcalls Hnone];
  destruct (cache.SplitMetaNamespaceKey key) as [[?namespace ?fetched]|?err] eqn:?Hkey;
    [|exfalso; destruct Hnone as (? & ? & ? & ?);
      [intros; discriminate | rewrite_empty Hin]];
  destruct (controller.Get (controller.loadtestsLister c) fetched)
    as [?cached|?err] eqn:?Hget;
    [|exfalso; destruct Hnone as (? & ? & ? & ?);
      [intros ? ? ? ? Heq; inversion Heq; subst; congruence | rewrite_empty Hin]];
  destruct (backends.GetBackend (controller.registry c)
              (loadTestV1.Type_ (loadTestV1.Spec cached)))
    as [?backend|?err] eqn:?Hbackend;
    [|exfalso; destruct Hnone as (? & ? & ? & ?);
      [intros ? ? ? ? Heq Hg; inversion Heq; subst; rewrite Hget in Hg;
       inversion Hg; subst; congruence | rewrite_empty Hin]];
  clear Hnone; cbv zeta in Hcalls.

(** X11. A reconcile calls [Delete] at most once, on the loadtest it
    fetched, and only when a clean-up threshold is configured (not zero),
    [backend.SyncStatus] returned nil, and the loadtest, with the status the
    backend left, is stale: its phase is then Finished or Errored. A
    loadtest the backend reports as Creating, Starting or Running is never
    deleted. *)
Theorem cleanup_only_when_stale (c : controller.Controller) (key name : string) :
  In name (observe.deletes (trace (syncHandler c key))) ->
  controller.CleanUpThreshold (controller.cfg c) <> 0
  /\ observe.deletes (trace (syncHandler c key)) = [name]
  /\ exists namespace fetched cached backend ensured status,
       cache.SplitMetaNamespaceKey key = errors.Ok (namespace, fetched)
       /\ controller.Get (controller.loadtestsLister c) fetched = errors.Ok cached
       /\ name = loadTestV1.GetName cached
       /\ backends.GetBackend (controller.registry c)
            (loadTestV1.Type_ (loadTestV1.Spec cached)) = errors.Ok backend
       /\ observe.statusSyncs (trace (syncHandler c key)) = [ensured]
       /\ backends.SyncStatus backend ensured = (status, None)
       /\ (loadTestV1.Phase status = loadTestV1.LoadTestFinished
           \/ loadTestV1.Phase status = loadTestV1.LoadTestErrored)
       /\ controller.checkLoadTestLifeTimeExceeded (controller.Now (controller.clock c))
            (loadTestV1.withStatus ensured status)
            (controller.CleanUpThreshold (controller.cfg c)) = true.
Proof.
  intros Hin. to_deferred c key Hin.
  destruct Hcalls as [_ [_ [Hstatus [Hdeletes _]]]].
  rewrite Hdeletes in Hin |- *. rewrite Hstatus.
  match type of Hin with
  | In _ (observe.deletes (trace (syncResources c ?lg backend key cached ?url))) =>
      destruct (syncResources_steps c lg backend key cached url)
        as [_ [_ [_ [Hdeleted _]]]]
  end.
  cbv zeta in Hdeleted.
  destruct (Hdeleted name Hin) as [Hthr [Hone [Hname [status [Hstat [Hss Hstale]]]]]].
  split; [exact Hthr|]. split; [exact Hone|].
  exists namespace, fetched, cached, backend.
  eexists. exists status.
  split; [reflexivity|]. split; [exact Hget|]. split; [exact Hname|].
  split; [exact Hbackend|]. split; [exact Hss|]. split; [exact Hstat|].
  split; [|exact Hstale].
  exact (lifetime_exceeded_terminal _ _ _ Hstale).
Qed.

(** The readings of a reconcile that got as far as its [defer]. *)
Lemma syncHandler_after_defer (c : controller.Controller)
  (key namespace name : string) (cached : loadTestV1.LoadTest)
  (backend : backends.Backend) :
  cache.SplitMetaNamespaceKey key = errors.Ok (namespace, name) ->
  controller.Get (controller.loadtestsLister c) name = errors.Ok cached ->
  backends.GetBackend (controller.registry c)
    (loadTestV1.Type_ (loadTestV1.Spec cached)) = errors.Ok backend ->
  let synced :=
    syncResources c (zap.With (controller.logger c) [zap.String "loadtest" key])
      backend key cached (controller.reportURLFor c cached) in
  value (syncHandler c key) = fst (value synced)
  /\ observe.syncs (trace (syncHandler c key)) = observe.syncs (trace synced)
  /\ observe.statusSyncs (trace (syncHandler c key)) = observe.statusSyncs (trace synced)
  /\ observe.deletes (trace (syncHandler c key)) = observe.deletes (trace synced)
  /\ observe.statusWrites (trace (syncHandler c key)) =
       (if loadTestV1.phase_eqb
             (loadTestV1.Phase (loadTestV1.Status (snd (value synced))))
             (loadTestV1.Phase (loadTestV1.Status cached))
        then [] else [snd (value synced)]).
Proof.
  intros Hkey Hget Hbackend.
  pose proof (proj1 (syncHandler_calls c key)) as Hcalls.
  rewrite Hkey, Hget, Hbackend in Hcalls. exact Hcalls.
Qed.

(** X12. When the namespace step of a reconcile fails (an error or a
    panic), the backend is not called, nothing is deleted, nothing is
    written to the status, and [syncHandler] ends as that step ended. When
    the namespace step succeeds and [backend.Sync] fails, [syncHandler]
    returns that error, [backend.SyncStatus] is not called, nothing is
    deleted and nothing is written to the status: a namespace just set in
    the copy is not persisted by that reconcile. *)
Theorem early_failure_writes_nothing (c : controller.Controller)
  (key namespace name : string) (cached : loadTestV1.LoadTest)
  (backend : backends.Backend) :
  cache.SplitMetaNamespaceKey key = errors.Ok (namespace, name) ->
  controller.Get (controller.loadtestsLister c) name = errors.Ok cached ->
  backends.GetBackend (controller.registry c)
    (loadTestV1.Type_ (loadTestV1.Spec cached)) = errors.Ok backend ->
  let ensured := value (checkOrCreateNamespace c (loadTestV1.DeepCopy cached)) in
  let run := syncHandler c key in
  (fst ensured <> golang.Normal None ->
     value run = fst ensured
     /\ observe.syncs (trace run) = []
     /\ observe.statusSyncs (trace run) = []
     /\ observe.deletes (trace run) = []
     /\ observe.statusWrites (trace run) = [])
  /\ (fst ensured = golang.Normal None ->
      forall err,
        backends.Sync backend (snd ensured) (controller.reportURLFor c cached) = Some err ->
        value run = golang.Normal (Some err)
        /\ observe.syncs (trace run) = [snd ensured]
        /\ observe.statusSyncs (trace run) = []
        /\ observe.deletes (trace run) = []
        /\ observe.statusWrites (trace run) = []).
Proof.
  intros Hkey Hget Hbackend ensured run. subst run. unfold loadTestV1.DeepCopy in ensured.
  destruct (syncHandler_after_defer c key namespace name cached backend Hkey Hget Hbackend)
    as [Hvalue [Hsyncs [Hstatus [Hdeletes Hwrites]]]].
  cbv zeta in Hvalue, Hsyncs, Hstatus, Hdeletes, Hwrites.
  rewrite Hvalue, Hsyncs, Hstatus, Hdeletes, Hwrites.
  match goal with
  | |- context [trace (syncResources c ?lg backend key cached ?url)] =>
      destruct (syncResources_steps c lg backend key cached url)
        as [_ [Hearly [Hsync _]]]
  end.
  cbv zeta in Hearly, Hsync. fold ensured in Hearly, Hsync.
  destruct (checkOrCreateNamespace_keeps c cached) as [_ [_ [Hphase _]]].
  fold ensured in Hphase.
  split.
  - intros Hfailed. destruct (Hearly Hfailed) as [Hrun [Hs [Hss Hd]]].
    rewrite Hrun, Hs, Hss, Hd, Hphase, phase_eqb_same. repeat split.
  - intros Hnil err Hfail. destruct (Hsync Hnil) as [Hs Hrest].
    destruct (Hrest err Hfail) as [Hrun [Hss Hd]].
    rewrite Hrun, Hs, Hss, Hd. cbn [fst snd]. rewrite Hphase, phase_eqb_same.
    repeat split.
Qed.

(** X13. What a reconcile gives to [UpdateStatus] is the cached loadtest
    with another status: its metadata and its spec are the cached ones, and
    its phase differs from the cached phase. There is at most one such write
    per reconcile. *)
Theorem status_write_frame (c : controller.Controller) (key : string)
  (written : loadTestV1.LoadTest) :
  In written (observe.statusWrites (trace (syncHandler c key))) ->
  observe.statusWrites (trace (syncHandler c key)) = [written]
  /\ exists namespace fetched cached,
       cache.SplitMetaNamespaceKey key = errors.Ok (namespace, fetched)
       /\ controller.Get (controller.loadtestsLister c) fetched = errors.Ok cached
       /\ loadTestV1.ObjectMeta written = loadTestV1.ObjectMeta cached
       /\ loadTestV1.Spec written = loadTestV1.Spec cached
       /\ loadTestV1.Phase (loadTestV1.Status written)
          <> loadTestV1.Phase (loadTestV1.Status cached).
Proof.
  intros Hin. to_deferred c key Hin.
  destruct Hcalls as [_ [_ [_ [_ Hwrites]]]].
  rewrite Hwrites in Hin |- *.
  match type of Hin with
  | context [value (syncResources c ?lg backend key cached ?url)] =>
      destruct (syncResources_steps c lg backend key cached url) as [[Hmeta Hspec] _]
  end.
  cbv zeta in Hmeta, Hspec.
  destruct (loadTestV1.phase_eqb _ _) eqn:Hphase; [destruct Hin|].
  destruct Hin as [<-|[]].
  split; [reflexivity|].
  exists namespace, fetched, cached.
  split; [reflexivity|]. split; [exact Hget|]. split; [exact Hmeta|].
  split; [exact Hspec|].
  intros Heq. apply phase_eqb_eq in Heq. rewrite Heq in Hphase. discriminate Hphase.
Qed.

(** X14. A loadtest that has a namespace keeps it through a reconcile, as
    long as the backend leaves [Status.Namespace] alone: [backend.Sync] is
    given the cached loadtest, and whatever is written to the status carries
    the cached namespace. *)
Theorem namespace_stable (c : controller.Controller)
  (key namespace name : string) (cached : loadTestV1.LoadTest)
  (backend : backends.Backend) :
  cache.SplitMetaNamespaceKey key = errors.Ok (namespace, name) ->
  controller.Get (controller.loadtestsLister c) name = errors.Ok cached ->
  backends.GetBackend (controller.registry c)
    (loadTestV1.Type_ (loadTestV1.Spec cached)) = errors.Ok backend ->
  loadTestV1.Namespace (loadTestV1.Status cached) <> "" ->
  (forall lt, loadTestV1.Namespace (fst (backends.SyncStatus backend lt))
              = loadTestV1.Namespace (loadTestV1.Status lt)) ->
  observe.syncs (trace (syncHandler c key)) = [cached]
  /\ forall written,
       In written (observe.statusWrites (trace (syncHandler c key))) ->
       loadTestV1.Namespace (loadTestV1.Status written)
       = loadTestV1.Namespace (loadTestV1.Status cached).
Proof.
  intros Hkey Hget Hbackend Hplaced Hkeeps.
  destruct (syncHandler_after_defer c key namespace name cached backend Hkey Hget Hbackend)
    as [_ [Hsyncs [_ [_ Hwrites]]]].
  cbv zeta in Hsyncs, Hwrites. rewrite Hsyncs, Hwrites.
  match goal with
  | |- context [value (syncResources c ?lg backend key cached ?url)] =>
      destruct (syncResources_steps c lg backend key cached url)
        as [_ [_ [Hsync [_ Hleft]]]]
  end.
  cbv zeta in Hsync, Hleft.
  destruct (checkOrCreateNamespace_keeps c cached) as [_ [_ [_ Hsame]]].
  destruct (Hsame Hplaced) as [Hensured _]. cbv zeta in Hensured.
  rewrite Hensured in Hsync, Hleft. cbn [fst snd] in Hsync, Hleft.
  split; [exact (proj1 (Hsync eq_refl))|].
  intros written Hin.
  destruct (loadTestV1.phase_eqb _ _); [destruct Hin|].
  destruct Hin as [<-|[]].
  destruct Hleft as [->|[status [err [Hstat ->]]]]; [reflexivity|].
  cbn [loadTestV1.withStatus loadTestV1.Status].
  rewrite <- (Hkeeps cached), Hstat. reflexivity.
Qed.

End ReconcileProperties.

(** A witness of X11: the stale loadtest [t3] is deleted, once, under a
    threshold that is not zero. *)
Lemma cleanup_only_when_stale_witness :
  controller.CleanUpThreshold (controller.cfg sample.staleT3) <> 0
  /\ observe.deletes
       (trace (controller.syncHandler sample.groupVersion sample.phaseString
                 sample.staleT3 "t3")) = ["t3"].
Proof.
  assert (Hin : In "t3"
                  (observe.deletes
                     (trace (controller.syncHandler sample.groupVersion sample.phaseString
                               sample.staleT3 "t3")))).
  { vm_compute. left. reflexivity. }
  destruct (cleanup_only_when_stale sample.groupVersion sample.phaseString
              sample.staleT3 "t3" "t3" Hin) as [Hthreshold [Honce _]].
  split; assumption.
Defined.

(** A witness of X12: the namespace [t1] is created for the loadtest, the
    backend fails to sync, and nothing is written to the status. *)
Lemma early_failure_writes_nothing_witness :
  let run := controller.syncHandler sample.groupVersion sample.phaseString
               sample.syncFails "t1" in
  map (fun ns => metaV1.Name (coreV1.NamespaceMeta ns))
      (observe.namespacesCreated (trace run)) = ["t1"]
  /\ value run = golang.Normal (Some sample.timeout)
  /\ observe.statusWrites (trace run) = [].
Proof.
  cbv zeta. split; [vm_compute; reflexivity|].
  destruct (early_failure_writes_nothing sample.groupVersion sample.phaseString
              sample.syncFails "t1" "" "t1" sample.unplaced sample.failingSync
              eq_refl eq_refl eq_refl) as [_ Hsync].
  destruct (Hsync eq_refl sample.timeout eq_refl) as [Hvalue [_ [_ [_ Hwrites]]]].
  split; assumption.
Defined.

(** A witness of X13: the loadtest [t1] moves from Starting to Running. *)
Lemma status_write_frame_witness :
  observe.statusWrites
    (trace (controller.syncHandler sample.groupVersion sample.phaseString
              sample.startingT1 "t1"))
  = [sample.loadTest "t1" "" "" loadTestV1.LoadTestRunning "t1" None 0].
Proof.
  refine (proj1 (status_write_frame sample.groupVersion sample.phaseString
                   sample.startingT1 "t1"
                   (sample.loadTest "t1" "" "" loadTestV1.LoadTestRunning "t1" None 0) _)).
  vm_compute. left. reflexivity.
Defined.

(** A witness of X14: the loadtest [t1], placed in the namespace [t1], with
    a backend that changes the phase only. *)
Lemma namespace_stable_witness :
  observe.syncs
    (trace (controller.syncHandler sample.groupVersion sample.phaseString
              sample.startingT1 "t1"))
  = [sample.loadTest "t1" "" "" loadTestV1.LoadTestStarting "t1" None 0].
Proof.
  refine (proj1 (namespace_stable sample.groupVersion sample.phaseString
                   sample.startingT1 "t1" "" "t1"
                   (sample.loadTest "t1" "" "" loadTestV1.LoadTestStarting "t1" None 0)
                   (sample.reporting loadTestV1.LoadTestRunning)
                   eq_refl eq_refl eq_refl _ _)).
  - discriminate.
  - intros lt. reflexivity.
Defined.

(** A namespace set in the copy goes unwritten when the backend reports the
    cached phase: the namespace [t1] is created, the phase stays Creating,
    and [UpdateStatus] is not called. *)
Example namespace_unwritten_run :
  let c := sample.controllerOf (sample.config "" 0 (Some ∅)) (errors.Ok sample.unplaced)
             [] (sample.reporting loadTestV1.LoadTestCreating) None None
             (OString "t1") 0 in
  let run := controller.syncHandler sample.groupVersion sample.phaseString c "t1" in
  value run = golang.Normal None
  /\ map (fun ns => metaV1.Name (coreV1.NamespaceMeta ns))
         (observe.namespacesCreated (trace run)) = ["t1"]
  /\ map (fun lt => loadTestV1.Namespace (loadTestV1.Status lt))
         (observe.syncs (trace run)) = ["t1"]
  /\ observe.statusWrites (trace run) = [].
Proof. cbv zeta. repeat split; vm_compute; reflexivity. Qed.

(** ** The job and its owner *)

Section JobProperties.

Variable SchemeGroupVersion : string.
Variable BuildResourceRequirements : backends.Resources -> coreV1.ResourceRequirements.

Local Abbreviation NewJob := (ghz.NewJob SchemeGroupVersion BuildResourceRequirements).

(** The metadata of the job [NewJob] builds. *)
Lemma NewJob_meta (b : ghz.Backend) (loadTest : loadTestV1.LoadTest)
  (configMap : coreV1.ConfigMap) (reportURL : string) :
  let job := value (NewJob b loadTest configMap reportURL) in
  metaV1.Name (batchV1.JobMeta job) = "loadtest-job"
  /\ metaV1.Namespace (batchV1.JobMeta job)
     = loadTestV1.Namespace (loadTestV1.Status loadTest)
  /\ metaV1.OwnerReferences (batchV1.JobMeta job) =
       [ metaV1.NewControllerRef (loadTestV1.ObjectMeta loadTest)
           SchemeGroupVersion "LoadTest" ].
Proof.
  cbv zeta. unfold ghz.NewJob. rewrite !value_bind.
  destruct (String.eqb _ ":"); repeat split.
Qed.

(** X15. An event of the job [NewJob] builds for a loadtest leads back to
    that loadtest: [handleObject] looks the owner up in the cache under the
    name of the loadtest and adds the key of what it finds there to the
    queue, and nothing else. *)
Theorem job_event_reaches_owner (c : controller.Controller) (b : ghz.Backend)
  (loadTest cached : loadTestV1.LoadTest) (configMap : coreV1.ConfigMap)
  (reportURL : string) :
  controller.Get (controller.loadtestsLister c) (loadTestV1.GetName loadTest)
    = errors.Ok cached ->
  exists key,
    cache.MetaNamespaceKeyFunc (OLoadTest cached) = errors.Ok key
    /\ observe.enqueued
         (trace (controller.handleObject c
                   (OJob (value (NewJob b loadTest configMap reportURL))))) = [key].
Proof.
  intros Hget.
  destruct (NewJob_meta b loadTest configMap reportURL) as [_ [_ Howner]].
  cbv zeta in Howner.
  unfold controller.handleObject. cbn [asMetaObject].
  pose proof (handleOwner_enqueues c
                (batchV1.JobMeta (value (NewJob b loadTest configMap reportURL))))
    as Hrun.
  rewrite Howner in Hrun.
  cbn [metaV1.GetControllerOf metaV1.NewControllerRef metaV1.Controller
       metaV1.Kind metaV1.OwnerName String.eqb Ascii.eqb Bool.eqb] in Hrun.
  change (metaV1.Name (loadTestV1.ObjectMeta loadTest))
    with (loadTestV1.GetName loadTest) in Hrun.
  rewrite Hget in Hrun. exact Hrun.
Qed.

(** X16. The job mounts the test file of its loadtest: the config map
    [NewTestFileConfigMap] builds holds [Spec.TestFile] under the key
    [config.json], the one volume of the job refers to that config map by
    name, and the one container mounts that volume at the path its
    [--config] argument names, with that key as sub-path. The pods are never
    restarted and carry the annotations of the backend. *)
Theorem NewJob_mounts_test_file (b : ghz.Backend) (loadTest : loadTestV1.LoadTest)
  (reportURL : string) :
  let configMap := ghz.NewTestFileConfigMap b loadTest in
  let job := value (NewJob b loadTest configMap reportURL) in
  let template := batchV1.Template (batchV1.Spec job) in
  exists data volume container mount,
    coreV1.Data configMap = Some data
    /\ coreV1.Volumes (coreV1.TemplateSpec template) = [volume]
    /\ coreV1.Containers (coreV1.TemplateSpec template) = [container]
    /\ coreV1.VolumeMounts container = [mount]
    /\ coreV1.ConfigMapName volume = metaV1.Name (coreV1.ConfigMapMeta configMap)
    /\ coreV1.MountName mount = coreV1.VolumeName volume
    /\ data !! coreV1.SubPath mount = Some (loadTestV1.TestFile (loadTestV1.Spec loadTest))
    /\ hd_error (coreV1.Args container) = Some ("--config=" +:+ coreV1.MountPath mount)
    /\ coreV1.RestartPolicy (coreV1.TemplateSpec template) = "Never"
    /\ metaV1.Annotations (coreV1.TemplateMeta template) = ghz.podAnnotations b.
Proof.
  cbv zeta. unfold ghz.NewJob. rewrite !value_bind.
  destruct (String.eqb _ ":"); cbn;
    (eexists; eexists; eexists; eexists;
     repeat (split; [reflexivity|]); try reflexivity).
Qed.

(** X17. For counters that are not negative, as a job reports them, the
    phase is Errored exactly when a pod failed, Running exactly when none
    failed and one is active, Starting exactly when all three counters are
    zero, and Finished exactly when none failed, none is active and one
    succeeded. It is never Creating. *)
Theorem determineLoadTestStatusFromJobs_counters (job : batchV1.Job) :
  let status := batchV1.Status job in
  let phase := ghz.determineLoadTestStatusFromJobs job in
  0 <= batchV1.Active status ->
  0 <= batchV1.Succeeded status ->
  0 <= batchV1.Failed status ->
  (phase = loadTestV1.LoadTestErrored <-> 0 < batchV1.Failed status)
  /\ (phase = loadTestV1.LoadTestRunning
      <-> batchV1.Failed status = 0 /\ 0 < batchV1.Active status)
  /\ (phase = loadTestV1.LoadTestStarting
      <-> batchV1.Failed status = 0 /\ batchV1.Active status = 0
          /\ batchV1.Succeeded status = 0)
  /\ (phase = loadTestV1.LoadTestFinished
      <-> batchV1.Failed status = 0 /\ batchV1.Active status = 0
          /\ 0 < batchV1.Succeeded status)
  /\ phase <> loadTestV1.LoadTestCreating.
Proof.
  intros status phase Hactive Hsucceeded Hfailed. subst phase.
  unfold ghz.determineLoadTestStatusFromJobs. fold status.
  destruct (Z.ltb_spec 0 (batchV1.Failed status));
  destruct (Z.ltb_spec 0 (batchV1.Active status));
  destruct (Z.eqb_spec (batchV1.Succeeded status) 0);
  destruct (Z.eqb_spec (batchV1.Failed status) 0);
  cbn [andb]; repeat split; intros; try discriminate; try lia; try reflexivity.
Qed.

End JobProperties.

(** A witness of X15: the job of the loadtest [t1], in whose cache [t1] is
    held. *)
Lemma job_event_reaches_owner_witness :
  observe.enqueued
    (trace (controller.handleObject sample.holdingT1
              (OJob (value (ghz.NewJob sample.groupVersion sample.noRequirements
                              sample.backend sample.unplaced
                              (ghz.NewTestFileConfigMap sample.backend sample.unplaced)
                              ""))))) = ["t1"].
Proof.
  destruct (job_event_reaches_owner sample.groupVersion sample.noRequirements
              sample.holdingT1 sample.backend sample.unplaced
              (sample.loadTest "t1" "" "" loadTestV1.LoadTestRunning "t1" None 0)
              (ghz.NewTestFileConfigMap sample.backend sample.unplaced) "" eq_refl)
    as [key [Hkey Hadded]].
  rewrite Hadded. inversion Hkey. reflexivity.
Defined.

(** A witness of X17: one pod succeeded. *)
Lemma determineLoadTestStatusFromJobs_counters_witness :
  ghz.determineLoadTestStatusFromJobs (sample.job 0 1 0) = loadTestV1.LoadTestFinished.
Proof.
  apply (determineLoadTestStatusFromJobs_counters (sample.job 0 1 0));
    cbn; lia.
Defined.

(** ** Staleness over time *)

Lemma Sub_monotone (t t' u : time.Time) : t <= t' -> time.Sub t u <= time.Sub t' u.
Proof.
  unfold time.Sub, time.minDuration, time.maxDuration. intros Hle.
  destruct (Z.ltb_spec (t - u) (- 2 ^ 63)); destruct (Z.ltb_spec (t' - u) (- 2 ^ 63));
    destruct (Z.ltb_spec (2 ^ 63 - 1) (t - u));
    destruct (Z.ltb_spec (2 ^ 63 - 1) (t' - u)); lia.
Qed.

(** X18. Staleness only grows: a loadtest that is stale at some instant
    under some threshold is stale, with the same status, at every later
    instant and under every smaller threshold. *)
Theorem checkLoadTestLifeTimeExceeded_monotone (now later : time.Time)
  (loadTest : loadTestV1.LoadTest) (threshold smaller : time.Duration) :
  now <= later ->
  smaller <= threshold ->
  controller.checkLoadTestLifeTimeExceeded now loadTest threshold = true ->
  controller.checkLoadTestLifeTimeExceeded later loadTest smaller = true.
Proof.
  intros Htime Hthreshold. unfold controller.checkLoadTestLifeTimeExceeded.
  rewrite !if_true_else_true.
  assert (Hgrow : forall t, (threshold <? time.Since now t) = true ->
                            (smaller <? time.Since later t) = true).
  { intros t Hlt. apply Z.ltb_lt in Hlt. apply Z.ltb_lt.
    pose proof (Sub_monotone now later t Htime). unfold time.Since in *. lia. }
  intros [Hfinished | Herrored].
  - left. destruct (batchV1.CompletionTime _) as [completionTime|]; [|discriminate].
    apply andb_true_iff in Hfinished. destruct Hfinished as [Hlt Hphase].
    rewrite (Hgrow _ Hlt), Hphase. reflexivity.
  - right. apply andb_true_iff in Herrored. destruct Herrored as [Hphase Hlt].
    rewrite (Hgrow _ Hlt), Hphase. reflexivity.
Qed.

(** A witness of X18: stale after two hours under a threshold of one hour,
    so stale after three hours under half an hour. *)
Lemma checkLoadTestLifeTimeExceeded_monotone_witness :
  controller.checkLoadTestLifeTimeExceeded (3 * 3600000000000)
    (sample.loadTest "t3" "" "" loadTestV1.LoadTestFinished "t3" (Some 0) 0)
    1800000000000 = true.
Proof.
  apply (checkLoadTestLifeTimeExceeded_monotone (2 * 3600000000000) _ _ 3600000000000);
    [lia | lia | reflexivity].
Defined.

(** ** What an event handler does *)

Lemma handleOwner_effects (c : controller.Controller) (object : metaV1.ObjectMeta) :
  forallb observe.isHandlerEffect (trace (controller.handleOwner c object)) = true
  /\ (length (observe.enqueued (trace (controller.handleOwner c object))) <= 1)%nat.
Proof.
  unfold controller.handleOwner, controller.enqueueLoadTest.
  destruct (metaV1.GetControllerOf _) as [ownerRef|]; [|split; [reflexivity|cbn; lia]].
  destruct (negb _); [split; [reflexivity|cbn; lia]|].
  rewrite trace_bind, trace_emit.
  destruct (controller.Get _ _) as [lt|err]; [|split; [reflexivity|cbn; lia]].
  rewrite MetaNamespaceKeyFunc_LoadTest. split; [reflexivity|cbn; lia].
Qed.

(** X19. An event handler does no input or output of its own: whatever the
    object, [handleObject], the Add and Update handlers of loadtests and the
    Update handlers of jobs and pods only log, report an error or add a key
    to the queue, and add at most one key. An object that [handleObject]
    cannot decode is reported and adds nothing. *)
Theorem handlers_only_enqueue (c : controller.Controller) (old obj : object) :
  let handled :=
    [ trace (controller.handleObject c obj);
      trace (controller.loadTestAddFunc c obj);
      trace (controller.loadTestUpdateFunc c old obj);
      trace (controller.jobUpdateFunc c old obj);
      trace (controller.podUpdateFunc c old obj) ] in
  Forall (fun t => forallb observe.isHandlerEffect t = true
                   /\ (length (observe.enqueued t) <= 1)%nat) handled
  /\ (asMetaObject obj = None ->
      (forall key inner, obj = OTombstone key inner -> asMetaObject inner = None) ->
      exists err, trace (controller.handleObject c obj) = [HandleError err]).
Proof.
  cbv zeta.
  assert (Hobject : forall o,
            forallb observe.isHandlerEffect (trace (controller.handleObject c o)) = true
            /\ (length (observe.enqueued (trace (controller.handleObject c o))) <= 1)%nat).
  { intros o. unfold controller.handleObject.
    destruct (asMetaObject o) as [object|] eqn:Hdecoded; [apply handleOwner_effects|].
    destruct o as [lt|j|p|k inner|s|]; try discriminate Hdecoded;
      try (split; [reflexivity|cbn; lia]).
    destruct (asMetaObject inner) as [object|]; [|split; [reflexivity|cbn; lia]].
    rewrite trace_bind, trace_emit, forallb_app, enqueued_app.
    destruct (handleOwner_effects c object) as [Honly Hone].
    rewrite Honly. split; [reflexivity|exact Hone]. }
  assert (Henqueue : forall o,
            forallb observe.isHandlerEffect (trace (controller.enqueueLoadTest c o)) = true
            /\ (length (observe.enqueued (trace (controller.enqueueLoadTest c o))) <= 1)%nat).
  { intros o. unfold controller.enqueueLoadTest.
    destruct (cache.MetaNamespaceKeyFunc o); split; try reflexivity; cbn; lia. }
  assert (Hjob : forallb observe.isHandlerEffect
                   (trace (controller.jobUpdateFunc c old obj)) = true
                 /\ (length (observe.enqueued
                               (trace (controller.jobUpdateFunc c old obj))) <= 1)%nat).
  { unfold controller.jobUpdateFunc.
    destruct obj; try (split; [reflexivity|cbn; lia]).
    destruct old; try (split; [reflexivity|cbn; lia]).
    destruct (String.eqb _ _); [split; [reflexivity|cbn; lia]|].
    rewrite trace_bind, trace_ret, app_nil_r. apply Hobject. }
  assert (Hpod : forallb observe.isHandlerEffect
                   (trace (controller.podUpdateFunc c old obj)) = true
                 /\ (length (observe.enqueued
                               (trace (controller.podUpdateFunc c old obj))) <= 1)%nat).
  { unfold controller.podUpdateFunc.
    destruct obj; try (split; [reflexivity|cbn; lia]).
    destruct old; try (split; [reflexivity|cbn; lia]).
    destruct (String.eqb _ _); [split; [reflexivity|cbn; lia]|].
    rewrite trace_bind, trace_ret, app_nil_r. apply Hobject. }
  split.
  - constructor; [apply Hobject|].
    constructor; [apply Henqueue|].
    constructor; [apply Henqueue|].
    constructor; [exact Hjob|].
    constructor; [exact Hpod|].
    constructor.
  - intros Hnone Hinner. unfold controller.handleObject. rewrite Hnone.
    destruct obj as [lt|j|p|k inner|s|]; try discriminate Hnone;
      try (eexists; reflexivity).
    rewrite (Hinner k inner eq_refl). eexists. reflexivity.
Qed.

(** ** More on entries of the form [key:value] *)

Lemma stripQuotes_stripped (a : string) :
  cmd.occurs cmd.doubleQuote (cmd.stripQuotes a) = false.
Proof.
  induction a as [|c a IH]; [reflexivity|].
  cbn [cmd.stripQuotes]. destruct (Ascii.eqb c cmd.doubleQuote) eqn:Hc; [exact IH|].
  cbn [cmd.occurs]. rewrite Hc, IH. reflexivity.
Qed.

(** The two parts of a split hold no byte the whole does not hold. *)
Lemma SplitN2_parts (c : ascii) (a key value : string) (rest : list string) :
  cmd.SplitN2 a = key :: value :: rest ->
  cmd.occurs c a = false ->
  cmd.occurs c key = false /\ cmd.occurs c value = false.
Proof.
  revert key. induction a as [|x a IH]; intros key; [discriminate|].
  cbn [cmd.SplitN2 cmd.occurs]. rewrite orb_false_iff. intros Hsplit [Hx Ha].
  destruct (Ascii.eqb x ":").
  - inversion Hsplit; subst. split; [reflexivity|exact Ha].
  - destruct (cmd.SplitN2 a) as [|head tail]; [discriminate|].
    inversion Hsplit; subst.
    destruct (IH head eq_refl Ha) as [Hhead Hvalue].
    cbn [cmd.occurs]. rewrite Hx, Hhead. split; [reflexivity|exact Hvalue].
Qed.

(** A string with a colon splits in two at its first colon, and the two
    parts joined by a colon give the string back. *)
Lemma SplitN2_colon (a : string) :
  cmd.occurs ":" a = true ->
  exists key value,
    cmd.SplitN2 a = [key; value]
    /\ a = key +:+ ":" +:+ value
    /\ cmd.occurs ":" key = false.
Proof.
  induction a as [|x a IH]; [discriminate|].
  cbn [cmd.occurs cmd.SplitN2]. destruct (Ascii.eqb_spec x ":") as [->|Hx].
  - intros _. exists "", a. repeat split.
  - cbn [orb]. intros Ha. destruct (IH Ha) as [key [value [Hsplit [Hjoin Hkey]]]].
    exists (String x key), value. rewrite Hsplit. split; [reflexivity|]. split.
    + rewrite Hjoin. reflexivity.
    + cbn [cmd.occurs]. rewrite Hkey.
      destruct (Ascii.eqb_spec x ":"); [contradiction|reflexivity].
Qed.

Lemma convertEntries_clean (Quote : string -> string) (s : list string)
  (m converted : gmap string string) :
  cmd.convertEntries Quote s m = errors.Ok (Some converted) ->
  (forall key value, m !! key = Some value ->
     cmd.occurs cmd.doubleQuote key = false /\ cmd.occurs cmd.doubleQuote value = false) ->
  forall key value, converted !! key = Some value ->
    cmd.occurs cmd.doubleQuote key = false /\ cmd.occurs cmd.doubleQuote value = false.
Proof.
  revert m. induction s as [|a rest IH]; intros m; cbn [cmd.convertEntries].
  - intros Hok Hm. inversion Hok; subst. exact Hm.
  - destruct (cmd.SplitN2 (cmd.stripQuotes a)) as [|k [|v tail]] eqn:Hsplit;
      try discriminate.
    intros Hok Hm. apply (IH _ Hok).
    intros key value Hlookup.
    destruct (decide (k = key)) as [->|Hother].
    + rewrite lookup_insert_eq in Hlookup. inversion Hlookup; subst.
      exact (SplitN2_parts _ _ _ _ _ Hsplit (stripQuotes_stripped a)).
    + rewrite lookup_insert_ne in Hlookup by exact Hother. exact (Hm _ _ Hlookup).
Qed.

(** X20. No key and no value of a converted map holds a double quote,
    wherever the quotes stood in the entries. *)
Theorem convertKeyPairStringToMap_no_quotes (Quote : string -> string)
  (s : list string) (converted : gmap string string) :
  cmd.convertKeyPairStringToMap Quote s = errors.Ok (Some converted) ->
  forall key value, converted !! key = Some value ->
    cmd.occurs cmd.doubleQuote key = false /\ cmd.occurs cmd.doubleQuote value = false.
Proof.
  intros Hok. apply (convertEntries_clean Quote s ∅ converted Hok).
  intros key value Hlookup. rewrite lookup_empty in Hlookup. discriminate Hlookup.
Qed.

Lemma convertEntries_colons (Quote : string -> string) (s : list string)
  (m : gmap string string) :
  Forall (fun a => cmd.occurs ":" (cmd.stripQuotes a) = true) s ->
  exists converted, cmd.convertEntries Quote s m = errors.Ok (Some converted).
Proof.
  intros Hall. revert m. induction Hall as [|a rest Ha _ IH]; intros m.
  - exists m. reflexivity.
  - cbn [cmd.convertEntries].
    destruct (SplitN2_colon _ Ha) as [key [value [Hsplit _]]]. rewrite Hsplit.
    apply IH.
Qed.

Lemma convertEntries_first_invalid (Quote : string -> string)
  (before after : list string) (a : string) (m : gmap string string) :
  Forall (fun a => cmd.occurs ":" (cmd.stripQuotes a) = true) before ->
  cmd.occurs ":" (cmd.stripQuotes a) = false ->
  cmd.convertEntries Quote (before ++ a :: after) m =
    errors.Err (errors.Errorf
                  ("Annotation " +:+ Quote (cmd.stripQuotes a) +:+ " is invalid") []).
Proof.
  intros Hbefore Ha. revert m. induction Hbefore as [|b rest Hb _ IH]; intros m.
  - cbn [app cmd.convertEntries]. rewrite (SplitN2_no_colon _ Ha). reflexivity.
  - cbn [app cmd.convertEntries].
    destruct (SplitN2_colon _ Hb) as [key [value [Hsplit _]]]. rewrite Hsplit.
    apply IH.
Qed.

(** X21. The conversion succeeds exactly when every entry, its double
    quotes dropped, holds a colon. Otherwise it returns no map and an error
    made from the first entry without one, whatever follows it: the error
    has no operand, and its format is the text [Annotation ... is invalid]
    around that entry, its quotes dropped, as [%q] quotes it. The text is
    so formatted a second time, by [fmt.Errorf]. *)
Theorem convertKeyPairStringToMap_fails_iff (Quote : string -> string) (s : list string) :
  ((exists converted, cmd.convertKeyPairStringToMap Quote s = errors.Ok (Some converted))
   <-> Forall (fun a => cmd.occurs ":" (cmd.stripQuotes a) = true) s)
  /\ (forall before a after,
        s = (before ++ a :: after)%list ->
        Forall (fun a => cmd.occurs ":" (cmd.stripQuotes a) = true) before ->
        cmd.occurs ":" (cmd.stripQuotes a) = false ->
        cmd.convertKeyPairStringToMap Quote s =
          errors.Err (errors.Errorf
                        ("Annotation " +:+ Quote (cmd.stripQuotes a) +:+ " is invalid")
                        [])).
Proof.
  assert (Hfirst : forall before a after,
            s = (before ++ a :: after)%list ->
            Forall (fun a => cmd.occurs ":" (cmd.stripQuotes a) = true) before ->
            cmd.occurs ":" (cmd.stripQuotes a) = false ->
            cmd.convertKeyPairStringToMap Quote s =
              errors.Err (errors.Errorf
                            ("Annotation " +:+ Quote (cmd.stripQuotes a) +:+ " is invalid")
                            [])).
  { intros before a after -> Hbefore Ha.
    apply convertEntries_first_invalid; assumption. }
  split; [|exact Hfirst]. split.
  - intros [converted Hok].
    assert (Hsplit : forall l,
              Forall (fun a => cmd.occurs ":" (cmd.stripQuotes a) = true) l
              \/ exists before a after,
                   l = (before ++ a :: after)%list
                   /\ Forall (fun a => cmd.occurs ":" (cmd.stripQuotes a) = true) before
                   /\ cmd.occurs ":" (cmd.stripQuotes a) = false).
    { induction l as [|a l IH]; [left; constructor|].
      destruct (cmd.occurs ":" (cmd.stripQuotes a)) eqn:Ha.
      - destruct IH as [Hall | [before [b [after [-> [Hbefore Hb]]]]]].
        + left. constructor; assumption.
        + right. exists (a :: before), b, after.
          split; [reflexivity|]. split; [constructor; assumption|exact Hb].
      - right. exists [], a, l. split; [reflexivity|]. split; [constructor|exact Ha]. }
    destruct (Hsplit s) as [Hall | [before [a [after [Hs [Hbefore Ha]]]]]];
      [exact Hall|].
    rewrite (Hfirst before a after Hs Hbefore Ha) in Hok. discriminate Hok.
  - intros Hall. apply convertEntries_colons. exact Hall.
Qed.

Lemma convertEntries_app (Quote : string -> string) (s1 s2 : list string)
  (m : gmap string string) :
  cmd.convertEntries Quote (s1 ++ s2) m =
    match cmd.convertEntries Quote s1 m with
    | errors.Ok (Some made) => cmd.convertEntries Quote s2 made
    | other => other
    end.
Proof.
  revert m. induction s1 as [|a s1 IH]; intros m; [reflexivity|].
  cbn [app cmd.convertEntries].
  destruct (cmd.SplitN2 (cmd.stripQuotes a)) as [|k [|v tail]]; try reflexivity.
  apply IH.
Qed.

(** X22. Entries are taken in order and a later entry wins: converting a
    list followed by one more entry [key:value] (no double quote, no colon
    in the key) gives the map of the list with [key] set to [value],
    whatever the list gave for that key. *)
Theorem convertKeyPairStringToMap_last_wins (Quote : string -> string)
  (s : list string) (converted : gmap string string) (key value : string) :
  cmd.convertKeyPairStringToMap Quote s = errors.Ok (Some converted) ->
  cmd.occurs ":" key = false ->
  cmd.occurs cmd.doubleQuote key = false ->
  cmd.occurs cmd.doubleQuote value = false ->
  cmd.convertKeyPairStringToMap Quote (s ++ [key +:+ ":" +:+ value])
    = errors.Ok (Some (<[key := value]> converted)).
Proof.
  intros Hok Hcolon Hkey Hvalue. unfold cmd.convertKeyPairStringToMap in *.
  rewrite convertEntries_app, Hok. cbn [cmd.convertEntries].
  rewrite stripQuotes_clean
    by (rewrite !occurs_append, Hkey, Hvalue; reflexivity).
  rewrite (SplitN2_first_colon key value Hcolon). reflexivity.
Qed.

(** A witness of X20: the entry of the comment in the source, with its
    quotes. *)
Lemma convertKeyPairStringToMap_no_quotes_witness :
  cmd.occurs cmd.doubleQuote "iam.amazonaws.com/role" = false
  /\ cmd.occurs cmd.doubleQuote " arn:aws:iam::id:role/some-role" = false.
Proof.
  apply (convertKeyPairStringToMap_no_quotes sample.quote
           ["iam.amazonaws.com/role: "
              +:+ String cmd.doubleQuote "arn:aws:iam::id:role/some-role"
              +:+ String cmd.doubleQuote ""]
           {[ "iam.amazonaws.com/role" := " arn:aws:iam::id:role/some-role" ]}).
  - vm_compute. reflexivity.
  - vm_compute. reflexivity.
Defined.

(** A witness of X22: the same key twice. *)
Lemma convertKeyPairStringToMap_last_wins_witness :
  cmd.convertKeyPairStringToMap sample.quote ["team:a"; "team" +:+ ":" +:+ "b"]
  = errors.Ok (Some (<["team" := "b"]> {[ "team" := "a" ]})).
Proof.
  exact (convertKeyPairStringToMap_last_wins sample.quote ["team:a"] {[ "team" := "a" ]} "team" "b"
           eq_refl eq_refl eq_refl eq_refl).
Defined.

(** ** Report URLs of different loadtests *)

Lemma length_append (a b : string) :
  String.length (a +:+ b) = (String.length a + String.length b)%nat.
Proof.
  induction a as [|c a IH]; [reflexivity|].
  change (String c a +:+ b) with (String c (a +:+ b)).
  cbn [String.length]. rewrite IH. reflexivity.
Qed.

Lemma append_cancel_r (a b s : string) : a +:+ s = b +:+ s -> a = b.
Proof.
  revert b. induction a as [|x a IH]; intros [|y b] Heq.
  - reflexivity.
  - apply (f_equal String.length) in Heq.
    change (String y b +:+ s) with (String y (b +:+ s)) in Heq.
    cbn [String.length] in Heq. rewrite !length_append in Heq.
    cbn [String.length] in Heq. lia.
  - apply (f_equal String.length) in Heq.
    change (String x a +:+ s) with (String x (a +:+ s)) in Heq.
    cbn [String.length] in Heq. rewrite !length_append in Heq.
    cbn [String.length] in Heq. lia.
  - change (String x (a +:+ s) = String y (b +:+ s)) in Heq.
    inversion Heq; subst. f_equal. apply IH. assumption.
Qed.

Lemma append_cancel_l (s a b : string) : s +:+ a = s +:+ b -> a = b.
Proof.
  induction s as [|c s IH]; [intros Heq; exact Heq|].
  intros Heq. change (String c (s +:+ a) = String c (s +:+ b)) in Heq.
  inversion Heq. apply IH. assumption.
Qed.

(** X23. With a proxy URL configured, loadtests with different names have
    different report URLs: the report URL determines the name. *)
Theorem reportURL_determines_name (c : controller.Controller)
  (one other : loadTestV1.LoadTest) :
  controller.KangalProxyURL (controller.cfg c) <> "" ->
  controller.reportURLFor c one = controller.reportURLFor c other ->
  loadTestV1.GetName one = loadTestV1.GetName other.
Proof.
  intros Hproxy. unfold controller.reportURLFor.
  destruct (String.eqb_spec (controller.KangalProxyURL (controller.cfg c)) "");
    [contradiction|]. cbn [negb].
  intros Heq. apply append_cancel_l in Heq. apply append_cancel_l in Heq.
  apply append_cancel_r in Heq. exact Heq.
Qed.

(** A witness of X23: two states of the loadtest [t2] under the proxy
    [https://p.example]. *)
Lemma reportURL_determines_name_witness :
  loadTestV1.GetName
    (sample.loadTest "t2" "" "" loadTestV1.LoadTestCreating "" None 0)
  = loadTestV1.GetName
      (sample.loadTest "t2" "" "" loadTestV1.LoadTestRunning "t2" None 0).
Proof.
  apply (reportURL_determines_name
           (sample.controllerOf (sample.config "https://p.example" 0 (Some ∅))
              (errors.Err sample.notFound) []
              (sample.reporting loadTestV1.LoadTestRunning) None None OOther 0)).
  - discriminate.
  - reflexivity.
Defined.

(** ** The worker loop *)

Section WorkerLoop.

Variable SchemeGroupVersion : string.
Variable PhaseString : loadTestV1.LoadTestPhase -> string.

Local Abbreviation processNextWorkItem :=
  (controller.processNextWorkItem SchemeGroupVersion PhaseString).
Local Abbreviation runWorker := (worker.runWorker SchemeGroupVersion PhaseString).

(** The item the queue hands out in a turn. *)
Local Abbreviation item :=
  (fun c : controller.Controller => fst (controller.Queue_Get (controller.workQueue c))).

(** A turn in which the queue reports its shut-down has no effect. *)
Lemma turn_shutdown (c : controller.Controller) :
  snd (controller.Queue_Get (controller.workQueue c)) = true ->
  processNextWorkItem c = (golang.Normal false, []).
Proof.
  unfold controller.processNextWorkItem.
  destruct (controller.Queue_Get (controller.workQueue c)) as [obj shutdown].
  cbn [snd]. intros ->. reflexivity.
Qed.

(** A turn after which the loop goes on leaves the item it took marked. *)
Lemma continuing_turn_done (c : controller.Controller) :
  value (processNextWorkItem c) = golang.Normal true ->
  observe.done (trace (processNextWorkItem c)) = [item c].
Proof.
  unfold controller.processNextWorkItem.
  destruct (controller.Queue_Get (controller.workQueue c)) as [obj shutdown].
  destruct shutdown; [discriminate|]. intros _. cbn [fst].
  destruct (processItem_ends_done SchemeGroupVersion PhaseString c obj)
    as [before [Htrace Hdone]].
  eff_simpl. rewrite !done_app, Htrace, done_app, Hdone.
  assert (Hnone : observe.done
                    (match obj with
                     | OString key =>
                         trace (controller.syncHandler SchemeGroupVersion PhaseString c key)
                     | _ => []
                     end) = []).
  { destruct obj; try reflexivity.
    apply reconcile_effects_not_done, syncHandler_effects. }
  rewrite Hnone.
  destruct (value (controller.processItem _ _ c obj)) as [[err|]|msg]; reflexivity.
Qed.

(** The turns that go on, then the rest of the loop. *)
Lemma runWorker_continuing (before rest : list controller.Controller) :
  Forall (fun c => value (processNextWorkItem c) = golang.Normal true) before ->
  value (runWorker (before ++ rest)) = value (runWorker rest)
  /\ observe.done (trace (runWorker (before ++ rest)))
     = (map item before ++ observe.done (trace (runWorker rest)))%list.
Proof.
  induction 1 as [|c before Hc _ [IHvalue IHdone]]; [split; reflexivity|].
  cbn [app worker.runWorker map]. rewrite value_bind, trace_bind, Hc, done_app.
  rewrite (continuing_turn_done c Hc), IHdone. split; [exact IHvalue|reflexivity].
Qed.

(** X24. A worker takes items in the order the queue hands them out and
    marks each of them done once, as long as no reconcile panics. When the
    queue reports its shut-down the worker returns and takes nothing of what
    the queue would hand out after that; as long as the queue has not, it
    waits for the next item. *)
Theorem runWorker_until_shutdown (before after : list controller.Controller)
  (last : controller.Controller) :
  Forall (fun c => value (processNextWorkItem c) = golang.Normal true) before ->
  (snd (controller.Queue_Get (controller.workQueue last)) = true ->
     runWorker (before ++ last :: after) = runWorker (before ++ [last])
     /\ value (runWorker (before ++ last :: after)) = worker.Returned
     /\ observe.done (trace (runWorker (before ++ last :: after))) = map item before)
  /\ value (runWorker before) = worker.Waiting
  /\ observe.done (trace (runWorker before)) = map item before.
Proof.
  intros Hbefore. split; [|].
  - intros Hshutdown.
    pose proof (turn_shutdown last Hshutdown) as Hlast.
    assert (Hstop : forall rest, runWorker (last :: rest) = (worker.Returned, [])).
    { intros rest. cbn [worker.runWorker]. rewrite Hlast. reflexivity. }
    destruct (runWorker_continuing before (last :: after) Hbefore) as [Hvalue Hdone].
    rewrite Hvalue, Hdone, Hstop. cbn. rewrite app_nil_r.
    split; [|split; reflexivity].
    clear Hvalue Hdone. induction Hbefore as [|c before Hc _ IH].
    + cbn [app]. rewrite !Hstop. reflexivity.
    + cbn [app worker.runWorker]. unfold bind.
      destruct (processNextWorkItem c) as [[[|]|msg] t]; try reflexivity.
      rewrite IH. reflexivity.
  - destruct (runWorker_continuing before [] Hbefore) as [Hvalue Hdone].
    rewrite app_nil_r in Hvalue, Hdone. rewrite Hvalue, Hdone. cbn.
    rewrite app_nil_r. split; reflexivity.
Qed.

End WorkerLoop.

(** A witness of X24: the worker reconciles [t1], then sees the queue shut
    down; what the queue would hand out next is not taken. *)
Lemma runWorker_until_shutdown_witness :
  value (worker.runWorker sample.groupVersion sample.phaseString
           [sample.startingT1; sample.shutDown; sample.staleT3]) = worker.Returned
  /\ observe.done (trace (worker.runWorker sample.groupVersion sample.phaseString
                            [sample.startingT1; sample.shutDown; sample.staleT3]))
     = [OString "t1"].
Proof.
  refine (proj2 (proj1 (runWorker_until_shutdown sample.groupVersion sample.phaseString
                          [sample.startingT1] [sample.staleT3] sample.shutDown _)
                   eq_refl)).
  constructor; [vm_compute; reflexivity|constructor].
Defined.
